(** * Zoho Projects MCP server: credential lifecycle and request dispatch

    A shallow embedding of [src/index.ts]: the credential state of
    [ZohoProjectsServer], [refreshAccessToken], [makeRequest],
    [downloadInlineImage] and [listTasklists], together with the properties
    of the dispatch layer.

    The server talks to the outside world through [Date.now()], [fetch] and
    [console.error].  The outside world is an oracle [Env]: a function from
    the history of interactions so far to the next clock reading or the next
    outcome of a [fetch].  Every theorem quantifies over all such oracles. *)

From Stdlib Require Import ZArith String Ascii List Bool Lia DecimalString.
Import ListNotations.

Set Warnings "-register-all".

Open Scope string_scope.
Open Scope Z_scope.
Open Scope list_scope.

(** ** JavaScript values *)

Module Js.

(** Values that flow through the tool layer: parsed JSON, plus
    [undefined] for absent properties and absent arguments.  Numbers are
    the integers (ids, counts, pages); one beyond the safe integers stands
    for the double that is nearest to it. *)
Inductive Val : Type :=
| Undefined
| Null
| Bool (b : bool)
| Num (n : Z)
| Str (s : string)
| Arr (items : list Val)
| Obj (fields : list (string * Val)).

(** [if (s)] on a string. *)
Definition truthyStr (s : string) : bool := negb (String.eqb s "").

(** [if (v)] on a value. *)
Definition truthy (v : Val) : bool :=
  match v with
  | Undefined | Null => false
  | Bool b => b
  | Num n => negb (n =? 0)
  | Str s => truthyStr s
  | Arr _ | Obj _ => true
  end.

Fixpoint lookup (k : string) (fields : list (string * Val)) : Val :=
  match fields with
  | [] => Undefined
  | (k', v) :: rest => if String.eqb k k' then v else lookup k rest
  end.

Definition isUndefined (v : Val) : bool :=
  match v with Undefined => true | _ => false end.

(** The document [JSON.stringify] writes: a property whose value is
    [undefined] is left out, an [undefined] array item becomes [null]. *)
Fixpoint toJSON (v : Val) : Val :=
  match v with
  | Arr items =>
      Arr (map (fun x => if isUndefined x then Null else toJSON x) items)
  | Obj fields =>
      Obj ((fix props (fs : list (string * Val)) : list (string * Val) :=
              match fs with
              | [] => []
              | (k, x) :: rest =>
                  if isUndefined x then props rest
                  else (k, toJSON x) :: props rest
              end) fields)
  | _ => v
  end.

(** [{...fields, key: v}]: an existing key keeps its place. *)
Fixpoint setProp (key : string) (v : Val) (fields : list (string * Val))
  : list (string * Val) :=
  match fields with
  | [] => [(key, v)]
  | (k, x) :: rest =>
      if String.eqb key k then (k, v) :: rest
      else (k, x) :: setProp key v rest
  end.

Definition indexKey (i : nat) : string :=
  NilZero.string_of_uint (Nat.to_uint i).

Fixpoint indexed (i : nat) (items : list Val) : list (string * Val) :=
  match items with
  | [] => []
  | x :: rest => (indexKey i, x) :: indexed (S i) rest
  end.

Fixpoint chars (s : string) : list Val :=
  match s with
  | EmptyString => []
  | String c rest => Str (String c EmptyString) :: chars rest
  end.

(** The own enumerable properties copied by [{...v}]. *)
Definition spread (v : Val) : list (string * Val) :=
  match v with
  | Obj fields => fields
  | Arr items => indexed 0 items
  | Str s => indexed 0 (chars s)
  | _ => []
  end.

(** [haystack.includes(needle)] *)
Fixpoint includes (needle haystack : string) : bool :=
  if String.prefix needle haystack then true
  else match haystack with
       | EmptyString => false
       | String _ rest => includes needle rest
       end.

Fixpoint drop (n : nat) (s : string) : string :=
  match n, s with
  | O, _ => s
  | S n', String _ rest => drop n' rest
  | S _, EmptyString => EmptyString
  end.

(** [s.replace(pattern, replacement)] with a string pattern and a
    replacement without [$]: the first occurrence only. *)
Fixpoint replace (pattern replacement s : string) : string :=
  if String.prefix pattern s
  then String.append replacement (drop (String.length pattern) s)
  else match s with
       | EmptyString => EmptyString
       | String c rest => String c (replace pattern replacement rest)
       end.

(** [Buffer.from(bytes).toString('base64')] *)
Definition base64Alphabet : string :=
  "ABCDEFGHIJKLMNOPQRSTUVWXYZabcdefghijklmnopqrstuvwxyz0123456789+/".

Definition sextet (n : N) : ascii :=
  match String.get (N.to_nat (N.modulo n 64)) base64Alphabet with
  | Some c => c
  | None => "="%char
  end.

Fixpoint base64 (bytes : string) : string :=
  match bytes with
  | EmptyString => EmptyString
  | String a EmptyString =>
      let n := (N_of_ascii a * 16)%N in
      String (sextet (n / 64)) (String (sextet n) "==")
  | String a (String b EmptyString) =>
      let n := ((N_of_ascii a * 256 + N_of_ascii b) * 4)%N in
      String (sextet (n / 4096)) (String (sextet (n / 64)) (String (sextet n) "="))
  | String a (String b (String c rest)) =>
      let n := ((N_of_ascii a * 256 + N_of_ascii b) * 256 + N_of_ascii c)%N in
      String (sextet (n / 262144))
        (String (sextet (n / 4096))
           (String (sextet (n / 64)) (String (sextet n) (base64 rest))))
  end.

(** The decimal digits of an integer, with a minus sign below zero. *)
Definition decimal (n : Z) : string := NilZero.string_of_int (Z.to_int n).

(** [Number.isSafeInteger(n)]: up to [Number.MAX_SAFE_INTEGER], 2^53 - 1. *)
Definition isSafeInteger (n : Z) : bool := Z.abs n <=? 9007199254740991.

(** [String(n)] on a number.  A safe integer prints as its decimal digits.
    Beyond the safe range a number is the nearest double, which prints with
    the fewest digits that give it back, and in exponent form from 1e21 on
    (1e+21): [beyond] is that rendering, which is not spelled out here. *)
Definition numberToString (beyond : Z -> string) (n : Z) : string :=
  if isSafeInteger n then decimal n else beyond n.

(** [String(v)], which is also what a template literal does with [v]. *)
Fixpoint toStr (beyond : Z -> string) (v : Val) : string :=
  match v with
  | Undefined => "undefined"
  | Null => "null"
  | Bool true => "true"
  | Bool false => "false"
  | Num n => numberToString beyond n
  | Str s => s
  | Arr items =>
      String.concat ","
        (map (fun x => match x with
                       | Undefined | Null => ""
                       | _ => toStr beyond x
                       end) items)
  | Obj _ => "[object Object]"
  end.

(** [encodeURIComponent(s)], a string being its UTF-8 bytes: every byte but
    the letters, the digits and [- _ . ! ~ * ' ( )] becomes [%XX]. *)
Definition isUnreserved (c : ascii) : bool :=
  let n := nat_of_ascii c in
  ((65 <=? n) && (n <=? 90) || (97 <=? n) && (n <=? 122)
   || (48 <=? n) && (n <=? 57))%nat
  || existsb (Ascii.eqb c) ["-"; "_"; "."; "!"; "~"; "*"; "'"; "("; ")"]%char.

Definition hexDigit (n : nat) : ascii :=
  match String.get n "0123456789ABCDEF" with
  | Some c => c
  | None => "0"%char
  end.

Fixpoint encodeURIComponent (s : string) : string :=
  match s with
  | EmptyString => EmptyString
  | String c rest =>
      if isUnreserved c then String c (encodeURIComponent rest)
      else
        let n := nat_of_ascii c in
        String "%"
          (String (hexDigit (n / 16))
             (String (hexDigit (n mod 16)) (encodeURIComponent rest)))
  end.

(** [const { k1, k2, ...rest } = {fields}]: the fields that [rest] gets. *)
Fixpoint omit (keys : list string) (fields : list (string * Val))
  : list (string * Val) :=
  match fields with
  | [] => []
  | (k, x) :: more =>
      if existsb (String.eqb k) keys then omit keys more
      else (k, x) :: omit keys more
  end.

(** [v === "text"] *)
Definition isStr (text : string) (v : Val) : bool :=
  match v with
  | Str s => String.eqb s text
  | _ => false
  end.

End Js.

(** ** Errors and log lines *)

Inductive ErrorCode : Type := InvalidRequest | MethodNotFound | InternalError.

(** What a [throw] carries.  The text of a message is kept as its template
    and the values interpolated into it. *)
Inductive JsError : Type :=
| FetchFailed (reason : string)
    (* the rejection of [fetch] on a network failure *)
| NotJson
    (* the rejection of [response.json()] on a body that is not JSON *)
| TypeError (what : string)
    (* property access on null, or a call of something not a function *)
| RefreshRejected (status : Z) (errorText : string)
    (* Error(`Failed to refresh token: ${status} - ${errorText}`) *)
| McpError (code : ErrorCode) (message : McpMessage)
with McpMessage : Type :=
| FailedToRefresh (cause : JsError)
    (* `Failed to refresh access token: ${error}` *)
| AccessTokenNotConfigured
    (* "Zoho access token not configured. Set ZOHO_ACCESS_TOKEN environment variable." *)
| ZohoApiError (status : Z) (errorText : string)
    (* `Zoho API error: ${response.status} - ${errorText}` *)
| ImageTokenNotConfigured
    (* "Zoho access token not configured." *)
| ImageDownloadFailed (status : Z) (errorText : string)
    (* `Failed to download image: ${response.status} - ${await response.text()}` *)
| ImageDownloadFailedAfterRefresh (status : Z)
    (* `Failed to download image after token refresh: ${retryResponse.status}` *)
| ImageDownloadError (cause : JsError).
    (* `Error downloading inline image: ${error}` *)

Definition isMcpError (e : JsError) : bool :=
  match e with McpError _ _ => true | _ => false end.

(** Lines written with [console.error]. *)
Inductive LogLine : Type :=
| LogCannotRefresh
    (* "Cannot refresh token: missing refresh token, client ID, or client secret" *)
| LogRefreshed (expires_in : Z)
    (* `Access token refreshed successfully. Expires in ${expires_in} seconds.` *)
| LogRefreshError (error : JsError)
    (* `Error refreshing access token: ${error}` *)
| LogReceived401
    (* "Received 401 error, attempting token refresh..." *)
| LogTokenRefreshFailed (refreshError : JsError).
    (* "Token refresh failed:", refreshError *)

(** What a tool hands back: [{content: [{type: "text", text}]}], where
    [text] is [JSON.stringify(document, null, 2)], or
    [{content: [{type: "image", data, mimeType}]}]. *)
Inductive ToolResult : Type :=
| TextContent (document : Js.Val)
| ImageContent (data mimeType : string).

(** ** HTTP *)

(** The declared type of the token endpoint's JSON body. *)
Record TokenData : Type := mkTokenData {
  access_token : string;
  expires_in : Z
}.

(** A response: status, body, the body as JSON when it parses ([J] is the
    type the caller reads it at), and the [content-type] header. *)
Record Response (J : Type) : Type := mkResponse {
  status : Z;
  body : string;
  parsed : option J;
  contentType : option string
}.
Arguments mkResponse {J}.
Arguments status {J}.
Arguments body {J}.
Arguments parsed {J}.
Arguments contentType {J}.

(** [response.ok] *)
Definition ok {J} (r : Response J) : bool :=
  (200 <=? status r) && (status r <=? 299).

Inductive FetchOutcome (J : Type) : Type :=
| Rejected (reason : string)
| Resolved (r : Response J).
Arguments Rejected {J}.
Arguments Resolved {J}.

(** The POST to the identity provider. *)
Record TokenRequest : Type := mkTokenRequest {
  tokenUrl : string;
  tokenParams : list (string * string)
}.

(** A request to a resource endpoint. *)
Record ResourceRequest : Type := mkResourceRequest {
  url : string;
  method : option string;
  headers : list (string * string);
  payload : option Js.Val
}.

Inductive Event : Type :=
| EvClock (t : Z)
| EvToken (req : TokenRequest) (out : FetchOutcome TokenData)
| EvResource (req : ResourceRequest) (out : FetchOutcome Js.Val).

(** The outside world. *)
Record Env : Type := mkEnv {
  clock : list Event -> Z;
  tokenEndpoint : list Event -> TokenRequest -> FetchOutcome TokenData;
  resourceEndpoint : list Event -> ResourceRequest -> FetchOutcome Js.Val
}.

(** ** The server's state *)

Record ZohoConfig : Type := mkConfig {
  accessToken : string;
  portalId : string;
  apiDomain : string;
  refreshToken : string;
  clientId : string;
  clientSecret : string;
  accountsDomain : string
}.

Record State : Type := mkState {
  config : ZohoConfig;
  baseUrl : string;
  tokenExpiresAt : Z;         (* Unix timestamp in milliseconds *)
  history : list Event;       (* oldest first *)
  console : list LogLine      (* oldest first *)
}.

Definition withAccessToken (tok : string) (c : ZohoConfig) : ZohoConfig :=
  mkConfig tok (portalId c) (apiDomain c) (refreshToken c) (clientId c)
           (clientSecret c) (accountsDomain c).

Definition setAccessToken (tok : string) (s : State) : State :=
  mkState (withAccessToken tok (config s)) (baseUrl s) (tokenExpiresAt s)
          (history s) (console s).

Definition setTokenExpiresAt (t : Z) (s : State) : State :=
  mkState (config s) (baseUrl s) t (history s) (console s).

Definition record (e : Event) (s : State) : State :=
  mkState (config s) (baseUrl s) (tokenExpiresAt s) (history s ++ [e]) (console s).

Definition logged (l : LogLine) (s : State) : State :=
  mkState (config s) (baseUrl s) (tokenExpiresAt s) (history s) (console s ++ [l]).

(** [refreshToken && clientId && clientSecret] *)
Definition canRefresh (c : ZohoConfig) : bool :=
  Js.truthyStr (refreshToken c) && Js.truthyStr (clientId c)
  && Js.truthyStr (clientSecret c).

(** Lines 70-83: the form-encoded POST to [accountsDomain/oauth/v2/token]. *)
Definition tokenRequestFor (c : ZohoConfig) : TokenRequest :=
  mkTokenRequest
    (String.append (accountsDomain c) "/oauth/v2/token")
    [ ("refresh_token", refreshToken c);
      ("client_id", clientId c);
      ("client_secret", clientSecret c);
      ("grant_type", "refresh_token") ].

(** ** The monad of async methods: state, and exceptions that keep the state *)

Inductive Outcome (A : Type) : Type :=
| Return (a : A)
| Throw (e : JsError).
Arguments Return {A}.
Arguments Throw {A}.

Definition M (A : Type) : Type := State -> Outcome A * State.

Definition ret {A} (a : A) : M A := fun s => (Return a, s).

Definition throw {A} (e : JsError) : M A := fun s => (Throw e, s).

Definition bind {A B} (m : M A) (k : A -> M B) : M B :=
  fun s =>
    match m s with
    | (Return a, s') => k a s'
    | (Throw e, s') => (Throw e, s')
    end.

(** [try { m } catch (error) { handler error }] *)
Definition tryCatch {A} (m : M A) (handler : JsError -> M A) : M A :=
  fun s =>
    match m s with
    | (Return a, s') => (Return a, s')
    | (Throw e, s') => handler e s'
    end.

Definition get : M State := fun s => (Return s, s).

Definition modify (f : State -> State) : M unit := fun s => (Return tt, f s).

Declare Scope js_scope.
Delimit Scope js_scope with js.
Notation "x <- m ;; k" := (bind m (fun x => k))
  (at level 100, m at next level, right associativity) : js_scope.
Notation "m ;; k" := (bind m (fun _ => k))
  (at level 100, right associativity) : js_scope.
Open Scope js_scope.

Definition consoleError (l : LogLine) : M unit := modify (logged l).

Section Server.

Variable env : Env.

(** [String.prototype.toLowerCase] *)
Variable toLowerCase : string -> string.

(** [Date.now()] *)
Definition dateNow : M Z :=
  fun s =>
    let t := clock env (history s) in
    (Return t, record (EvClock t) s).

(** [await fetch(url, {method: "POST", ..., body: params.toString()})] *)
Definition fetchToken (req : TokenRequest) : M (Response TokenData) :=
  fun s =>
    let out := tokenEndpoint env (history s) req in
    let s' := record (EvToken req out) s in
    match out with
    | Rejected reason => (Throw (FetchFailed reason), s')
    | Resolved r => (Return r, s')
    end.

(** [await fetch(url, options)] *)
Definition fetchResource (req : ResourceRequest) : M (Response Js.Val) :=
  fun s =>
    let out := resourceEndpoint env (history s) req in
    let s' := record (EvResource req out) s in
    match out with
    | Rejected reason => (Throw (FetchFailed reason), s')
    | Resolved r => (Return r, s')
    end.

(** [await response.json()] *)
Definition json {J} (r : Response J) : M J :=
  match parsed r with
  | Some j => ret j
  | None => throw NotJson
  end.

(** [await response.text()] *)
Definition text {J} (r : Response J) : M string := ret (body r).

(** *** refreshAccessToken (index.ts 63-108) *)
Definition refreshAccessToken : M unit :=
  s <- get ;;
  if negb (canRefresh (config s)) then
    consoleError LogCannotRefresh ;;
    ret tt
  else
    tryCatch
      (response <- fetchToken (tokenRequestFor (config s)) ;;
       (if negb (ok response) then
          errorText <- text response ;;
          throw (RefreshRejected (status response) errorText)
        else ret tt) ;;
       data <- json response ;;
       modify (setAccessToken (access_token data)) ;;
       now <- dateNow ;;
       modify (setTokenExpiresAt (now + (expires_in data - 300) * 1000)) ;;
       consoleError (LogRefreshed (expires_in data)))
      (fun error =>
         consoleError (LogRefreshError error) ;;
         throw (McpError InternalError (FailedToRefresh error))).

(** *** makeRequest (index.ts 110-173) *)

(** [method === "POST" || method === "PATCH" || method === "PUT"] *)
Definition isMutating (method : string) : bool :=
  String.eqb method "POST" || String.eqb method "PATCH"
  || String.eqb method "PUT".

(** Lines 128-145: url, headers and options of the [fetch]. *)
Definition requestFor (s : State) (endpoint method : string) (body : Js.Val)
  : ResourceRequest :=
  let url := String.append (baseUrl s) endpoint in
  let headers :=
    [ ("Authorization",
       String.append "Zoho-oauthtoken " (accessToken (config s)));
      ("Content-Type", "application/json") ] in
  mkResourceRequest url (Some method) headers
    (if Js.truthy body && isMutating method then Some body else None).

(** Lines 116-119 (and 1377-1379): the staleness check with its proactive
    refresh. *)
Definition ensureFresh : M unit :=
  now <- dateNow ;;
  s <- get ;;
  if now >=? tokenExpiresAt s then refreshAccessToken else ret tt.

(** Lines 116-147: the proactive refresh, the empty-token guard, and the
    [fetch]. *)
Definition attempt (endpoint method : string) (body : Js.Val)
  : M (Response Js.Val) :=
  ensureFresh ;;
  s <- get ;;
  if negb (Js.truthyStr (accessToken (config s))) then
    throw (McpError InvalidRequest AccessTokenNotConfigured)
  else fetchResource (requestFor s endpoint method body).

(** Lines 149-172: what is done with the response.  [self] is the method
    itself, for the call at line 159.  The [return] inside [try] is an
    early exit: [Some] is a value returned there, [None] falls through to
    the [throw] at line 166. *)
Definition respond (self : string -> string -> Js.Val -> bool -> M Js.Val)
    (endpoint method : string) (body : Js.Val) (isRetry : bool)
    (response : Response Js.Val) : M Js.Val :=
  if negb (ok response) then
    errorText <- text response ;;
    s <- get ;;
    returned <-
      (if (status response =? 401) && negb isRetry && canRefresh (config s)
       then
         consoleError LogReceived401 ;;
         tryCatch
           (refreshAccessToken ;;
            v <- self endpoint method body true ;;
            ret (Some v))
           (fun refreshError =>
              consoleError (LogTokenRefreshFailed refreshError) ;;
              ret None)
       else ret None) ;;
    match returned with
    | Some v => ret v
    | None =>
        throw (McpError InternalError
                 (ZohoApiError (status response) errorText))
    end
  else json response.

Definition makeRequestWith
    (self : string -> string -> Js.Val -> bool -> M Js.Val)
    (endpoint method : string) (body : Js.Val) (isRetry : bool)
  : M Js.Val :=
  response <- attempt endpoint method body ;;
  respond self endpoint method body isRetry response.

(** The recursion of [makeRequest] is one level deep: the inner call has
    [isRetry = true] and cannot recurse again.  [makeRequest_unfold] below
    shows that this definition satisfies the recursive equation of the
    source. *)
Definition makeRequest (endpoint method : string) (body : Js.Val)
    (isRetry : bool) : M Js.Val :=
  makeRequestWith
    (makeRequestWith (fun _ _ _ _ => throw (TypeError "unreachable")))
    endpoint method body isRetry.

(** *** constructor (index.ts 29-61) *)

(** [process.env.NAME || fallback] *)
Definition envOr (processEnv : string -> option string) (name fallback : string)
  : string :=
  match processEnv name with
  | Some v => if Js.truthyStr v then v else fallback
  | None => fallback
  end.

Definition construct (processEnv : string -> option string) : State :=
  let cfg :=
    mkConfig
      (envOr processEnv "ZOHO_ACCESS_TOKEN" "")
      (envOr processEnv "ZOHO_PORTAL_ID" "")
      (envOr processEnv "ZOHO_API_DOMAIN" "https://projectsapi.zoho.com")
      (envOr processEnv "ZOHO_REFRESH_TOKEN" "")
      (envOr processEnv "ZOHO_CLIENT_ID" "")
      (envOr processEnv "ZOHO_CLIENT_SECRET" "")
      (envOr processEnv "ZOHO_ACCOUNTS_DOMAIN" "https://accounts.zoho.com") in
  let base :=
    if Js.truthyStr (apiDomain cfg)
    then String.append (apiDomain cfg) "/api/v3"
    else "https://projectsapi.zoho.com/api/v3" in
  let s0 := mkState cfg base 0 [] [] in
  snd ((if Js.truthyStr (accessToken cfg) then
          now <- dateNow ;;
          modify (setTokenExpiresAt (now + 3600 * 1000))
        else modify (setTokenExpiresAt 0)) s0).

(** *** processImageResponse (index.ts 1435-1461) *)
Definition processImageResponse (response : Response Js.Val) : M ToolResult :=
  let contentType :=
    match contentType response with
    | Some c => if Js.truthyStr c then c else "image/png"
    | None => "image/png"
    end in
  let base64 := Js.base64 (body response) in
  let mediaType :=
    if Js.includes "jpeg" contentType || Js.includes "jpg" contentType
    then "image/jpeg"
    else if Js.includes "gif" contentType then "image/gif"
    else if Js.includes "webp" contentType then "image/webp"
    else if Js.includes "png" contentType then "image/png"
    else "image/png" in
  ret (ImageContent base64 mediaType).

(** *** downloadInlineImage (index.ts 1375-1433) *)
Definition imageRequest (apiUrl token : string) : ResourceRequest :=
  mkResourceRequest apiUrl None
    [ ("Authorization", String.append "Zoho-oauthtoken " token) ] None.

Definition downloadInlineImage (imageUrl : string) : M ToolResult :=
  ensureFresh ;;
  s <- get ;;
  if negb (Js.truthyStr (accessToken (config s))) then
    throw (McpError InvalidRequest ImageTokenNotConfigured)
  else
    let apiUrl :=
      if Js.includes "/viewInlineAttachment/" imageUrl
      then Js.replace "/viewInlineAttachment/" "/viewInlineAttachmentForApi/"
                      imageUrl
      else imageUrl in
    tryCatch
      (s <- get ;;
       response <- fetchResource (imageRequest apiUrl (accessToken (config s))) ;;
       if negb (ok response) then
         s <- get ;;
         if (status response =? 401) && Js.truthyStr (refreshToken (config s))
         then
           refreshAccessToken ;;
           s <- get ;;
           retryResponse <-
             fetchResource (imageRequest apiUrl (accessToken (config s))) ;;
           if negb (ok retryResponse) then
             throw (McpError InternalError
                      (ImageDownloadFailedAfterRefresh (status retryResponse)))
           else processImageResponse retryResponse
         else
           errorText <- text response ;;
           throw (McpError InternalError
                    (ImageDownloadFailed (status response) errorText))
       else processImageResponse response)
      (fun error =>
         if isMcpError error then throw error
         else throw (McpError InternalError (ImageDownloadError error))).

(** *** listTasklists (index.ts 1174-1202) *)

(** [v.key], for the keys read here ([tasklists], [name], [id]): none of
    them is a property of a string, number, boolean or array. *)
Definition getProp (v : Js.Val) (key : string) : M Js.Val :=
  match v with
  | Js.Undefined | Js.Null => throw (TypeError key)
  | Js.Obj fields => ret (Js.lookup key fields)
  | _ => ret Js.Undefined
  end.

(** [items.filter(f)] and [items.map(f)] with callbacks that may throw. *)
Fixpoint filterM (f : Js.Val -> M bool) (items : list Js.Val)
  : M (list Js.Val) :=
  match items with
  | [] => ret []
  | t :: rest =>
      keep <- f t ;;
      kept <- filterM f rest ;;
      ret (if keep then t :: kept else kept)
  end.

Fixpoint mapM (f : Js.Val -> M Js.Val) (items : list Js.Val)
  : M (list Js.Val) :=
  match items with
  | [] => ret []
  | t :: rest =>
      y <- f t ;;
      ys <- mapM f rest ;;
      ret (y :: ys)
  end.

(** [t.name && t.name.toLowerCase().includes(searchLower)] *)
Definition nameMatches (searchLower : string) (t : Js.Val) : M bool :=
  name <- getProp t "name" ;;
  if Js.truthy name then
    match name with
    | Js.Str n => ret (Js.includes searchLower (toLowerCase n))
    | _ => throw (TypeError "toLowerCase")
    end
  else ret false.

(** [{ id: t.id, name: t.name }] *)
Definition minimalTasklist (t : Js.Val) : M Js.Val :=
  id <- getProp t "id" ;;
  name <- getProp t "name" ;;
  ret (Js.Obj [("id", id); ("name", name)]).

(** [`/portal/${this.config.portalId}/projects/${projectId}/tasklists`] *)
Definition tasklistsEndpoint (s : State) (projectId : string) : string :=
  String.append "/portal/"
    (String.append (portalId (config s))
       (String.append "/projects/" (String.append projectId "/tasklists"))).

Definition listTasklists (projectId : string) (nameContains : option string)
    (minimal : bool) : M ToolResult :=
  s <- get ;;
  let url := tasklistsEndpoint s projectId in
  data <- makeRequest url "GET" Js.Undefined false ;;
  found <- getProp data "tasklists" ;;
  let tasklists := if Js.truthy found then found else Js.Arr [] in
  tasklists <-
    (match nameContains with
     | Some q =>
         if Js.truthyStr q then
           let searchLower := toLowerCase q in
           match tasklists with
           | Js.Arr items =>
               kept <- filterM (nameMatches searchLower) items ;;
               ret (Js.Arr kept)
           | _ => throw (TypeError "filter")
           end
         else ret tasklists
     | None => ret tasklists
     end) ;;
  if minimal then
    match tasklists with
    | Js.Arr items =>
        minimalTasklists <- mapM minimalTasklist items ;;
        ret (TextContent
               (Js.toJSON (Js.Obj [("tasklists", Js.Arr minimalTasklists)])))
    | _ => throw (TypeError "map")
    end
  else
    ret (TextContent
           (Js.toJSON (Js.Obj (Js.setProp "tasklists" tasklists (Js.spread data))))).

End Server.

(** [toLowerCase] on the ASCII range, for concrete runs. *)
Fixpoint asciiLower (s : string) : string :=
  match s with
  | EmptyString => EmptyString
  | String c rest =>
      let n := nat_of_ascii c in
      String (if ((65 <=? n) && (n <=? 90))%nat then ascii_of_nat (n + 32) else c)
             (asciiLower rest)
  end.

(** ** Reading a history *)

Fixpoint tokenRequests (h : list Event) : list TokenRequest :=
  match h with
  | [] => []
  | EvToken req _ :: rest => req :: tokenRequests rest
  | _ :: rest => tokenRequests rest
  end.

Fixpoint resourceRequests (h : list Event) : list ResourceRequest :=
  match h with
  | [] => []
  | EvResource req _ :: rest => req :: resourceRequests rest
  | _ :: rest => resourceRequests rest
  end.

Fixpoint resourceAnswers (h : list Event) : list (FetchOutcome Js.Val) :=
  match h with
  | [] => []
  | EvResource _ out :: rest => out :: resourceAnswers rest
  | _ :: rest => resourceAnswers rest
  end.

(** The events of [after] that [before] had not seen yet. *)
Definition since (before after : State) : list Event :=
  skipn (length (history before)) (history after).

Fixpoint header (name : string) (hs : list (string * string)) : option string :=
  match hs with
  | [] => None
  | (k, v) :: rest => if String.eqb name k then Some v else header name rest
  end.

Definition authorization (req : ResourceRequest) : option string :=
  header "Authorization" (headers req).

(** How a refresh ends, read off the token endpoint's answer: the parsed
    body of a 2xx response, or the error raised inside the [try] of
    [refreshAccessToken]. *)
Definition refreshResult (out : FetchOutcome TokenData) : JsError + TokenData :=
  match out with
  | Rejected reason => inl (FetchFailed reason)
  | Resolved r =>
      if ok r then
        match parsed r with
        | Some data => inr data
        | None => inl NotJson
        end
      else inl (RefreshRejected (status r) (body r))
  end.

(** The state a successful refresh leaves, [t] being the clock read at
    line 98. *)
Definition refreshed (data : TokenData) (out : FetchOutcome TokenData)
    (t : Z) (s : State) : State :=
  logged (LogRefreshed (expires_in data))
    (setTokenExpiresAt (t + (expires_in data - 300) * 1000)
       (record (EvClock t)
          (setAccessToken (access_token data)
             (record (EvToken (tokenRequestFor (config s)) out) s)))).

(** A resource request that carries a non-empty bearer token. *)
Definition bearer (req : ResourceRequest) : Prop :=
  exists token,
    token <> "" /\
    authorization req = Some (String.append "Zoho-oauthtoken " token).

(** ** The name filter of [listTasklists], as the specification words it *)

(** [haystack] contains [needle]. *)
Definition Contains (needle haystack : string) : Prop :=
  exists before after,
    haystack = String.append before (String.append needle after).

(** The tasklist [t] has a name that contains [q], letter case ignored. *)
Definition NameContains (lower : string -> string) (q : string) (t : Js.Val)
  : Prop :=
  exists fields name,
    t = Js.Obj fields /\
    Js.lookup "name" fields = Js.Str name /\
    Contains (lower q) (lower name).

(** The same, decided. *)
Definition nameContainsb (lower : string -> string) (q : string) (t : Js.Val)
  : bool :=
  match t with
  | Js.Obj fields =>
      match Js.lookup "name" fields with
      | Js.Str name => Js.includes (lower q) (lower name)
      | _ => false
      end
  | _ => false
  end.

(** A tasklist as the endpoint returns it: an object with an [id], whose
    [name], if it has one, is a string or null. *)
Definition tasklistShape (t : Js.Val) : bool :=
  match t with
  | Js.Obj fields =>
      negb (Js.isUndefined (Js.lookup "id" fields))
      && match Js.lookup "name" fields with
         | Js.Undefined | Js.Null | Js.Str _ => true
         | _ => false
         end
  | _ => false
  end.

(** A value with a [name] that is a string. *)
Definition named (t : Js.Val) : bool :=
  match t with
  | Js.Obj fields =>
      match Js.lookup "name" fields with
      | Js.Str _ => true
      | _ => false
      end
  | _ => false
  end.

(** [v.key] where nothing can throw. *)
Definition prop (key : string) (v : Js.Val) : Js.Val :=
  match v with
  | Js.Obj fields => Js.lookup key fields
  | _ => Js.Undefined
  end.

(** An object with exactly the fields [id] and [name], in this order. *)
Definition hasIdAndNameOnly (v : Js.Val) : Prop :=
  exists fields, v = Js.Obj fields /\ map fst fields = ["id"; "name"].

(** ** Scenarios: scripted worlds for concrete runs *)

Module Scenario.

Definition configured (token : string) : ZohoConfig :=
  mkConfig token "837" "https://projectsapi.zoho.com"
           "1000.refresh" "1000.client" "secret" "https://accounts.zoho.com".

(** An access token only: no refresh token, client id or client secret. *)
Definition staticToken (token : string) : ZohoConfig :=
  mkConfig token "837" "https://projectsapi.zoho.com"
           "" "" "" "https://accounts.zoho.com".

(** A refresh token without client id and client secret. *)
Definition refreshTokenOnly (token : string) : ZohoConfig :=
  mkConfig token "837" "https://projectsapi.zoho.com"
           "1000.refresh" "" "" "https://accounts.zoho.com".

Definition startWith (c : ZohoConfig) (expiresAt : Z) : State :=
  mkState c "https://projectsapi.zoho.com/api/v3" expiresAt [] [].

(** A clock that starts at [t0] and advances a millisecond per event. *)
Definition tick (t0 : Z) (h : list Event) : Z := t0 + Z.of_nat (length h).

(** The n-th call to an endpoint gets the n-th answer of its script. *)
Definition world (t0 : Z) (tokenAnswers : list (FetchOutcome TokenData))
    (resourceAnswers : list (FetchOutcome Js.Val)) : Env :=
  mkEnv (tick t0)
        (fun h _ => nth (length (tokenRequests h)) tokenAnswers (Rejected "offline"))
        (fun h _ => nth (length (resourceRequests h)) resourceAnswers
                        (Rejected "offline")).

Definition granted (token : string) (expires : Z) : FetchOutcome TokenData :=
  Resolved (mkResponse 200 "" (Some (mkTokenData token expires))
                       (Some "application/json")).

Definition denied : FetchOutcome TokenData :=
  Resolved (mkResponse 400 "invalid_client" None (Some "application/json")).

Definition unauthorized : FetchOutcome Js.Val :=
  Resolved (mkResponse 401 "unauthorized" None (Some "application/json")).

Definition serverError : FetchOutcome Js.Val :=
  Resolved (mkResponse 500 "boom" None (Some "text/plain")).

Definition found (v : Js.Val) : FetchOutcome Js.Val :=
  Resolved (mkResponse 200 "" (Some v) (Some "application/json")).

Definition portals : Js.Val := Js.Obj [("portals", Js.Arr [])].

Definition unauthorizedResponse : Response Js.Val :=
  mkResponse 401 "unauthorized" None (Some "application/json").

(** States at 1000 ms on the clock: a token "A" that is still fresh, one
    that went stale a second ago, and no token at all. *)
Definition fresh : State := startWith (configured "A") 3600000.
Definition stale : State := startWith (configured "A") 0.
Definition unconfigured : State := startWith (configured "") 0.
Definition freshStatic : State := startWith (staticToken "A") 3600000.
Definition staleStatic : State := startWith (staticToken "A") 0.
Definition freshRefreshTokenOnly : State :=
  startWith (refreshTokenOnly "A") 3600000.

(** The resource answers 401; the refresh is denied. *)
Definition refreshDenied : Env := world 1000 [denied] [unauthorized].

(** The refresh is denied; the resource would answer. *)
Definition deniedButServing : Env := world 1000 [denied] [found portals].

(** The resource answers 401, the refresh is granted, the retry is served. *)
Definition retryServed : Env :=
  world 1000 [granted "B" 3600] [unauthorized; found portals].

(** The resource answers 401, the refresh is granted, the retry gets 500. *)
Definition retryFails : Env :=
  world 1000 [granted "B" 3600] [unauthorized; serverError].

(** As [retryServed], with a granted token that lives 60 s only. *)
Definition shortLived : Env :=
  world 1000 [granted "B" 60; granted "C" 3600] [unauthorized; found portals].

(** As [retryServed], with an empty string as the granted token. *)
Definition emptyGrant : Env :=
  world 1000 [granted "" 3600] [unauthorized; found portals].

(** The refresh is granted and the resource answers. *)
Definition refreshThenServed : Env :=
  world 1000 [granted "B" 3600] [found portals].

(** The resource answers 401 whatever happens; nobody can refresh. *)
Definition alwaysUnauthorized : Env :=
  world 1000 [] [unauthorized; unauthorized].

Definition processEnvWithToken (name : string) : option string :=
  if String.eqb name "ZOHO_ACCESS_TOKEN" then Some "A"
  else if String.eqb name "ZOHO_PORTAL_ID" then Some "837"
  else None.

Definition inlineImage : string :=
  "https://projects.zoho.com/viewInlineAttachment/image.png".

Definition tasklist (id : Z) (name : string) : Js.Val :=
  Js.Obj [("id", Js.Num id); ("name", Js.Str name); ("completed", Js.Bool false)].

Definition tasklists : Js.Val :=
  Js.Obj [("tasklists",
           Js.Arr [tasklist 1 "Sprint Backlog"; tasklist 2 "Done";
                   tasklist 3 "BACKLOG ideas"]);
          ("page_info", Js.Obj [("page", Js.Num 1)])].

(** The tasklists endpoint answers with the three tasklists above. *)
Definition servingTasklists : Env := world 1000 [] [found tasklists].

End Scenario.

(** ** The tool layer (index.ts 175-1619) *)

Notation "a +++ b" := (String.append a b) (at level 60, right associativity).

(** The names of the [tools] array that [ListTools] answers with
    (index.ts 178-770). *)
Definition toolNames : list string :=
  [ "list_portals"; "get_portal";
    "list_projects"; "get_project"; "create_project"; "update_project";
    "delete_project";
    "list_tasks"; "get_task"; "create_task"; "update_task"; "delete_task";
    "list_issues"; "get_issue"; "create_issue"; "update_issue";
    "list_phases"; "create_phase";
    "search";
    "list_users";
    "list_tasklists"; "create_tasklist"; "update_tasklist"; "delete_tasklist";
    "list_task_comments"; "create_task_comment"; "update_task_comment";
    "delete_task_comment";
    "list_task_attachments"; "delete_task_attachment";
    "download_inline_image"; "download_comment_attachment";
    "list_feeds"; "list_tasks_in_tasklist" ].

(** What a tool hands back: a [ToolResult], or a text that is a caption, a
    line break and [JSON.stringify(document, null, 2)]. *)
Inductive ToolOutput : Type :=
| Plain (r : ToolResult)
| Captioned (caption : string) (document : Js.Val).

(** [{content: [{type: "text", text: JSON.stringify(data, null, 2)}]}] *)
Definition textOf (data : Js.Val) : ToolOutput :=
  Plain (TextContent (Js.toJSON data)).

Definition captioned (caption : string) (data : Js.Val) : ToolOutput :=
  Captioned caption (Js.toJSON data).

(** A parameter with a default value: the default stands in for
    [undefined] only. *)
Definition orDefault (v fallback : Js.Val) : Js.Val :=
  if Js.isUndefined v then fallback else v.

(** [`/portal/${this.config.portalId}`] *)
Definition portalPath (s : State) : string :=
  "/portal/" +++ portalId (config s).

(** Lines 987-988 and 1601-1602. *)
Definition pageQuery (beyond : Z -> string) (page perPage sortBy : Js.Val)
  : string :=
  let queryParams :=
    "page=" +++ Js.toStr beyond page +++ "&per_page="
      +++ Js.toStr beyond perPage in
  if Js.truthy sortBy
  then queryParams +++ "&sort_by="
         +++ Js.encodeURIComponent (Js.toStr beyond sortBy)
  else queryParams.

(** [a > b] on two [Date]s, [None] being an invalid date. *)
Definition laterThan (a b : option Z) : bool :=
  match a, b with
  | Some x, Some y => y <? x
  | _, _ => false
  end.

(** [v?.[0]] *)
Definition firstOf (v : Js.Val) : Js.Val :=
  match v with
  | Js.Arr (x :: _) => x
  | Js.Str (String c _) => Js.Str (String c EmptyString)
  | Js.Obj fields => Js.lookup "0" fields
  | _ => Js.Undefined
  end.

(** [v.includes(needle)] with a string needle: on a string, on an array,
    and on anything else, where [includes] is no function. *)
Definition includesOf (needle : string) (v : Js.Val) : M bool :=
  match v with
  | Js.Str s => ret (Js.includes needle s)
  | Js.Arr items => ret (existsb (Js.isStr needle) items)
  | _ => throw (TypeError "includes")
  end.

(** Errors with the messages of [downloadCommentAttachment] and of the
    [CallTool] handler, next to the errors of the layers below. *)
Inductive ToolMessage : Type :=
| NoDownloadUrl (attachment : Js.Val)
    (* `No download URL found for attachment. Details: ${JSON.stringify(attachment)}` *)
| AttachmentDownloadFailed (status : Z) (errorText : string)
    (* `Failed to download attachment: ${response.status} - ${await response.text()}` *)
| AttachmentDownloadFailedAfterRefresh (status : Z)
    (* `Failed to download attachment after token refresh: ${retryResponse.status}` *)
| AttachmentDownloadError (cause : JsError)
    (* `Error downloading comment attachment: ${error}` *)
| UnknownTool (name : string)
    (* `Unknown tool: ${name}` *)
| ErrorExecuting (name : string) (cause : JsError).
    (* `Error executing ${name}: ${error}` *)

Inductive ToolError : Type :=
| Earlier (e : JsError)
| ToolMcpError (code : ErrorCode) (message : ToolMessage).

(** [error instanceof McpError] *)
Definition isMcp (e : ToolError) : bool :=
  match e with
  | Earlier e => isMcpError e
  | ToolMcpError _ _ => true
  end.

Inductive ToolOutcome (A : Type) : Type :=
| Done (a : A)
| Failed (e : ToolError).
Arguments Done {A}.
Arguments Failed {A}.

Definition T (A : Type) : Type := State -> ToolOutcome A * State.

Definition retT {A} (a : A) : T A := fun s => (Done a, s).

Definition throwT {A} (e : ToolError) : T A := fun s => (Failed e, s).

Definition bindT {A B} (m : T A) (k : A -> T B) : T B :=
  fun s =>
    match m s with
    | (Done a, s') => k a s'
    | (Failed e, s') => (Failed e, s')
    end.

Definition tryCatchT {A} (m : T A) (handler : ToolError -> T A) : T A :=
  fun s =>
    match m s with
    | (Done a, s') => (Done a, s')
    | (Failed e, s') => handler e s'
    end.

(** A method of the layers below, called from here. *)
Definition lift {A} (m : M A) : T A :=
  fun s =>
    match m s with
    | (Return a, s') => (Done a, s')
    | (Throw e, s') => (Failed (Earlier e), s')
    end.

Notation "x <~ m ;; k" := (bindT m (fun x => k))
  (at level 100, m at next level, right associativity) : js_scope.

Section Tools.

Variable env : Env.

(** [String.prototype.toLowerCase] *)
Variable toLowerCase : string -> string.

(** The time value of [new Date(v)], in milliseconds; [None] for an
    invalid date. *)
Variable dateOf : Js.Val -> option Z.

(** [String(n)] for a number beyond the safe integers. *)
Variable beyond : Z -> string.

(** *** Portals and projects (index.ts 899-978) *)

Definition listPortals : M ToolOutput :=
  data <- makeRequest env "/portals" "GET" Js.Undefined false ;;
  ret (textOf data).

Definition getPortal (portalId : Js.Val) : M ToolOutput :=
  data <- makeRequest env ("/portal/" +++ Js.toStr beyond portalId) "GET"
            Js.Undefined false ;;
  ret (textOf data).

Definition listProjects (page perPage : Js.Val) : M ToolOutput :=
  let page := orDefault page (Js.Num 1) in
  let perPage := orDefault perPage (Js.Num 10) in
  s <- get ;;
  data <- makeRequest env
            (portalPath s +++ "/projects?page=" +++ Js.toStr beyond page
               +++ "&per_page=" +++ Js.toStr beyond perPage)
            "GET" Js.Undefined false ;;
  ret (textOf data).

Definition getProject (projectId : Js.Val) : M ToolOutput :=
  s <- get ;;
  data <- makeRequest env (portalPath s +++ "/projects/" +++ Js.toStr beyond projectId)
            "GET" Js.Undefined false ;;
  ret (textOf data).

Definition createProject (params : list (string * Js.Val)) : M ToolOutput :=
  s <- get ;;
  data <- makeRequest env (portalPath s +++ "/projects") "POST"
            (Js.Obj params) false ;;
  ret (captioned "Project created successfully:" data).

Definition updateProject (params : list (string * Js.Val)) : M ToolOutput :=
  let project_id := Js.lookup "project_id" params in
  let updateData := Js.omit ["project_id"] params in
  s <- get ;;
  data <- makeRequest env (portalPath s +++ "/projects/" +++ Js.toStr beyond project_id)
            "PATCH" (Js.Obj updateData) false ;;
  ret (captioned "Project updated successfully:" data).

Definition deleteProject (projectId : Js.Val) : M ToolOutput :=
  s <- get ;;
  data <- makeRequest env
            (portalPath s +++ "/projects/" +++ Js.toStr beyond projectId +++ "/trash")
            "POST" Js.Undefined false ;;
  ret (captioned "Project moved to trash successfully:" data).

(** *** Tasks (index.ts 981-1059) *)

Definition listTasks (projectId page perPage sortBy : Js.Val) : M ToolOutput :=
  let page := orDefault page (Js.Num 1) in
  let perPage := orDefault perPage (Js.Num 10) in
  let queryParams := pageQuery beyond page perPage sortBy in
  s <- get ;;
  let endpoint :=
    if Js.truthy projectId
    then portalPath s +++ "/projects/" +++ Js.toStr beyond projectId +++ "/tasks?"
           +++ queryParams
    else portalPath s +++ "/tasks?" +++ queryParams in
  data <- makeRequest env endpoint "GET" Js.Undefined false ;;
  ret (textOf data).

Definition getTask (projectId taskId : Js.Val) : M ToolOutput :=
  s <- get ;;
  data <- makeRequest env
            (portalPath s +++ "/projects/" +++ Js.toStr beyond projectId +++ "/tasks/"
               +++ Js.toStr beyond taskId)
            "GET" Js.Undefined false ;;
  ret (textOf data).

Definition createTask (params : list (string * Js.Val)) : M ToolOutput :=
  let project_id := Js.lookup "project_id" params in
  let tasklist_id := Js.lookup "tasklist_id" params in
  let taskData := Js.omit ["project_id"; "tasklist_id"] params in
  let taskData :=
    if Js.truthy tasklist_id
    then Js.setProp "tasklist" (Js.Obj [("id", tasklist_id)]) taskData
    else taskData in
  s <- get ;;
  data <- makeRequest env
            (portalPath s +++ "/projects/" +++ Js.toStr beyond project_id +++ "/tasks")
            "POST" (Js.Obj taskData) false ;;
  ret (captioned "Task created successfully:" data).

Definition updateTask (params : list (string * Js.Val)) : M ToolOutput :=
  let project_id := Js.lookup "project_id" params in
  let task_id := Js.lookup "task_id" params in
  let taskData := Js.omit ["project_id"; "task_id"] params in
  s <- get ;;
  data <- makeRequest env
            (portalPath s +++ "/projects/" +++ Js.toStr beyond project_id +++ "/tasks/"
               +++ Js.toStr beyond task_id)
            "PATCH" (Js.Obj taskData) false ;;
  ret (captioned "Task updated successfully:" data).

Definition deleteTask (projectId taskId : Js.Val) : M ToolOutput :=
  s <- get ;;
  data <- makeRequest env
            (portalPath s +++ "/projects/" +++ Js.toStr beyond projectId +++ "/tasks/"
               +++ Js.toStr beyond taskId)
            "DELETE" Js.Undefined false ;;
  ret (captioned "Task deleted successfully:" data).

(** *** Issues and phases (index.ts 1062-1148) *)

Definition listIssues (projectId page perPage : Js.Val) : M ToolOutput :=
  let page := orDefault page (Js.Num 1) in
  let perPage := orDefault perPage (Js.Num 10) in
  s <- get ;;
  let endpoint :=
    if Js.truthy projectId
    then portalPath s +++ "/projects/" +++ Js.toStr beyond projectId
           +++ "/issues?page=" +++ Js.toStr beyond page +++ "&per_page="
           +++ Js.toStr beyond perPage
    else portalPath s +++ "/issues?page=" +++ Js.toStr beyond page +++ "&per_page="
           +++ Js.toStr beyond perPage in
  data <- makeRequest env endpoint "GET" Js.Undefined false ;;
  ret (textOf data).

Definition getIssue (projectId issueId : Js.Val) : M ToolOutput :=
  s <- get ;;
  data <- makeRequest env
            (portalPath s +++ "/projects/" +++ Js.toStr beyond projectId +++ "/issues/"
               +++ Js.toStr beyond issueId)
            "GET" Js.Undefined false ;;
  ret (textOf data).

Definition createIssue (params : list (string * Js.Val)) : M ToolOutput :=
  let project_id := Js.lookup "project_id" params in
  let issueData := Js.omit ["project_id"] params in
  s <- get ;;
  data <- makeRequest env
            (portalPath s +++ "/projects/" +++ Js.toStr beyond project_id +++ "/issues")
            "POST" (Js.Obj issueData) false ;;
  ret (captioned "Issue created successfully:" data).

Definition updateIssue (params : list (string * Js.Val)) : M ToolOutput :=
  let project_id := Js.lookup "project_id" params in
  let issue_id := Js.lookup "issue_id" params in
  let issueData := Js.omit ["project_id"; "issue_id"] params in
  s <- get ;;
  data <- makeRequest env
            (portalPath s +++ "/projects/" +++ Js.toStr beyond project_id +++ "/issues/"
               +++ Js.toStr beyond issue_id)
            "PATCH" (Js.Obj issueData) false ;;
  ret (captioned "Issue updated successfully:" data).

Definition listPhases (projectId page perPage : Js.Val) : M ToolOutput :=
  let page := orDefault page (Js.Num 1) in
  let perPage := orDefault perPage (Js.Num 10) in
  s <- get ;;
  data <- makeRequest env
            (portalPath s +++ "/projects/" +++ Js.toStr beyond projectId
               +++ "/phases?page=" +++ Js.toStr beyond page +++ "&per_page="
               +++ Js.toStr beyond perPage)
            "GET" Js.Undefined false ;;
  ret (textOf data).

Definition createPhase (params : list (string * Js.Val)) : M ToolOutput :=
  let project_id := Js.lookup "project_id" params in
  let phaseData := Js.omit ["project_id"] params in
  s <- get ;;
  data <- makeRequest env
            (portalPath s +++ "/projects/" +++ Js.toStr beyond project_id +++ "/phases")
            "POST" (Js.Obj phaseData) false ;;
  ret (captioned "Phase created successfully:" data).

(** *** Search and users (index.ts 1151-1171) *)

Definition search (params : list (string * Js.Val)) : M ToolOutput :=
  let search_term := Js.lookup "search_term" params in
  let project_id := Js.lookup "project_id" params in
  let module := orDefault (Js.lookup "module" params) (Js.Str "all") in
  let page := orDefault (Js.lookup "page" params) (Js.Num 1) in
  let per_page := orDefault (Js.lookup "per_page" params) (Js.Num 10) in
  s <- get ;;
  let endpoint :=
    if Js.truthy project_id
    then portalPath s +++ "/projects/" +++ Js.toStr beyond project_id
           +++ "/search?search_term="
           +++ Js.encodeURIComponent (Js.toStr beyond search_term)
           +++ "&module=" +++ Js.toStr beyond module +++ "&page=" +++ Js.toStr beyond page
           +++ "&per_page=" +++ Js.toStr beyond per_page
    else portalPath s +++ "/search?search_term="
           +++ Js.encodeURIComponent (Js.toStr beyond search_term)
           +++ "&module=" +++ Js.toStr beyond module +++ "&status=active&page="
           +++ Js.toStr beyond page +++ "&per_page=" +++ Js.toStr beyond per_page in
  data <- makeRequest env endpoint "GET" Js.Undefined false ;;
  ret (textOf data).

Definition listUsers (projectId : Js.Val) : M ToolOutput :=
  s <- get ;;
  let endpoint :=
    if Js.truthy projectId
    then portalPath s +++ "/projects/" +++ Js.toStr beyond projectId +++ "/users"
    else portalPath s +++ "/users" in
  data <- makeRequest env endpoint "GET" Js.Undefined false ;;
  ret (textOf data).

(** *** Task lists (index.ts 1174-1251) *)

(** [listTasklists] as the handler calls it, with arguments of any type.  A
    [name_contains] that is truthy and no string has no [toLowerCase]. *)
Definition listTasklistsOf (projectId nameContains : Js.Val) (minimal : bool)
  : M ToolResult :=
  match nameContains with
  | Js.Str q => listTasklists env toLowerCase (Js.toStr beyond projectId) (Some q) minimal
  | _ =>
      if Js.truthy nameContains then
        s <- get ;;
        data <- makeRequest env (tasklistsEndpoint s (Js.toStr beyond projectId)) "GET"
                  Js.Undefined false ;;
        getProp data "tasklists" ;;
        throw (TypeError "toLowerCase")
      else listTasklists env toLowerCase (Js.toStr beyond projectId) None minimal
  end.

Definition createTasklist (params : list (string * Js.Val)) : M ToolOutput :=
  let project_id := Js.lookup "project_id" params in
  let tasklistData := Js.omit ["project_id"] params in
  s <- get ;;
  data <- makeRequest env
            (portalPath s +++ "/projects/" +++ Js.toStr beyond project_id +++ "/tasklists")
            "POST" (Js.Obj tasklistData) false ;;
  ret (captioned "Task list created successfully:" data).

Definition updateTasklist (params : list (string * Js.Val)) : M ToolOutput :=
  let project_id := Js.lookup "project_id" params in
  let tasklist_id := Js.lookup "tasklist_id" params in
  let tasklistData := Js.omit ["project_id"; "tasklist_id"] params in
  s <- get ;;
  data <- makeRequest env
            (portalPath s +++ "/projects/" +++ Js.toStr beyond project_id
               +++ "/tasklists/" +++ Js.toStr beyond tasklist_id)
            "PATCH" (Js.Obj tasklistData) false ;;
  ret (captioned "Task list updated successfully:" data).

Definition deleteTasklist (projectId tasklistId : Js.Val) : M ToolOutput :=
  s <- get ;;
  data <- makeRequest env
            (portalPath s +++ "/projects/" +++ Js.toStr beyond projectId
               +++ "/tasklists/" +++ Js.toStr beyond tasklistId)
            "DELETE" Js.Undefined false ;;
  ret (captioned "Task list deleted successfully:" data).

(** *** Task comments (index.ts 1254-1347) *)

(** The callback of the [since] filter. *)
Definition changedSince (sinceDate : option Z) (c : Js.Val) : M bool :=
  created <- getProp c "created_time" ;;
  let createdDate := dateOf created in
  updated <- getProp c "updated_time" ;;
  let updatedDate := if Js.truthy updated then Some (dateOf updated) else None in
  ret (laterThan createdDate sinceDate
       || match updatedDate with
          | Some d => laterThan d sinceDate
          | None => false
          end).

(** [{ id: a.attachment_id, name: a.name, type: a.type }] *)
Definition minimalAttachment (a : Js.Val) : M Js.Val :=
  id <- getProp a "attachment_id" ;;
  name <- getProp a "name" ;;
  type_ <- getProp a "type" ;;
  ret (Js.Obj [("id", id); ("name", name); ("type", type_)]).

(** [c.created_by?.name || c.created_by?.full_name || "Unknown"] *)
Definition authorOf (createdBy : Js.Val) : Js.Val :=
  if Js.truthy (prop "name" createdBy) then prop "name" createdBy
  else if Js.truthy (prop "full_name" createdBy) then prop "full_name" createdBy
  else Js.Str "Unknown".

Definition minimalComment (c : Js.Val) : M Js.Val :=
  id <- getProp c "id" ;;
  created <- getProp c "created_time" ;;
  createdBy <- getProp c "created_by" ;;
  comment <- getProp c "comment" ;;
  attachments <- getProp c "attachments" ;;
  minimalAttachments <-
    (match attachments with
     | Js.Undefined | Js.Null => ret (Js.Arr [])
     | Js.Arr items =>
         mapped <- mapM minimalAttachment items ;;
         ret (Js.Arr mapped)
     | _ => throw (TypeError "map")
     end) ;;
  ret (Js.Obj [("id", id); ("created_time", created);
               ("author", authorOf createdBy); ("comment", comment);
               ("attachments", minimalAttachments)]).

Definition commentsEndpoint (s : State) (projectId taskId : Js.Val) : string :=
  portalPath s +++ "/projects/" +++ Js.toStr beyond projectId +++ "/tasks/"
    +++ Js.toStr beyond taskId +++ "/comments".

Definition listTaskComments (projectId taskId : Js.Val) (minimal : bool)
    (since : Js.Val) : M ToolOutput :=
  s <- get ;;
  data <- makeRequest env (commentsEndpoint s projectId taskId) "GET"
            Js.Undefined false ;;
  found <- getProp data "comments" ;;
  let comments := if Js.truthy found then found else Js.Arr [] in
  comments <-
    (if Js.truthy since then
       let sinceDate := dateOf since in
       match comments with
       | Js.Arr items =>
           kept <- filterM (changedSince sinceDate) items ;;
           ret (Js.Arr kept)
       | _ => throw (TypeError "filter")
       end
     else ret comments) ;;
  if minimal then
    match comments with
    | Js.Arr items =>
        minimalComments <- mapM minimalComment items ;;
        ret (textOf (Js.Obj [("comments", Js.Arr minimalComments)]))
    | _ => throw (TypeError "map")
    end
  else ret (textOf data).

Definition createTaskComment (params : list (string * Js.Val)) : M ToolOutput :=
  let project_id := Js.lookup "project_id" params in
  let task_id := Js.lookup "task_id" params in
  let content := Js.lookup "content" params in
  s <- get ;;
  data <- makeRequest env (commentsEndpoint s project_id task_id) "POST"
            (Js.Obj [("comment", content)]) false ;;
  ret (captioned "Comment added successfully:" data).

Definition updateTaskComment (params : list (string * Js.Val)) : M ToolOutput :=
  let project_id := Js.lookup "project_id" params in
  let task_id := Js.lookup "task_id" params in
  let comment_id := Js.lookup "comment_id" params in
  let content := Js.lookup "content" params in
  s <- get ;;
  data <- makeRequest env
            (commentsEndpoint s project_id task_id +++ "/" +++ Js.toStr beyond comment_id)
            "PATCH" (Js.Obj [("comment", content)]) false ;;
  ret (captioned "Comment updated successfully:" data).

Definition deleteTaskComment (projectId taskId commentId : Js.Val)
  : M ToolOutput :=
  s <- get ;;
  data <- makeRequest env
            (commentsEndpoint s projectId taskId +++ "/" +++ Js.toStr beyond commentId)
            "DELETE" Js.Undefined false ;;
  ret (captioned "Comment deleted successfully:" data).

(** *** Task attachments (index.ts 1350-1372) *)

Definition listTaskAttachments (projectId taskId : Js.Val) : M ToolOutput :=
  s <- get ;;
  data <- makeRequest env
            (portalPath s +++ "/projects/" +++ Js.toStr beyond projectId +++ "/tasks/"
               +++ Js.toStr beyond taskId +++ "/attachments")
            "GET" Js.Undefined false ;;
  ret (textOf data).

Definition deleteTaskAttachment (projectId taskId attachmentId : Js.Val)
  : M ToolOutput :=
  s <- get ;;
  data <- makeRequest env
            (portalPath s +++ "/projects/" +++ Js.toStr beyond projectId +++ "/tasks/"
               +++ Js.toStr beyond taskId +++ "/attachments/" +++ Js.toStr beyond attachmentId)
            "DELETE" Js.Undefined false ;;
  ret (captioned "Attachment deleted successfully:" data).

(** *** Downloads (index.ts 1375-1587) *)

(** Lines 1395-1432 of [downloadInlineImage]: the [try] block and its
    [catch], for the URL that is fetched. *)
Definition fetchImage (apiUrl : string) : M ToolResult :=
  tryCatch
    (s <- get ;;
     response <- fetchResource env (imageRequest apiUrl (accessToken (config s))) ;;
     if negb (ok response) then
       s <- get ;;
       if (status response =? 401) && Js.truthyStr (refreshToken (config s))
       then
         refreshAccessToken env ;;
         s <- get ;;
         retryResponse <-
           fetchResource env (imageRequest apiUrl (accessToken (config s))) ;;
         if negb (ok retryResponse) then
           throw (McpError InternalError
                    (ImageDownloadFailedAfterRefresh (status retryResponse)))
         else processImageResponse retryResponse
       else
         errorText <- text response ;;
         throw (McpError InternalError
                  (ImageDownloadFailed (status response) errorText))
     else processImageResponse response)
    (fun error =>
       if isMcpError error then throw error
       else throw (McpError InternalError (ImageDownloadError error))).

(** [downloadInlineImage] as the handler calls it, with an argument of any
    type.  An array has [includes] but no [replace]; on anything else that
    is no string, [includes] is no function. *)
Definition downloadInlineImageOf (imageUrl : Js.Val) : M ToolResult :=
  match imageUrl with
  | Js.Str u => downloadInlineImage env u
  | _ =>
      ensureFresh env ;;
      s <- get ;;
      if negb (Js.truthyStr (accessToken (config s))) then
        throw (McpError InvalidRequest ImageTokenNotConfigured)
      else
        match imageUrl with
        | Js.Arr items =>
            if existsb (Js.isStr "/viewInlineAttachment/") items
            then throw (TypeError "replace")
            else fetchImage (Js.toStr beyond imageUrl)
        | _ => throw (TypeError "includes")
        end
  end.

(** *** processAttachmentResponse (index.ts 1544-1587) *)
Definition processAttachmentResponse (response : Response Js.Val)
    (attachment : Js.Val) : M ToolOutput :=
  contentType <-
    (match contentType response with
     | Some c =>
         if Js.truthyStr c then ret (Js.Str c)
         else
           declared <- getProp attachment "type" ;;
           ret (if Js.truthy declared then declared
                else Js.Str "application/octet-stream")
     | None =>
         declared <- getProp attachment "type" ;;
         ret (if Js.truthy declared then declared
              else Js.Str "application/octet-stream")
     end) ;;
  let base64 := Js.base64 (body response) in
  isImage <- includesOf "image/" contentType ;;
  if isImage then
    jpeg <- includesOf "jpeg" contentType ;;
    jpg <- (if jpeg then ret true else includesOf "jpg" contentType) ;;
    mediaType <-
      (if jpg then ret "image/jpeg"
       else
         gif <- includesOf "gif" contentType ;;
         if gif then ret "image/gif"
         else
           webp <- includesOf "webp" contentType ;;
           if webp then ret "image/webp"
           else
             png <- includesOf "png" contentType ;;
             if png then ret "image/png" else ret "image/png") ;;
    ret (Plain (ImageContent base64 mediaType))
  else
    filename <- getProp attachment "name" ;;
    size <- getProp attachment "size" ;;
    ret (textOf (Js.Obj [("filename", filename); ("type", contentType);
                         ("size", size); ("data_base64", Js.Str base64)])).

(** *** downloadCommentAttachment (index.ts 1464-1542) *)

(** Lines 1487-1503: the URL to download from, or the error of line 1497. *)
Definition downloadUrlOf (attachment : Js.Val) : T Js.Val :=
  permanent <~ lift (getProp attachment "permanent_url") ;;
  downloadUrl <~
    (if Js.truthy permanent then retT permanent
     else
       preview <~ lift (getProp attachment "preview_url") ;;
       if Js.truthy preview then retT preview
       else lift (getProp attachment "download_url")) ;;
  if negb (Js.truthy downloadUrl) then
    thirdPartyFileId <~ lift (getProp attachment "third_party_file_id") ;;
    appDomain <~
      (if Js.truthy thirdPartyFileId
       then lift (getProp attachment "app_domain")
       else retT Js.Undefined) ;;
    if Js.truthy thirdPartyFileId && Js.isStr "workdrive" appDomain
    then retT (Js.Str ("https://workdrive.zoho.com/api/v1/download/"
                         +++ Js.toStr beyond thirdPartyFileId))
    else throwT (ToolMcpError InternalError (NoDownloadUrl attachment))
  else retT downloadUrl.

Definition attachmentEndpoint (s : State) (projectId attachmentId : Js.Val)
  : string :=
  portalPath s +++ "/projects/" +++ Js.toStr beyond projectId +++ "/attachments/"
    +++ Js.toStr beyond attachmentId.

Definition downloadCommentAttachment (projectId attachmentId : Js.Val)
  : T ToolOutput :=
  _ <~ lift (ensureFresh env) ;;
  s <~ lift get ;;
  if negb (Js.truthyStr (accessToken (config s))) then
    throwT (Earlier (McpError InvalidRequest ImageTokenNotConfigured))
  else
    tryCatchT
      (s <~ lift get ;;
       attachmentDetails <~
         lift (makeRequest env (attachmentEndpoint s projectId attachmentId) "GET"
                 Js.Undefined false) ;;
       listed <~ lift (getProp attachmentDetails "attachment") ;;
       let attachment :=
         if Js.truthy (firstOf listed) then firstOf listed
         else attachmentDetails in
       downloadUrl <~ downloadUrlOf attachment ;;
       let url := Js.toStr beyond downloadUrl in
       s <~ lift get ;;
       response <~
         lift (fetchResource env (imageRequest url (accessToken (config s)))) ;;
       if negb (ok response) then
         s <~ lift get ;;
         if (status response =? 401) && Js.truthyStr (refreshToken (config s))
         then
           _ <~ lift (refreshAccessToken env) ;;
           s <~ lift get ;;
           retryResponse <~
             lift (fetchResource env
                     (imageRequest url (accessToken (config s)))) ;;
           if negb (ok retryResponse) then
             throwT (ToolMcpError InternalError
                       (AttachmentDownloadFailedAfterRefresh
                          (status retryResponse)))
           else lift (processAttachmentResponse retryResponse attachment)
         else
           errorText <~ lift (text response) ;;
           throwT (ToolMcpError InternalError
                     (AttachmentDownloadFailed (status response) errorText))
       else lift (processAttachmentResponse response attachment))
      (fun error =>
         match error with
         | Earlier e =>
             if isMcpError e then throwT error
             else throwT (ToolMcpError InternalError (AttachmentDownloadError e))
         | ToolMcpError _ _ => throwT error
         end).

(** *** Feeds and the tasks of a tasklist (index.ts 1590-1610) *)

Definition listFeeds (count viewkey : Js.Val) : M ToolOutput :=
  let count := orDefault count (Js.Num 20) in
  let viewkey := orDefault viewkey (Js.Str "all") in
  s <- get ;;
  data <- makeRequest env
            (portalPath s +++ "/feeds?count=" +++ Js.toStr beyond count +++ "&viewkey="
               +++ Js.toStr beyond viewkey)
            "GET" Js.Undefined false ;;
  ret (textOf data).

Definition listTasksInTasklist (projectId tasklistId page perPage sortBy : Js.Val)
  : M ToolOutput :=
  let page := orDefault page (Js.Num 1) in
  let perPage := orDefault perPage (Js.Num 100) in
  let queryParams := pageQuery beyond page perPage sortBy in
  s <- get ;;
  data <- makeRequest env
            (portalPath s +++ "/projects/" +++ Js.toStr beyond projectId
               +++ "/tasklists/" +++ Js.toStr beyond tasklistId +++ "/tasks?"
               +++ queryParams)
            "GET" Js.Undefined false ;;
  ret (textOf data).

(** *** The CallTool handler (index.ts 773-894) *)

(** [params.minimal !== false] *)
Definition notFalse (v : Js.Val) : bool :=
  match v with
  | Js.Bool false => false
  | _ => true
  end.

Definition plain (m : M ToolResult) : T ToolOutput :=
  r <~ lift m ;; retT (Plain r).

(** The cases of the [switch], in its order. *)
Definition cases (params : list (string * Js.Val))
  : list (string * T ToolOutput) :=
  let p := fun key => Js.lookup key params in
  [ ("list_portals", lift listPortals);
    ("get_portal", lift (getPortal (p "portal_id")));
    ("list_projects", lift (listProjects (p "page") (p "per_page")));
    ("get_project", lift (getProject (p "project_id")));
    ("create_project", lift (createProject params));
    ("update_project", lift (updateProject params));
    ("delete_project", lift (deleteProject (p "project_id")));
    ("list_tasks",
     lift (listTasks (p "project_id") (p "page") (p "per_page") (p "sort_by")));
    ("get_task", lift (getTask (p "project_id") (p "task_id")));
    ("create_task", lift (createTask params));
    ("update_task", lift (updateTask params));
    ("delete_task", lift (deleteTask (p "project_id") (p "task_id")));
    ("list_issues", lift (listIssues (p "project_id") (p "page") (p "per_page")));
    ("get_issue", lift (getIssue (p "project_id") (p "issue_id")));
    ("create_issue", lift (createIssue params));
    ("update_issue", lift (updateIssue params));
    ("list_phases", lift (listPhases (p "project_id") (p "page") (p "per_page")));
    ("create_phase", lift (createPhase params));
    ("search", lift (search params));
    ("list_users", lift (listUsers (p "project_id")));
    ("list_tasklists",
     plain (listTasklistsOf (p "project_id") (p "name_contains")
              (notFalse (p "minimal"))));
    ("create_tasklist", lift (createTasklist params));
    ("update_tasklist", lift (updateTasklist params));
    ("delete_tasklist", lift (deleteTasklist (p "project_id") (p "tasklist_id")));
    ("list_task_comments",
     lift (listTaskComments (p "project_id") (p "task_id")
             (notFalse (p "minimal")) (p "since")));
    ("create_task_comment", lift (createTaskComment params));
    ("update_task_comment", lift (updateTaskComment params));
    ("delete_task_comment",
     lift (deleteTaskComment (p "project_id") (p "task_id") (p "comment_id")));
    ("list_task_attachments",
     lift (listTaskAttachments (p "project_id") (p "task_id")));
    ("delete_task_attachment",
     lift (deleteTaskAttachment (p "project_id") (p "task_id")
             (p "attachment_id")));
    ("download_inline_image", plain (downloadInlineImageOf (p "image_url")));
    ("download_comment_attachment",
     downloadCommentAttachment (p "project_id") (p "attachment_id"));
    ("list_feeds", lift (listFeeds (p "count") (p "viewkey")));
    ("list_tasks_in_tasklist",
     lift (listTasksInTasklist (p "project_id") (p "tasklist_id") (p "page")
             (p "per_page") (p "sort_by"))) ].

(** The handler.  [name] is a string and [args] an object or absent: the
    request schema of the SDK lets nothing else through. *)
Definition callTool (name : string) (args : option (list (string * Js.Val)))
  : T ToolOutput :=
  let params := match args with Some fields => fields | None => [] end in
  tryCatchT
    (match find (fun c => String.eqb name (fst c)) (cases params) with
     | Some (_, run) => run
     | None => throwT (ToolMcpError MethodNotFound (UnknownTool name))
     end)
    (fun error =>
       match error with
       | Earlier e =>
           if isMcpError e then throwT error
           else throwT (ToolMcpError InternalError (ErrorExecuting name e))
       | ToolMcpError _ _ => throwT error
       end).

End Tools.

(** ** More scripted worlds *)

Module Cases.

(** A token that is stale at entry, a granted refresh whose token lives
    200 s only, a 401, a second such refresh, and a third one in the retry. *)
Definition threeRefreshes : Env :=
  Scenario.world 1000
    [Scenario.granted "B" 200; Scenario.granted "C" 200; Scenario.granted "D" 3600]
    [Scenario.unauthorized; Scenario.found Scenario.portals].

(** The resource answers at once. *)
Definition served : Env := Scenario.world 1000 [] [Scenario.found Scenario.portals].

Definition notFound : FetchOutcome Js.Val :=
  Resolved (mkResponse 404 "no such project" None (Some "application/json")).

(** The resource answers 404. *)
Definition missing : Env := Scenario.world 1000 [Scenario.granted "B" 3600] [notFound].

Definition noVariables (name : string) : option string := None.

Definition credentialsOnly (name : string) : option string :=
  if String.eqb name "ZOHO_REFRESH_TOKEN" then Some "1000.refresh"
  else if String.eqb name "ZOHO_CLIENT_ID" then Some "1000.client"
  else if String.eqb name "ZOHO_CLIENT_SECRET" then Some "secret"
  else None.

(** [new Date(v)] on a number, the time value itself; anything else is
    taken for an invalid date here. *)
Definition dateOfNumber (v : Js.Val) : option Z :=
  match v with
  | Js.Num n => Some n
  | _ => None
  end.

Definition comment (id created : Z) (createdBy : Js.Val) : Js.Val :=
  Js.Obj [("id", Js.Num id); ("created_time", Js.Num created);
          ("created_by", createdBy); ("comment", Js.Str "Done");
          ("attachments",
           Js.Arr [Js.Obj [("attachment_id", Js.Num 5); ("name", Js.Str "a.png");
                           ("type", Js.Str "image/png"); ("size", Js.Num 10)]])].

Definition comments : Js.Val :=
  Js.Obj [("comments",
           Js.Arr [comment 1 100 (Js.Obj [("name", Js.Str "Ann")]);
                   comment 2 300 Js.Null])].

(** The comments endpoint answers with the two comments above. *)
Definition servingComments : Env :=
  Scenario.world 1000 [] [Scenario.found comments].

(** The tasklists endpoint answers with the given tasklists. *)
Definition servingTasklistsOf (tasklists : Js.Val) : Env :=
  Scenario.world 1000 [] [Scenario.found (Js.Obj [("tasklists", tasklists)])].

(** The rendering of the numbers beyond the safe integers, for runs that
    hold none. *)
Definition unrendered (n : Z) : string := "".

End Cases.

(** ** Names for what the statements below speak of *)

(** Lines 1390-1393: the URL that [downloadInlineImage] fetches. *)
Definition apiUrlOf (imageUrl : string) : string :=
  if Js.includes "/viewInlineAttachment/" imageUrl
  then Js.replace "/viewInlineAttachment/" "/viewInlineAttachmentForApi/" imageUrl
  else imageUrl.

(** A request as the two download helpers send it: a URL, no method, no
    body, and an [Authorization] header only. *)
Definition downloadOf (target : string) (req : ResourceRequest) : Prop :=
  url req = target /\
  method req = None /\
  payload req = None /\
  exists token, headers req = [("Authorization", "Zoho-oauthtoken " +++ token)].

(** A value as [JSON.parse] gives it: no [undefined] in it. *)
Fixpoint isJson (v : Js.Val) : bool :=
  match v with
  | Js.Undefined => false
  | Js.Arr items => forallb isJson items
  | Js.Obj fields =>
      (fix all (fs : list (string * Js.Val)) : bool :=
         match fs with
         | [] => true
         | (_, x) :: rest => isJson x && all rest
         end) fields
  | _ => true
  end.

(** ** What a dispatch may do, for the statements below *)

Fixpoint tokenAnswers (h : list Event) : list (FetchOutcome TokenData) :=
  match h with
  | [] => []
  | EvToken _ out :: rest => out :: tokenAnswers rest
  | _ :: rest => tokenAnswers rest
  end.

(** [req] is the request that [makeRequest(endpoint, verb, b)] builds in a
    server whose base URL is that of [s], with some non-empty token. *)
Definition dispatched (s : State) (endpoint verb : string) (b : Js.Val)
    (req : ResourceRequest) : Prop :=
  url req = baseUrl s +++ endpoint /\
  method req = Some verb /\
  payload req = (if Js.truthy b && isMutating verb then Some b else None) /\
  header "Content-Type" (headers req) = Some "application/json" /\
  bearer req.

(** From [s] to [s'] the events [d] were added, nothing but the token and
    its expiry was assigned, and not even these without a call to the token
    endpoint. *)
Definition Effects (s s' : State) (d : list Event) : Prop :=
  history s' = history s ++ d /\
  config s' = withAccessToken (accessToken (config s')) (config s) /\
  baseUrl s' = baseUrl s /\
  (tokenRequests d = [] ->
   config s' = config s /\ tokenExpiresAt s' = tokenExpiresAt s).

(** A run of [makeRequest] from [s] that ended in [out] and [s']: at most
    [nres] resource requests and [ntok] token requests, every resource
    request the one of this dispatch, and a value returned only as the
    parsed body of the last response, which was a 2xx. *)
Definition Dispatch (nres ntok : nat) (s : State) (endpoint verb : string)
    (b : Js.Val) (out : Outcome Js.Val) (s' : State) : Prop :=
  exists d,
    Effects s s' d /\
    (length (resourceRequests d) <= nres)%nat /\
    (length (tokenRequests d) <= ntok)%nat /\
    Forall (dispatched s endpoint verb b) (resourceRequests d) /\
    (forall v, out = Return v ->
               exists before response,
                 resourceAnswers d = before ++ [Resolved response] /\
                 ok response = true /\
                 parsed response = Some v).

(** A computation that leaves the state as it is. *)
Definition Quiet {A} (m : M A) : Prop := forall s, snd (m s) = s.

Definition QuietT {A} (m : T A) : Prop := forall s, snd (m s) = s.

(** From any state, [m] sends at most [nres] requests for a resource, each
    of them with [P], and at most [ntok] to the token endpoint, and leaves
    the base URL and the credentials other than the access token alone. *)
Definition SendsM {A} (P : ResourceRequest -> Prop) (nres ntok : nat) (m : M A)
  : Prop :=
  forall s, exists d,
    Effects s (snd (m s)) d /\
    (length (resourceRequests d) <= nres)%nat /\
    (length (tokenRequests d) <= ntok)%nat /\
    Forall P (resourceRequests d).

Definition Sends {A} (P : ResourceRequest -> Prop) (nres ntok : nat) (m : T A)
  : Prop :=
  forall s, exists d,
    Effects s (snd (m s)) d /\
    (length (resourceRequests d) <= nres)%nat /\
    (length (tokenRequests d) <= ntok)%nat /\
    Forall P (resourceRequests d).

Definition anyRequest (req : ResourceRequest) : Prop := True.

(** A GET without a body; [fetch] without a method is a GET. *)
Definition plainGet (req : ResourceRequest) : Prop :=
  (method req = None \/ method req = Some "GET") /\ payload req = None.

(** The tools named [list_...], [get_...], [download_...] and [search]. *)
Definition readingName (name : string) : bool :=
  String.prefix "list_" name || String.prefix "get_" name
  || String.prefix "download_" name || String.eqb name "search".

(** Every error that [m] raises has [Q]. *)
Definition RaisesM {A} (Q : JsError -> Prop) (m : M A) : Prop :=
  forall s e s', m s = (Throw e, s') -> Q e.

(** No [McpError], or one with the code [InternalError], or the
    "Zoho access token not configured" of [makeRequest] (lines 121-126) or
    of a download helper (lines 1381-1386 and 1470-1475), which have the
    code [InvalidRequest]. *)
Definition internalOrUnconfigured (e : JsError) : Prop :=
  match e with
  | McpError InternalError _ => True
  | McpError InvalidRequest AccessTokenNotConfigured => True
  | McpError InvalidRequest ImageTokenNotConfigured => True
  | McpError _ _ => False
  | _ => True
  end.

(** [error.code] of an [McpError]. *)
Definition codeOf (e : ToolError) : option ErrorCode :=
  match e with
  | Earlier (McpError code _) => Some code
  | Earlier _ => None
  | ToolMcpError code _ => Some code
  end.

(** "Zoho access token not configured", with or without the hint at the
    environment variable. *)
Definition tokenNotConfigured (e : ToolError) : Prop :=
  e = Earlier (McpError InvalidRequest ImageTokenNotConfigured) \/
  e = Earlier (McpError InvalidRequest AccessTokenNotConfigured).

(** Every error that [m] raises has [Q]. *)
Definition Raises {A} (Q : ToolError -> Prop) (m : T A) : Prop :=
  forall s e s', m s = (Failed e, s') -> Q e.

(** An error of the layers below the handler, or an [InternalError] of
    [downloadCommentAttachment]. *)
Definition fromBelow (e : ToolError) : Prop :=
  match e with
  | Earlier _ => True
  | ToolMcpError code _ => code = InternalError
  end.






(** The content type that [processAttachmentResponse] goes by: the header,
    else the type that the attachment declares, else
    application/octet-stream. *)
Definition effectiveType (response : Response Js.Val)
    (fields : list (string * Js.Val)) : Js.Val :=
  let declared :=
    if Js.truthy (Js.lookup "type" fields) then Js.lookup "type" fields
    else Js.Str "application/octet-stream" in
  match contentType response with
  | Some c => if Js.truthyStr c then Js.Str c else declared
  | None => declared
  end.

(** Two states that differ at most in [accessToken], [tokenExpiresAt], the
    history and the console. *)
Definition sameSetup (s s' : State) : Prop :=
  config s' = withAccessToken (accessToken (config s')) (config s) /\
  baseUrl s' = baseUrl s.

(** ** Basic facts *)

Lemma skipn_length_app {A} (l d : list A) : skipn (length l) (l ++ d) = d.
Proof. induction l as [|x l IH]; simpl; auto. Qed.

Lemma tokenRequests_app h1 h2 :
  tokenRequests (h1 ++ h2) = tokenRequests h1 ++ tokenRequests h2.
Proof.
  induction h1 as [|e h1 IH]; simpl; auto.
  destruct e; simpl; rewrite IH; reflexivity.
Qed.

Lemma resourceRequests_app h1 h2 :
  resourceRequests (h1 ++ h2) = resourceRequests h1 ++ resourceRequests h2.
Proof.
  induction h1 as [|e h1 IH]; simpl; auto.
  destruct e; simpl; rewrite IH; reflexivity.
Qed.

Section Facts.

Variable env : Env.

(** [refreshAccessToken] in closed form. *)
Lemma refreshAccessToken_eq s :
  refreshAccessToken env s =
  if canRefresh (config s) then
    let out := tokenEndpoint env (history s) (tokenRequestFor (config s)) in
    let s1 := record (EvToken (tokenRequestFor (config s)) out) s in
    match refreshResult out with
    | inr data => (Return tt, refreshed data out (clock env (history s1)) s)
    | inl cause =>
        (Throw (McpError InternalError (FailedToRefresh cause)),
         logged (LogRefreshError cause) s1)
    end
  else (Return tt, logged LogCannotRefresh s).
Proof.
  unfold refreshAccessToken, bind, get, tryCatch, fetchToken, refreshResult.
  destruct (canRefresh (config s)); simpl; [|reflexivity].
  destruct (tokenEndpoint env (history s) (tokenRequestFor (config s)))
    as [reason|r]; simpl; [reflexivity|].
  destruct (ok r); simpl; [|reflexivity].
  unfold json. destruct (parsed r) as [data|]; reflexivity.
Qed.

Lemma ensureFresh_eq s :
  ensureFresh env s =
  let now := clock env (history s) in
  let s0 := record (EvClock now) s in
  if now >=? tokenExpiresAt s then refreshAccessToken env s0
  else (Return tt, s0).
Proof.
  unfold ensureFresh, bind, dateNow, get; simpl.
  destruct (clock env (history s) >=? tokenExpiresAt s); reflexivity.
Qed.

Lemma attempt_eq endpoint method body s :
  attempt env endpoint method body s =
  match ensureFresh env s with
  | (Return _, s1) =>
      if Js.truthyStr (accessToken (config s1)) then
        fetchResource env (requestFor s1 endpoint method body) s1
      else (Throw (McpError InvalidRequest AccessTokenNotConfigured), s1)
  | (Throw e, s1) => (Throw e, s1)
  end.
Proof.
  unfold attempt, bind, get.
  destruct (ensureFresh env s) as [[[]|e] s1]; simpl; [|reflexivity].
  destruct (Js.truthyStr (accessToken (config s1))); reflexivity.
Qed.

(** What [respond] does with a response that is not ok, in closed form. *)
Lemma respond_eq self endpoint method b isRetry response s :
  respond env self endpoint method b isRetry response s =
  if ok response then
    match parsed response with
    | Some v => (Return v, s)
    | None => (Throw NotJson, s)
    end
  else
    let original :=
      McpError InternalError (ZohoApiError (status response) (body response)) in
    if (status response =? 401) && negb isRetry && canRefresh (config s) then
      match refreshAccessToken env (logged LogReceived401 s) with
      | (Return _, s2) =>
          match self endpoint method b true s2 with
          | (Return v, s3) => (Return v, s3)
          | (Throw e, s3) =>
              (Throw original, logged (LogTokenRefreshFailed e) s3)
          end
      | (Throw e, s2) => (Throw original, logged (LogTokenRefreshFailed e) s2)
      end
    else (Throw original, s).
Proof.
  unfold respond, bind, get, text, ret, tryCatch, consoleError, modify, throw, json.
  destruct (ok response); simpl.
  - destruct (parsed response); reflexivity.
  - destruct ((status response =? 401) && negb isRetry && canRefresh (config s));
      simpl; [|reflexivity].
    destruct (refreshAccessToken env (logged LogReceived401 s)) as [[[]|e] s2];
      simpl; [|reflexivity].
    destruct (self endpoint method b true s2) as [[v|e] s3]; reflexivity.
Qed.

Lemma makeRequestWith_eq self endpoint method b isRetry s :
  makeRequestWith env self endpoint method b isRetry s =
  match attempt env endpoint method b s with
  | (Return response, s1) =>
      respond env self endpoint method b isRetry response s1
  | (Throw e, s1) => (Throw e, s1)
  end.
Proof. reflexivity. Qed.

(** The retry never calls [self]. *)
Lemma makeRequestWith_retry self1 self2 endpoint method b s :
  makeRequestWith env self1 endpoint method b true s =
  makeRequestWith env self2 endpoint method b true s.
Proof.
  rewrite !makeRequestWith_eq.
  destruct (attempt env endpoint method b s) as [[response|e] s1]; [|reflexivity].
  rewrite !respond_eq. simpl negb. rewrite andb_false_r. reflexivity.
Qed.

(** [makeRequest] satisfies the recursive equation of the source: it is
    [makeRequestWith] applied to itself. *)
Lemma makeRequest_unfold endpoint method b isRetry s :
  makeRequest env endpoint method b isRetry s =
  makeRequestWith env (makeRequest env) endpoint method b isRetry s.
Proof.
  unfold makeRequest. destruct isRetry.
  - apply makeRequestWith_retry.
  - rewrite !makeRequestWith_eq.
    destruct (attempt env endpoint method b s) as [[response|e] s1]; [|reflexivity].
    rewrite !respond_eq.
    destruct (ok response); [reflexivity|].
    destruct ((status response =? 401) && negb false && canRefresh (config s1));
      [|reflexivity].
    destruct (refreshAccessToken env (logged LogReceived401 s1)) as [[[]|e] s2];
      [|reflexivity].
    rewrite (makeRequestWith_retry
               (fun _ _ _ _ => throw (TypeError "unreachable"))
               (makeRequestWith env (fun _ _ _ _ => throw (TypeError "unreachable")))).
    reflexivity.
Qed.

Lemma sameSetup_refl s : sameSetup s s.
Proof. split; [destruct (config s)|]; reflexivity. Qed.

Lemma sameSetup_trans s1 s2 s3 :
  sameSetup s1 s2 -> sameSetup s2 s3 -> sameSetup s1 s3.
Proof.
  intros [H1 B1] [H2 B2]. split; [|congruence].
  rewrite H2, H1. reflexivity.
Qed.

Lemma sameSetup_canRefresh s s' :
  sameSetup s s' -> canRefresh (config s') = canRefresh (config s).
Proof. intros [H _]. rewrite H. reflexivity. Qed.

Lemma sameSetup_tokenRequestFor s s' :
  sameSetup s s' -> tokenRequestFor (config s') = tokenRequestFor (config s).
Proof. intros [H _]. rewrite H. reflexivity. Qed.

Lemma sameSetup_record e s : sameSetup s (record e s).
Proof. exact (sameSetup_refl s). Qed.

Lemma sameSetup_logged l s : sameSetup s (logged l s).
Proof. exact (sameSetup_refl s). Qed.

Lemma refreshAccessToken_sameSetup s :
  sameSetup s (snd (refreshAccessToken env s)).
Proof.
  rewrite refreshAccessToken_eq.
  destruct (canRefresh (config s)); simpl; [|exact (sameSetup_refl s)].
  destruct (refreshResult _); simpl; [exact (sameSetup_refl s)|].
  split; reflexivity.
Qed.

Lemma ensureFresh_sameSetup s : sameSetup s (snd (ensureFresh env s)).
Proof.
  rewrite ensureFresh_eq. simpl.
  destruct (clock env (history s) >=? tokenExpiresAt s); simpl.
  - eapply sameSetup_trans; [|apply refreshAccessToken_sameSetup].
    apply sameSetup_record.
  - apply sameSetup_record.
Qed.

Lemma fetchResource_sameSetup req s :
  sameSetup s (snd (fetchResource env req s)).
Proof.
  unfold fetchResource.
  destruct (resourceEndpoint env (history s) req); apply sameSetup_record.
Qed.

Lemma attempt_sameSetup endpoint method b s :
  sameSetup s (snd (attempt env endpoint method b s)).
Proof.
  rewrite attempt_eq. pose proof (ensureFresh_sameSetup s) as H.
  destruct (ensureFresh env s) as [[[]|e] s1]; simpl in *; [|exact H].
  destruct (Js.truthyStr (accessToken (config s1))); simpl; [|exact H].
  eapply sameSetup_trans; [exact H|apply fetchResource_sameSetup].
Qed.

End Facts.

(** ** What a dispatch adds to the history *)

Lemma truthyStr_nonempty s : Js.truthyStr s = true -> s <> "".
Proof. intros H E. subst. discriminate. Qed.

Lemma nonempty_truthyStr s : s <> "" -> Js.truthyStr s = true.
Proof.
  intros H. unfold Js.truthyStr. apply negb_true_iff, String.eqb_neq, H.
Qed.

Lemma geb_false a b : a < b -> (a >=? b) = false.
Proof. intros H. rewrite Z.geb_leb. apply Z.leb_gt, H. Qed.

Lemma geb_true a b : a >= b -> (a >=? b) = true.
Proof. intros H. apply Z.geb_le. lia. Qed.

Lemma bearer_requestFor s endpoint method b :
  Js.truthyStr (accessToken (config s)) = true ->
  bearer (requestFor s endpoint method b).
Proof.
  intros H. exists (accessToken (config s)). split.
  - apply truthyStr_nonempty, H.
  - reflexivity.
Qed.

Ltac history_tail :=
  simpl; rewrite <- ?app_assoc; simpl; reflexivity.

Lemma refreshAccessToken_events env s :
  exists d,
    history (snd (refreshAccessToken env s)) = history s ++ d /\
    resourceRequests d = [] /\
    (length (tokenRequests d) <= 1)%nat.
Proof.
  rewrite refreshAccessToken_eq.
  destruct (canRefresh (config s)); simpl.
  - destruct (refreshResult _); simpl.
    + eexists [_]. repeat split. simpl. lia.
    + eexists [_; _]. split; [history_tail|]. split; [reflexivity|simpl; lia].
  - exists []. rewrite app_nil_r. repeat split. simpl. lia.
Qed.

Lemma ensureFresh_events env s :
  exists d,
    history (snd (ensureFresh env s)) = history s ++ d /\
    resourceRequests d = [] /\
    (length (tokenRequests d) <= 1)%nat.
Proof.
  rewrite ensureFresh_eq. simpl.
  destruct (clock env (history s) >=? tokenExpiresAt s); simpl.
  - destruct (refreshAccessToken_events env (record (EvClock (clock env (history s))) s))
      as (d & Hd & Hr & Ht).
    exists (EvClock (clock env (history s)) :: d). rewrite Hd. simpl.
    rewrite <- app_assoc. repeat split; assumption.
  - eexists [_]. repeat split. simpl. lia.
Qed.

(** What [attempt] adds to the history: at most one resource request, with
    a non-empty bearer token; exactly one when it returns a response. *)
Lemma attempt_events env endpoint method b s :
  exists d,
    history (snd (attempt env endpoint method b s)) = history s ++ d /\
    (length (resourceRequests d) <= 1)%nat /\
    (forall response, fst (attempt env endpoint method b s) = Return response ->
                      length (resourceRequests d) = 1%nat) /\
    Forall bearer (resourceRequests d).
Proof.
  rewrite attempt_eq.
  destruct (ensureFresh_events env s) as (d & Hd & Hr & _).
  destruct (ensureFresh env s) as [[[]|e] s1]; simpl in *.
  - destruct (Js.truthyStr (accessToken (config s1))) eqn:Htok; simpl.
    + exists (d ++ [EvResource (requestFor s1 endpoint method b)
                      (resourceEndpoint env (history s1)
                         (requestFor s1 endpoint method b))]).
      unfold fetchResource.
      split; [destruct (resourceEndpoint _ _ _); simpl; rewrite Hd, app_assoc; reflexivity|].
      rewrite resourceRequests_app, Hr. simpl.
      repeat split; auto.
      constructor; [|constructor]. apply bearer_requestFor, Htok.
    + exists d. rewrite Hr. simpl. repeat split; auto. discriminate.
  - exists d. rewrite Hr. simpl. repeat split; auto. discriminate.
Qed.

Lemma makeRequestWith_events env self endpoint method b isRetry s (n : nat) :
  (forall s2, exists d,
      history (snd (self endpoint method b true s2)) = history s2 ++ d /\
      (length (resourceRequests d) <= n)%nat /\
      Forall bearer (resourceRequests d)) ->
  exists d,
    history (snd (makeRequestWith env self endpoint method b isRetry s))
      = history s ++ d /\
    (length (resourceRequests d) <= 1 + (if isRetry then 0 else n))%nat /\
    Forall bearer (resourceRequests d).
Proof.
  intros Hself. rewrite makeRequestWith_eq.
  destruct (attempt_events env endpoint method b s) as (d1 & Hd1 & Hn1 & _ & Hb1).
  destruct (attempt env endpoint method b s) as [[response|e] s1]; simpl in *;
    [|exists d1; repeat split; auto; lia].
  rewrite respond_eq.
  destruct (ok response).
  { exists d1. destruct (parsed response); simpl; repeat split; auto; lia. }
  destruct isRetry; simpl negb; rewrite ?andb_false_r, ?andb_true_r.
  { exists d1. simpl. repeat split; auto; lia. }
  destruct ((status response =? 401) && canRefresh (config s1)); simpl;
    [|exists d1; repeat split; auto; lia].
  destruct (refreshAccessToken_events env (logged LogReceived401 s1))
    as (d2 & Hd2 & Hr2 & _).
  destruct (refreshAccessToken env (logged LogReceived401 s1)) as [[[]|e] s2];
    simpl in *.
  - destruct (Hself s2) as (d3 & Hd3 & Hn3 & Hb3).
    exists (d1 ++ d2 ++ d3).
    split.
    + destruct (self endpoint method b true s2) as [[v|e] s3]; simpl in *;
        rewrite Hd3, Hd2, Hd1, <- !app_assoc; reflexivity.
    + rewrite !resourceRequests_app, Hr2. simpl. rewrite length_app.
      split; [lia|]. apply Forall_app. split; assumption.
  - exists (d1 ++ d2). rewrite Hd2, Hd1, <- app_assoc.
    rewrite resourceRequests_app, Hr2, app_nil_r.
    repeat split; auto; lia.
Qed.

(** Every dispatch sends at most two resource requests (one when it is
    itself the retry), each with a non-empty bearer token. *)
Lemma makeRequest_events env endpoint method b isRetry s :
  exists d,
    history (snd (makeRequest env endpoint method b isRetry s)) = history s ++ d /\
    (length (resourceRequests d) <= if isRetry then 1 else 2)%nat /\
    Forall bearer (resourceRequests d).
Proof.
  unfold makeRequest.
  destruct (makeRequestWith_events env
              (makeRequestWith env (fun _ _ _ _ => throw (TypeError "unreachable")))
              endpoint method b isRetry s 1) as (d & Hd & Hn & Hb).
  - intros s2.
    destruct (makeRequestWith_events env
                (fun _ _ _ _ => throw (TypeError "unreachable"))
                endpoint method b true s2 0) as (d & Hd & Hn & Hb).
    + intros s3. exists []. simpl. rewrite app_nil_r. repeat split; auto.
    + exists d. repeat split; auto.
  - exists d. repeat split; auto. destruct isRetry; simpl in *; lia.
Qed.

Lemma since_app s s' d : history s' = history s ++ d -> since s s' = d.
Proof. intros H. unfold since. rewrite H. apply skipn_length_app. Qed.

(** ** The token refresher *)

(** C7. A successful refresh (a 2xx answer of the token endpoint whose body
    parses to [access_token] and [expires_in]) replaces [accessToken] and
    [tokenExpiresAt] together, the new expiry being the clock reading plus
    [expires_in - 300] seconds.  In the scenario of a stale token "A"
    refreshed to "B" with [expires_in = 3600], the resource call carries
    [Zoho-oauthtoken B] and the stored expiry is the clock reading plus
    3300 s, not plus 3600 s. *)
Theorem refresh_replaces_token_and_expiry :
  (forall env s r data,
      canRefresh (config s) = true ->
      tokenEndpoint env (history s) (tokenRequestFor (config s)) = Resolved r ->
      ok r = true ->
      parsed r = Some data ->
      exists s',
        let now :=
          clock env (history s ++ [EvToken (tokenRequestFor (config s)) (Resolved r)]) in
        refreshAccessToken env s = (Return tt, s') /\
        accessToken (config s') = access_token data /\
        tokenExpiresAt s' = now + (expires_in data - 300) * 1000)
  /\
  (forall env s,
      let s' := snd (refreshAccessToken env s) in
      (accessToken (config s') = accessToken (config s) /\
       tokenExpiresAt s' = tokenExpiresAt s)
      \/
      (exists data now,
          accessToken (config s') = access_token data /\
          tokenExpiresAt s' = now + (expires_in data - 300) * 1000))
  /\
  (forall env s endpoint method b r response v,
      accessToken (config s) = "A" ->
      canRefresh (config s) = true ->
      tokenExpiresAt s = clock env (history s) - 1000 ->
      let h1 := history s ++ [EvClock (clock env (history s))] in
      let h2 := h1 ++ [EvToken (tokenRequestFor (config s)) (Resolved r)] in
      let now := clock env h2 in
      tokenEndpoint env h1 (tokenRequestFor (config s)) = Resolved r ->
      ok r = true ->
      parsed r = Some (mkTokenData "B" 3600) ->
      resourceEndpoint env (h2 ++ [EvClock now])
        (requestFor (setAccessToken "B" s) endpoint method b) = Resolved response ->
      ok response = true ->
      parsed response = Some v ->
      exists s',
        makeRequest env endpoint method b false s = (Return v, s') /\
        map authorization (resourceRequests (since s s'))
          = [Some "Zoho-oauthtoken B"] /\
        accessToken (config s') = "B" /\
        tokenExpiresAt s' = now + 3300 * 1000 /\
        tokenExpiresAt s' <> now + 3600 * 1000).
Proof.
  split; [|split].
  - intros env s r data Hcan Hout Hok Hparsed.
    rewrite refreshAccessToken_eq, Hcan, Hout. simpl.
    rewrite Hok, Hparsed. eexists. simpl. repeat split.
  - intros env s. rewrite refreshAccessToken_eq.
    destruct (canRefresh (config s)); simpl; [|left; split; reflexivity].
    destruct (refreshResult _) as [cause|data]; simpl.
    + left; split; reflexivity.
    + right. eexists data, _. split; reflexivity.
  - intros env s endpoint method b r response v HA Hcan Hexp h1 h2 now
           Hout Hok Hparsed Hres Hrok Hrparsed.
    unfold makeRequest. rewrite makeRequestWith_eq, attempt_eq, ensureFresh_eq.
    simpl. rewrite Hexp.
    replace (clock env (history s) >=? clock env (history s) - 1000) with true
      by (symmetry; apply Z.geb_le; lia).
    rewrite refreshAccessToken_eq. simpl. rewrite Hcan.
    fold h1. rewrite Hout. simpl. rewrite Hok, Hparsed. simpl.
    unfold fetchResource. simpl. fold h1. fold h2. fold now.
    unfold requestFor in *. simpl in *. rewrite Hres.
    rewrite respond_eq. rewrite Hrok, Hrparsed.
    eexists. split; [reflexivity|]. unfold since. simpl.
    rewrite <- !app_assoc. rewrite skipn_length_app. simpl.
    repeat split; try lia.
Qed.

(** The scenario itself, on a clock that reads 1000 ms at entry and advances a
    millisecond per event. *)
Lemma refresh_replaces_token_and_expiry_witness :
  (exists s',
      refreshAccessToken Scenario.refreshThenServed Scenario.stale = (Return tt, s') /\
      accessToken (config s') = "B" /\
      tokenExpiresAt s' = 1001 + 3300 * 1000)
  /\
  (exists s',
      makeRequest Scenario.refreshThenServed "/portals" "GET" Js.Undefined false
        Scenario.stale = (Return Scenario.portals, s') /\
      map authorization (resourceRequests (since Scenario.stale s'))
        = [Some "Zoho-oauthtoken B"] /\
      tokenExpiresAt s' = 1002 + 3300 * 1000).
Proof.
  destruct refresh_replaces_token_and_expiry as (Hrefresh & _ & Hscenario).
  split.
  - destruct (Hrefresh Scenario.refreshThenServed Scenario.stale
                (mkResponse 200 "" (Some (mkTokenData "B" 3600))
                            (Some "application/json"))
                (mkTokenData "B" 3600))
      as (s' & H); try reflexivity.
    exists s'. exact H.
  - destruct (Hscenario Scenario.refreshThenServed Scenario.stale "/portals" "GET"
                Js.Undefined
                (mkResponse 200 "" (Some (mkTokenData "B" 3600))
                            (Some "application/json"))
                (mkResponse 200 "" (Some Scenario.portals) (Some "application/json"))
                Scenario.portals)
      as (s' & H1 & H2 & _ & H3 & _); try reflexivity.
    exists s'. repeat split; assumption.
Defined.

(** ** The dispatcher: the 401 path *)

(** C3. When the first HTTP attempt of a dispatch returns 401, refresh
    credentials are fully configured, it is not a retry, and the refresh that
    follows fails (network error, non-2xx answer or a body that is not
    JSON), the dispatch ends in the error of the original 401: its status
    and its body text.  No retry is sent. *)
Theorem failed_refresh_surfaces_original_401
    env s endpoint method b s1 response cause :
  attempt env endpoint method b s = (Return response, s1) ->
  status response = 401 ->
  canRefresh (config s) = true ->
  refreshResult (tokenEndpoint env (history s1) (tokenRequestFor (config s))) = inl cause ->
  exists s',
    makeRequest env endpoint method b false s
      = (Throw (McpError InternalError (ZohoApiError 401 (body response))), s') /\
    tokenRequests (since s1 s') = [tokenRequestFor (config s)] /\
    resourceRequests (since s1 s') = [] /\
    config s' = config s1 /\
    tokenExpiresAt s' = tokenExpiresAt s1 /\
    In (LogTokenRefreshFailed (McpError InternalError (FailedToRefresh cause)))
       (console s').
Proof.
  intros Hatt H401 Hcan Hfail.
  pose proof (attempt_sameSetup env endpoint method b s) as Hsame.
  rewrite Hatt in Hsame; simpl in Hsame.
  unfold makeRequest. rewrite makeRequestWith_eq, Hatt, respond_eq.
  unfold ok. rewrite H401. simpl.
  rewrite (sameSetup_canRefresh _ _ Hsame), Hcan.
  rewrite refreshAccessToken_eq. simpl.
  rewrite (sameSetup_canRefresh _ _ Hsame), Hcan.
  rewrite (sameSetup_tokenRequestFor _ _ Hsame), Hfail. simpl.
  eexists. split; [reflexivity|]. unfold since. simpl.
  rewrite skipn_length_app. simpl. repeat split.
  apply in_or_app. right. left. reflexivity.
Qed.

(** A fresh token, a 401 and a denied refresh: the 401 is what is reported. *)
Lemma failed_refresh_surfaces_original_401_witness :
  attempt Scenario.refreshDenied "/portals" "GET" Js.Undefined Scenario.fresh
    = (Return Scenario.unauthorizedResponse,
       snd (attempt Scenario.refreshDenied "/portals" "GET" Js.Undefined Scenario.fresh)) /\
  canRefresh (config Scenario.fresh) = true /\
  exists s',
    makeRequest Scenario.refreshDenied "/portals" "GET" Js.Undefined false Scenario.fresh
      = (Throw (McpError InternalError (ZohoApiError 401 "unauthorized")), s').
Proof.
  split; [vm_compute; reflexivity|]. split; [reflexivity|].
  destruct (failed_refresh_surfaces_original_401
              Scenario.refreshDenied Scenario.fresh "/portals" "GET" Js.Undefined
              (snd (attempt Scenario.refreshDenied "/portals" "GET" Js.Undefined
                            Scenario.fresh))
              Scenario.unauthorizedResponse
              (RefreshRejected 400 "invalid_client"))
    as (s' & H & _); try (vm_compute; reflexivity).
  exists s'. exact H.
Defined.

(** C6. When the first attempt returns 401 while the refresh token, the
    client id or the client secret is not configured, the 401 is the
    terminal error at once: the dispatch has posted nothing to the token
    endpoint and has sent the one resource request only. *)
Theorem no_credentials_no_retry env s endpoint method b isRetry s1 response :
  attempt env endpoint method b s = (Return response, s1) ->
  status response = 401 ->
  canRefresh (config s) = false ->
  makeRequest env endpoint method b isRetry s
    = (Throw (McpError InternalError (ZohoApiError 401 (body response))), s1) /\
  tokenRequests (since s s1) = [] /\
  length (resourceRequests (since s s1)) = 1%nat.
Proof.
  intros Hatt H401 Hcan.
  pose proof (attempt_sameSetup env endpoint method b s) as Hsame.
  rewrite Hatt in Hsame; simpl in Hsame.
  split.
  - unfold makeRequest. rewrite makeRequestWith_eq, Hatt, respond_eq.
    unfold ok. rewrite H401. simpl.
    rewrite (sameSetup_canRefresh _ _ Hsame), Hcan, andb_false_r. reflexivity.
  - rewrite attempt_eq, ensureFresh_eq in Hatt. simpl in Hatt.
    rewrite refreshAccessToken_eq in Hatt. simpl in Hatt. rewrite Hcan in Hatt.
    unfold fetchResource, since in *.
    destruct (clock env (history s) >=? tokenExpiresAt s); simpl in Hatt;
      destruct (Js.truthyStr (accessToken (config s))); simpl in Hatt;
      try discriminate;
      match type of Hatt with
      | context [resourceEndpoint ?e ?h ?r] =>
          destruct (resourceEndpoint e h r); try discriminate
      end;
      inversion Hatt; subst; simpl;
      rewrite <- app_assoc, skipn_length_app; simpl; split; reflexivity.
Qed.

(** An access token only and a 401: one request, the 401 reported. *)
Lemma no_credentials_no_retry_witness :
  canRefresh (config Scenario.freshStatic) = false /\
  fst (makeRequest Scenario.alwaysUnauthorized "/portals" "GET" Js.Undefined false
         Scenario.freshStatic)
    = Throw (McpError InternalError (ZohoApiError 401 "unauthorized")) /\
  length (resourceRequests
            (history (snd (makeRequest Scenario.alwaysUnauthorized "/portals" "GET"
                             Js.Undefined false Scenario.freshStatic)))) = 1%nat.
Proof.
  split; [reflexivity|].
  destruct (no_credentials_no_retry
              Scenario.alwaysUnauthorized Scenario.freshStatic "/portals" "GET"
              Js.Undefined false
              (snd (attempt Scenario.alwaysUnauthorized "/portals" "GET" Js.Undefined
                            Scenario.freshStatic))
              Scenario.unauthorizedResponse)
    as (H & _ & Hn); try (vm_compute; reflexivity).
  rewrite H. split; [reflexivity|exact Hn].
Defined.

(** The claim C1 as the specification words it fails when the refresh that
    the 401 triggers is denied: one refresh call is made and no retry. *)
Lemma retry_once_counterexample :
  attempt Scenario.refreshDenied "/portals" "GET" Js.Undefined Scenario.fresh
    = (Return Scenario.unauthorizedResponse,
       snd (attempt Scenario.refreshDenied "/portals" "GET" Js.Undefined Scenario.fresh)) /\
  status Scenario.unauthorizedResponse = 401 /\
  canRefresh (config Scenario.fresh) = true /\
  length (tokenRequests
            (since (snd (attempt Scenario.refreshDenied "/portals" "GET" Js.Undefined
                               Scenario.fresh))
                   (snd (makeRequest Scenario.refreshDenied "/portals" "GET"
                           Js.Undefined false Scenario.fresh)))) = 1%nat /\
  length (resourceRequests
            (since (snd (attempt Scenario.refreshDenied "/portals" "GET" Js.Undefined
                               Scenario.fresh))
                   (snd (makeRequest Scenario.refreshDenied "/portals" "GET"
                           Js.Undefined false Scenario.fresh)))) <> 1%nat.
Proof. vm_compute. repeat split; discriminate. Qed.

(** C1 (amended). When the first HTTP attempt returns 401, it is not a
    retry, the refresh credentials are all configured, and the refresh that
    the 401 triggers succeeds with a non-empty token whose stored expiry is
    still ahead when the retry checks it, then after the first attempt
    exactly one refresh call and exactly one retry request are made, the
    retry carries the newly stored token, and two requests in all reach the
    remote API.  For every dispatch, whatever happens, at most two requests
    reach the remote API. *)
Theorem retry_once_with_new_token :
  (forall env s endpoint method b s1 response data,
      attempt env endpoint method b s = (Return response, s1) ->
      status response = 401 ->
      canRefresh (config s) = true ->
      let req := tokenRequestFor (config s) in
      let out := tokenEndpoint env (history s1) req in
      let now := clock env (history s1 ++ [EvToken req out]) in
      refreshResult out = inr data ->
      access_token data <> "" ->
      clock env (history s1 ++ [EvToken req out; EvClock now])
        < now + (expires_in data - 300) * 1000 ->
      let s' := snd (makeRequest env endpoint method b false s) in
      tokenRequests (since s1 s') = [req] /\
      (exists retry,
          resourceRequests (since s1 s') = [retry] /\
          authorization retry
            = Some (String.append "Zoho-oauthtoken " (access_token data))) /\
      accessToken (config s') = access_token data /\
      length (resourceRequests (since s s')) = 2%nat)
  /\
  (forall env s endpoint method b isRetry,
      let s' := snd (makeRequest env endpoint method b isRetry s) in
      (length (resourceRequests (since s s')) <= 2)%nat).
Proof.
  split.
  - intros env s endpoint method b s1 response data Hatt H401 Hcan req out now
           Hok Htok Hfresh s'.
    pose proof (attempt_sameSetup env endpoint method b s) as Hsame.
    destruct (attempt_events env endpoint method b s) as (d1 & Hd1 & _ & Hone & _).
    rewrite Hatt in Hsame, Hd1, Hone; simpl in Hsame, Hd1, Hone.
    specialize (Hone response eq_refl).
    assert (Hreq : tokenRequestFor (config s1) = req)
      by apply (sameSetup_tokenRequestFor _ _ Hsame).
    assert (Hs' : exists o l,
               s' = mkState (withAccessToken (access_token data) (config s1))
                      (baseUrl s1) (now + (expires_in data - 300) * 1000)
                      (history s1 ++
                         [EvToken req out; EvClock now;
                          EvClock (clock env (history s1 ++ [EvToken req out; EvClock now]));
                          EvResource
                            (requestFor
                               (setAccessToken (access_token data) s1)
                               endpoint method b) o]) l).
    { subst s'. unfold makeRequest.
      rewrite makeRequestWith_eq, Hatt, respond_eq.
      unfold ok at 1. rewrite H401. simpl.
      rewrite (sameSetup_canRefresh _ _ Hsame), Hcan.
      rewrite refreshAccessToken_eq. simpl.
      rewrite (sameSetup_canRefresh _ _ Hsame), Hcan, Hreq.
      fold out. rewrite Hok. unfold refreshed. simpl. rewrite Hreq. fold out now.
      rewrite makeRequestWith_eq, attempt_eq, ensureFresh_eq. simpl.
      rewrite <- !app_assoc. simpl.
      rewrite (geb_false _ _ Hfresh). simpl.
      rewrite (nonempty_truthyStr _ Htok).
      unfold fetchResource. simpl. rewrite <- !app_assoc. simpl.
      unfold requestFor at 1 2. simpl.
      match goal with
      | |- context [resourceEndpoint env ?h ?r] =>
          destruct (resourceEndpoint env h r) as [reason|r2] eqn:Hout
      end; simpl.
      - eexists _, _. unfold requestFor, logged. simpl.
        rewrite <- !app_assoc. simpl. reflexivity.
      - rewrite respond_eq. simpl negb. rewrite andb_false_r.
        destruct (ok r2); [destruct (parsed r2)|]; simpl;
          eexists _, _; unfold requestFor, logged, record; simpl;
          rewrite <- !app_assoc; simpl; reflexivity. }
    destruct Hs' as (o & l & Hs'). rewrite Hs'.
    unfold since. simpl. rewrite skipn_length_app.
    rewrite Hd1, <- !app_assoc, skipn_length_app, resourceRequests_app, length_app, Hone.
    simpl. repeat split. eexists. split; reflexivity.
  - intros env s endpoint method b isRetry s'.
    destruct (makeRequest_events env endpoint method b isRetry s) as (d & Hd & Hn & _).
    subst s'. rewrite (since_app _ _ _ Hd). destruct isRetry; lia.
Qed.

(** A 401, a granted refresh and a served retry: "A" then "B" on the wire. *)
Lemma retry_once_with_new_token_witness :
  canRefresh (config Scenario.fresh) = true /\
  length (tokenRequests
            (history (snd (makeRequest Scenario.retryServed "/portals" "GET"
                             Js.Undefined false Scenario.fresh)))) = 1%nat /\
  map authorization
    (resourceRequests
       (history (snd (makeRequest Scenario.retryServed "/portals" "GET"
                        Js.Undefined false Scenario.fresh))))
    = [Some "Zoho-oauthtoken A"; Some "Zoho-oauthtoken B"] /\
  accessToken
    (config (snd (makeRequest Scenario.retryServed "/portals" "GET" Js.Undefined
                    false Scenario.fresh))) = "B".
Proof.
  destruct retry_once_with_new_token as (Hretry & _).
  destruct (Hretry Scenario.retryServed Scenario.fresh "/portals" "GET" Js.Undefined
              (snd (attempt Scenario.retryServed "/portals" "GET" Js.Undefined
                            Scenario.fresh))
              Scenario.unauthorizedResponse (mkTokenData "B" 3600))
    as (_ & _ & Htok & _); try (vm_compute; reflexivity).
  - discriminate.
  - split; [reflexivity|]. split; [reflexivity|]. split; [reflexivity|exact Htok].
Defined.

(** Why the amended C1 asks for a token that is still fresh at the retry: a
    granted token that lives no longer than the margin is stale at once, and
    the retry refreshes a second time. *)
Example short_lived_token_is_refreshed_twice :
  length (tokenRequests
            (history (snd (makeRequest Scenario.shortLived "/portals" "GET"
                             Js.Undefined false Scenario.fresh)))) = 2%nat /\
  map authorization
    (resourceRequests
       (history (snd (makeRequest Scenario.shortLived "/portals" "GET"
                        Js.Undefined false Scenario.fresh))))
    = [Some "Zoho-oauthtoken A"; Some "Zoho-oauthtoken C"].
Proof. vm_compute. split; reflexivity. Qed.

(** Why it asks for a non-empty token: with an empty one the retry stops at
    the guard of line 121, and the original 401 is reported. *)
Example empty_granted_token_is_not_retried :
  length (resourceRequests
            (history (snd (makeRequest Scenario.emptyGrant "/portals" "GET"
                             Js.Undefined false Scenario.fresh)))) = 1%nat /\
  fst (makeRequest Scenario.emptyGrant "/portals" "GET" Js.Undefined false
         Scenario.fresh)
    = Throw (McpError InternalError (ZohoApiError 401 "unauthorized")).
Proof. vm_compute. split; reflexivity. Qed.

(** C4. When the first attempt returns 401, the refresh that follows
    succeeds and the retry then fails, with whatever error, the [catch] at
    line 160 catches that error too, logs it as a failed refresh and falls
    through to line 166: the dispatch reports the status and body of the
    original 401, not those of the retry's response. *)
Theorem retry_failure_reports_original_401
    env s endpoint method b s1 response s2 e s3 :
  attempt env endpoint method b s = (Return response, s1) ->
  status response = 401 ->
  canRefresh (config s) = true ->
  refreshAccessToken env (logged LogReceived401 s1) = (Return tt, s2) ->
  makeRequest env endpoint method b true s2 = (Throw e, s3) ->
  makeRequest env endpoint method b false s
    = (Throw (McpError InternalError (ZohoApiError 401 (body response))),
       logged (LogTokenRefreshFailed e) s3).
Proof.
  intros Hatt H401 Hcan Hrefresh Hretry.
  pose proof (attempt_sameSetup env endpoint method b s) as Hsame.
  rewrite Hatt in Hsame; simpl in Hsame.
  rewrite makeRequest_unfold, makeRequestWith_eq, Hatt, respond_eq.
  unfold ok. rewrite H401. simpl.
  rewrite (sameSetup_canRefresh _ _ Hsame), Hcan, Hrefresh, Hretry.
  reflexivity.
Qed.

(** First attempt 401 "unauthorized", refresh granted, retry answered with
    500 "boom": the dispatch reports 401 "unauthorized". *)
Lemma retry_failure_reports_original_401_witness :
  makeRequest Scenario.retryFails "/portals" "GET" Js.Undefined false Scenario.fresh
    = (Throw (McpError InternalError (ZohoApiError 401 "unauthorized")),
       logged (LogTokenRefreshFailed (McpError InternalError (ZohoApiError 500 "boom")))
         (snd (makeRequest Scenario.retryFails "/portals" "GET" Js.Undefined true
                 (snd (refreshAccessToken Scenario.retryFails
                         (logged LogReceived401
                            (snd (attempt Scenario.retryFails "/portals" "GET"
                                    Js.Undefined Scenario.fresh)))))))) /\
  resourceAnswers
    (history (snd (makeRequest Scenario.retryFails "/portals" "GET" Js.Undefined
                     false Scenario.fresh)))
    = [Scenario.unauthorized; Scenario.serverError].
Proof.
  split; [|reflexivity].
  apply (retry_failure_reports_original_401
           Scenario.retryFails Scenario.fresh "/portals" "GET" Js.Undefined
           (snd (attempt Scenario.retryFails "/portals" "GET" Js.Undefined
                   Scenario.fresh))
           Scenario.unauthorizedResponse
           (snd (refreshAccessToken Scenario.retryFails
                   (logged LogReceived401
                      (snd (attempt Scenario.retryFails "/portals" "GET"
                              Js.Undefined Scenario.fresh))))));
    vm_compute; reflexivity.
Defined.

(** ** The dispatcher: the proactive refresh *)

(** The claim C2 as the specification words it fails when the token is
    stale and the token endpoint denies the refresh: the dispatch aborts
    with the refresh error and sends nothing to the resource endpoint. *)
Lemma proactive_refresh_counterexample :
  clock Scenario.deniedButServing (history Scenario.stale)
    >= tokenExpiresAt Scenario.stale /\
  tokenRequests
    (history (snd (makeRequest Scenario.deniedButServing "/portals" "GET"
                     Js.Undefined false Scenario.stale)))
    = [tokenRequestFor (config Scenario.stale)] /\
  fst (makeRequest Scenario.deniedButServing "/portals" "GET" Js.Undefined false
         Scenario.stale)
    = Throw (McpError InternalError
               (FailedToRefresh (RefreshRejected 400 "invalid_client"))) /\
  resourceRequests
    (history (snd (makeRequest Scenario.deniedButServing "/portals" "GET"
                     Js.Undefined false Scenario.stale))) = [].
Proof. vm_compute. repeat split; discriminate. Qed.

(** C2 (amended). When the stored credential is stale at entry and the
    proactive refresh fails at the token endpoint (network error, non-2xx
    answer or a body that is not JSON), the dispatch aborts with that
    refresh error: it is logged, the stored token and expiry stay as they
    were, and no resource request is sent.  Only a refresh that is skipped
    because refresh credentials are missing is logged and swallowed: the
    dispatch then sends its request with the token currently stored. *)
Theorem proactive_refresh_failure_aborts :
  (forall env s endpoint method b isRetry cause,
      clock env (history s) >= tokenExpiresAt s ->
      canRefresh (config s) = true ->
      refreshResult
        (tokenEndpoint env (history s ++ [EvClock (clock env (history s))])
           (tokenRequestFor (config s))) = inl cause ->
      exists s',
        makeRequest env endpoint method b isRetry s
          = (Throw (McpError InternalError (FailedToRefresh cause)), s') /\
        resourceRequests (since s s') = [] /\
        config s' = config s /\
        tokenExpiresAt s' = tokenExpiresAt s /\
        console s' = console s ++ [LogRefreshError cause])
  /\
  (forall env s endpoint method b isRetry,
      clock env (history s) >= tokenExpiresAt s ->
      canRefresh (config s) = false ->
      accessToken (config s) <> "" ->
      let s0 := logged LogCannotRefresh (record (EvClock (clock env (history s))) s) in
      let req := requestFor s endpoint method b in
      snd (makeRequest env endpoint method b isRetry s)
        = record (EvResource req (resourceEndpoint env (history s0) req)) s0 /\
      authorization req
        = Some (String.append "Zoho-oauthtoken " (accessToken (config s)))).
Proof.
  split.
  - intros env s endpoint method b isRetry cause Hstale Hcan Hfail.
    unfold makeRequest.
    rewrite makeRequestWith_eq, attempt_eq, ensureFresh_eq. simpl.
    rewrite (geb_true _ _ Hstale), refreshAccessToken_eq. simpl.
    rewrite Hcan, Hfail. simpl.
    eexists. split; [reflexivity|]. unfold since. simpl.
    rewrite <- app_assoc, skipn_length_app. repeat split.
  - intros env s endpoint method b isRetry Hstale Hcan Htok s0 req.
    split; [|reflexivity].
    unfold makeRequest.
    rewrite makeRequestWith_eq, attempt_eq, ensureFresh_eq. simpl.
    rewrite (geb_true _ _ Hstale), refreshAccessToken_eq. simpl.
    rewrite Hcan. simpl. rewrite (nonempty_truthyStr _ Htok).
    unfold fetchResource. simpl. fold s0.
    replace (requestFor s0 endpoint method b) with req by reflexivity.
    destruct (resourceEndpoint env (history s ++ [EvClock (clock env (history s))]) req)
      as [reason|r]; [reflexivity|].
    rewrite respond_eq. simpl. rewrite Hcan, !andb_false_r.
    destruct (ok r); [destruct (parsed r)|]; reflexivity.
Qed.

(** A stale token and a denied refresh: the dispatch aborts; a stale token
    and no refresh credentials: the request goes out with the stored token. *)
Lemma proactive_refresh_failure_aborts_witness :
  (exists s',
      makeRequest Scenario.deniedButServing "/portals" "GET" Js.Undefined false
        Scenario.stale
        = (Throw (McpError InternalError
                    (FailedToRefresh (RefreshRejected 400 "invalid_client"))), s') /\
      resourceRequests (since Scenario.stale s') = [])
  /\
  map authorization
    (resourceRequests
       (history (snd (makeRequest Scenario.deniedButServing "/portals" "GET"
                        Js.Undefined false Scenario.staleStatic))))
    = [Some "Zoho-oauthtoken A"].
Proof.
  destruct proactive_refresh_failure_aborts as (Habort & Hskip).
  split.
  - destruct (Habort Scenario.deniedButServing Scenario.stale "/portals" "GET"
                Js.Undefined false (RefreshRejected 400 "invalid_client"))
      as (s' & H1 & H2 & _); try (vm_compute; reflexivity).
    + vm_compute. discriminate.
    + exists s'. split; assumption.
  - destruct (Hskip Scenario.deniedButServing Scenario.staleStatic "/portals" "GET"
                Js.Undefined false) as (H & _).
    + vm_compute. discriminate.
    + reflexivity.
    + discriminate.
    + rewrite H. reflexivity.
Defined.

(** The claim C5 as the specification words it fails when no token is
    stored and the token endpoint denies the refresh: the token is still
    empty, no refresh has succeeded, and the dispatch fails with the refresh
    error, not with the configuration error. *)
Lemma missing_credential_counterexample :
  accessToken
    (config (snd (ensureFresh Scenario.deniedButServing Scenario.unconfigured))) = "" /\
  fst (ensureFresh Scenario.deniedButServing Scenario.unconfigured)
    = Throw (McpError InternalError
               (FailedToRefresh (RefreshRejected 400 "invalid_client"))) /\
  fst (makeRequest Scenario.deniedButServing "/portals" "GET" Js.Undefined false
         Scenario.unconfigured)
    = Throw (McpError InternalError
               (FailedToRefresh (RefreshRejected 400 "invalid_client"))) /\
  fst (makeRequest Scenario.deniedButServing "/portals" "GET" Js.Undefined false
         Scenario.unconfigured)
    <> Throw (McpError InvalidRequest AccessTokenNotConfigured).
Proof. vm_compute. repeat split; discriminate. Qed.

(** C5 (amended). No dispatch ever sends a resource request with an empty
    bearer token.  When the proactive-refresh step completes and leaves the
    stored token empty, the dispatch fails with the configuration error
    (InvalidRequest, "access token not configured") before any resource
    request.  When the proactive refresh itself raises, the dispatch fails
    with that refresh error, again before any resource request. *)
Theorem empty_token_never_sent :
  (forall env s endpoint method b isRetry,
      Forall bearer
        (resourceRequests
           (since s (snd (makeRequest env endpoint method b isRetry s)))))
  /\
  (forall env s endpoint method b isRetry s0,
      ensureFresh env s = (Return tt, s0) ->
      accessToken (config s0) = "" ->
      makeRequest env endpoint method b isRetry s
        = (Throw (McpError InvalidRequest AccessTokenNotConfigured), s0) /\
      resourceRequests (since s s0) = [])
  /\
  (forall env s endpoint method b isRetry e s0,
      ensureFresh env s = (Throw e, s0) ->
      makeRequest env endpoint method b isRetry s = (Throw e, s0) /\
      resourceRequests (since s s0) = [] /\
      exists cause, e = McpError InternalError (FailedToRefresh cause)).
Proof.
  split; [|split].
  - intros env s endpoint method b isRetry.
    destruct (makeRequest_events env endpoint method b isRetry s) as (d & Hd & _ & Hb).
    rewrite (since_app _ _ _ Hd). exact Hb.
  - intros env s endpoint method b isRetry s0 Hfresh Hempty.
    destruct (ensureFresh_events env s) as (d & Hd & Hr & _).
    rewrite Hfresh in Hd; simpl in Hd.
    unfold makeRequest. rewrite makeRequestWith_eq, attempt_eq, Hfresh, Hempty.
    simpl. split; [reflexivity|]. rewrite (since_app _ _ _ Hd). exact Hr.
  - intros env s endpoint method b isRetry e s0 Hfresh.
    destruct (ensureFresh_events env s) as (d & Hd & Hr & _).
    rewrite Hfresh in Hd; simpl in Hd.
    unfold makeRequest. rewrite makeRequestWith_eq, attempt_eq, Hfresh.
    split; [reflexivity|]. rewrite (since_app _ _ _ Hd). split; [exact Hr|].
    rewrite ensureFresh_eq in Hfresh. simpl in Hfresh.
    destruct (clock env (history s) >=? tokenExpiresAt s); [|discriminate].
    rewrite refreshAccessToken_eq in Hfresh. simpl in Hfresh.
    destruct (canRefresh (config s)); [|discriminate].
    destruct (refreshResult _) as [cause|data]; [|discriminate].
    exists cause. congruence.
Qed.

(** No token and no refresh credentials: the configuration error; no token
    and a denied refresh: the refresh error. *)
Lemma empty_token_never_sent_witness :
  Forall bearer
    (resourceRequests
       (since Scenario.fresh
          (snd (makeRequest Scenario.retryServed "/portals" "GET" Js.Undefined false
                  Scenario.fresh))))
  /\
  fst (makeRequest Scenario.alwaysUnauthorized "/portals" "GET" Js.Undefined false
         (Scenario.startWith (Scenario.staticToken "") 0))
    = Throw (McpError InvalidRequest AccessTokenNotConfigured)
  /\
  fst (makeRequest Scenario.deniedButServing "/portals" "GET" Js.Undefined false
         Scenario.unconfigured)
    = Throw (McpError InternalError
               (FailedToRefresh (RefreshRejected 400 "invalid_client"))).
Proof.
  destruct empty_token_never_sent as (Hsafe & Hmissing & Hraise).
  split; [apply Hsafe|]. split.
  - destruct (Hmissing Scenario.alwaysUnauthorized
                (Scenario.startWith (Scenario.staticToken "") 0)
                "/portals" "GET" Js.Undefined false
                (snd (ensureFresh Scenario.alwaysUnauthorized
                        (Scenario.startWith (Scenario.staticToken "") 0))))
      as (H & _); [reflexivity .. | rewrite H; reflexivity].
  - destruct (Hraise Scenario.deniedButServing Scenario.unconfigured
                "/portals" "GET" Js.Undefined false
                (McpError InternalError
                   (FailedToRefresh (RefreshRejected 400 "invalid_client")))
                (snd (ensureFresh Scenario.deniedButServing Scenario.unconfigured)))
      as (H & _); [reflexivity .. | rewrite H; reflexivity].
Defined.

(** ** The credential store at process start *)

(** C8. With an access token in the configuration, the constructor stores
    the clock reading plus 3600 s as the expiry: the full lifetime, without
    the 300 s margin that [refreshAccessToken] subtracts. *)
Theorem construct_expiry_has_no_margin env processEnv :
  envOr processEnv "ZOHO_ACCESS_TOKEN" "" <> "" ->
  tokenExpiresAt (construct env processEnv) = clock env [] + 3600 * 1000 /\
  tokenExpiresAt (construct env processEnv) <> clock env [] + (3600 - 300) * 1000.
Proof.
  intros H. unfold construct. simpl.
  rewrite (nonempty_truthyStr _ H). simpl. split; [reflexivity|lia].
Qed.

(** Started at 1000 ms with a token: the expiry is 1000 + 3 600 000. *)
Lemma construct_expiry_has_no_margin_witness :
  envOr Scenario.processEnvWithToken "ZOHO_ACCESS_TOKEN" "" <> "" /\
  tokenExpiresAt (construct Scenario.refreshThenServed Scenario.processEnvWithToken)
    = 1000 + 3600 * 1000.
Proof.
  split; [discriminate|].
  apply (construct_expiry_has_no_margin Scenario.refreshThenServed
           Scenario.processEnvWithToken).
  discriminate.
Defined.

(** ** The binary fetch helper *)

(** C9. [downloadInlineImage] does not follow the discipline of
    [makeRequest].  With a refresh token but neither client id nor client
    secret, a 401 is retried all the same (two requests, no refresh call).
    With full credentials and a refresh that is denied on the 401 path, the
    refresh error is the one reported, not the original 401. *)
Theorem downloadInlineImage_breaks_retry_discipline :
  (canRefresh (config Scenario.freshRefreshTokenOnly) = false /\
   resourceAnswers
     (history (snd (downloadInlineImage Scenario.alwaysUnauthorized
                      Scenario.inlineImage Scenario.freshRefreshTokenOnly)))
     = [Scenario.unauthorized; Scenario.unauthorized] /\
   fst (downloadInlineImage Scenario.alwaysUnauthorized Scenario.inlineImage
          Scenario.freshRefreshTokenOnly)
     = Throw (McpError InternalError (ImageDownloadFailedAfterRefresh 401)))
  /\
  (canRefresh (config Scenario.fresh) = true /\
   resourceAnswers
     (history (snd (downloadInlineImage Scenario.refreshDenied Scenario.inlineImage
                      Scenario.fresh)))
     = [Scenario.unauthorized] /\
   fst (downloadInlineImage Scenario.refreshDenied Scenario.inlineImage
          Scenario.fresh)
     = Throw (McpError InternalError
                (FailedToRefresh (RefreshRejected 400 "invalid_client")))).
Proof. vm_compute. repeat split. Qed.

(** ** listTasklists *)

Lemma prefix_spec a b :
  String.prefix a b = true <-> exists after, b = String.append a after.
Proof.
  revert b. induction a as [|c a IH]; intros b.
  - destruct b; simpl; (split; [intros _; eexists; reflexivity|reflexivity]).
  - destruct b as [|c' b]; simpl.
    + split; [discriminate|intros [after H]; discriminate].
    + destruct (Ascii.ascii_dec c c') as [->|Hne].
      * rewrite IH. split; intros [after H]; exists after; congruence.
      * split; [discriminate|intros [after H]; congruence].
Qed.

Lemma includes_unfold a b :
  Js.includes a b =
  if String.prefix a b then true
  else match b with
       | EmptyString => false
       | String _ rest => Js.includes a rest
       end.
Proof. destruct b; reflexivity. Qed.

(** [includes] decides [Contains]. *)
Lemma includes_spec a b : Js.includes a b = true <-> Contains a b.
Proof.
  unfold Contains. split.
  - revert a. induction b as [|c b IH]; intros a; rewrite includes_unfold;
      destruct (String.prefix a _) eqn:Hp.
    + intros _. apply prefix_spec in Hp as [after H]. exists "", after. exact H.
    + discriminate.
    + intros _. apply prefix_spec in Hp as [after H]. exists "", after. exact H.
    + intros H. apply IH in H as (before & after & H).
      exists (String c before), after. simpl. rewrite H. reflexivity.
  - intros (before & after & H). revert b H.
    induction before as [|c before IH]; intros b H; rewrite includes_unfold.
    + replace (String.prefix a b) with true; [reflexivity|].
      symmetry. apply prefix_spec. exists after. exact H.
    + destruct (String.prefix a b); [reflexivity|].
      subst b. simpl. apply IH. reflexivity.
Qed.

Lemma includes_empty_haystack a : a <> "" -> Js.includes a "" = false.
Proof. destruct a; [congruence|reflexivity]. Qed.

Lemma includes_empty_needle b : Js.includes "" b = true.
Proof. rewrite includes_unfold. destruct b; reflexivity. Qed.

Lemma nameContainsb_spec lower q t :
  nameContainsb lower q t = true <-> NameContains lower q t.
Proof.
  unfold nameContainsb, NameContains. split.
  - destruct t as [| | | | |items|fields]; try discriminate.
    destruct (Js.lookup "name" fields) eqn:Hname; try discriminate.
    intros H. exists fields, s. repeat split; auto. apply includes_spec, H.
  - intros (fields & name & -> & -> & H). apply includes_spec, H.
Qed.

Section Tasklists.

Variable lower : string -> string.
Hypothesis lower_empty : forall x, lower x = "" <-> x = "".
Variable q : string.
Hypothesis q_given : q <> "".

Lemma nameMatches_shape t s :
  tasklistShape t = true ->
  nameMatches lower (lower q) t s = (Return (nameContainsb lower q t), s).
Proof.
  destruct t as [| | | | |items|fields]; try discriminate. simpl.
  unfold nameMatches, bind, getProp, ret. simpl.
  destruct (Js.lookup "name" fields) as [| | | |name| |]; simpl;
    rewrite ?andb_false_r; try discriminate; try reflexivity.
  intros _. unfold Js.truthyStr.
  destruct (String.eqb_spec name "") as [->|Hne]; simpl; [|reflexivity].
  rewrite (proj2 (lower_empty "") eq_refl), includes_empty_haystack; [reflexivity|].
  intros H. exact (q_given (proj1 (lower_empty q) H)).
Qed.

Lemma filterM_cons f t items s :
  filterM f (t :: items) s =
  match f t s with
  | (Return keep, s1) =>
      match filterM f items s1 with
      | (Return kept, s2) => (Return (if keep then t :: kept else kept), s2)
      | (Throw e, s2) => (Throw e, s2)
      end
  | (Throw e, s1) => (Throw e, s1)
  end.
Proof. reflexivity. Qed.

Lemma mapM_cons f t items s :
  mapM f (t :: items) s =
  match f t s with
  | (Return y, s1) =>
      match mapM f items s1 with
      | (Return ys, s2) => (Return (y :: ys), s2)
      | (Throw e, s2) => (Throw e, s2)
      end
  | (Throw e, s1) => (Throw e, s1)
  end.
Proof. reflexivity. Qed.

Lemma filterM_shapes items s :
  forallb tasklistShape items = true ->
  filterM (nameMatches lower (lower q)) items s
    = (Return (filter (nameContainsb lower q) items), s).
Proof.
  induction items as [|t items IH]; [reflexivity|].
  simpl forallb. simpl filter. simpl map.
  intros H. apply andb_true_iff in H as [Ht Hitems].
  rewrite filterM_cons, (nameMatches_shape _ _ Ht), (IH Hitems). reflexivity.
Qed.

Lemma mapM_minimal items s :
  forallb tasklistShape items = true ->
  mapM minimalTasklist items s
    = (Return (map (fun t => Js.Obj [("id", prop "id" t); ("name", prop "name" t)])
                   items), s).
Proof.
  induction items as [|t items IH]; [reflexivity|].
  simpl forallb. simpl filter. simpl map.
  intros H. apply andb_true_iff in H as [Ht Hitems].
  destruct t as [| | | | |elems|fields]; try discriminate.
  rewrite mapM_cons.
  replace (minimalTasklist (Js.Obj fields) s)
    with (Return (Js.Obj [("id", Js.lookup "id" fields);
                          ("name", Js.lookup "name" fields)]), s)
    by reflexivity.
  rewrite (IH Hitems). reflexivity.
Qed.

Lemma forallb_filter {A} (p f : A -> bool) l :
  forallb p l = true -> forallb p (filter f l) = true.
Proof.
  induction l as [|x l IH]; simpl; [reflexivity|].
  intros H. apply andb_true_iff in H as [Hx Hl].
  destruct (f x); simpl; [rewrite Hx|]; auto.
Qed.

End Tasklists.

Lemma toJSON_minimal lower q t :
  tasklistShape t = true ->
  nameContainsb lower q t = true ->
  Js.toJSON (Js.Obj [("id", prop "id" t); ("name", prop "name" t)])
    = Js.Obj [("id", Js.toJSON (prop "id" t)); ("name", prop "name" t)].
Proof.
  destruct t as [| | | | |elems|fields]; try discriminate.
  unfold tasklistShape, nameContainsb, prop.
  destruct (Js.lookup "name" fields) as [| | | |name| |]; try discriminate.
  destruct (Js.lookup "id" fields); try discriminate; reflexivity.
Qed.

Lemma toJSON_tasklists raw :
  Js.toJSON (Js.Obj [("tasklists", Js.Arr raw)])
    = Js.Obj [("tasklists",
               Js.Arr (map (fun x => if Js.isUndefined x then Js.Null
                                     else Js.toJSON x) raw))].
Proof. reflexivity. Qed.

Lemma filter_named lower items :
  lower "" = "" ->
  forallb named items = true ->
  filter (nameContainsb lower "") items = items.
Proof.
  intros Hlower. induction items as [|t items IH]; simpl; [reflexivity|].
  intros H. apply andb_true_iff in H as [Ht Hitems].
  replace (nameContainsb lower "" t) with true; [rewrite (IH Hitems); reflexivity|].
  destruct t as [| | | | |elems|fields]; try discriminate.
  unfold named, nameContainsb in *.
  destruct (Js.lookup "name" fields); try discriminate.
  rewrite Hlower, includes_empty_needle. reflexivity.
Qed.

(** C10, as it is worded, fails on responses of other shapes.  A tasklist
    without an id comes back with the one field [name]; with the empty
    [name_contains], which is not filtered by, a tasklist without a name
    comes back; a name that is no string and a [tasklists] that is no array
    end the call with a [TypeError]. *)
Lemma listTasklists_counterexample :
  (fst (listTasklists
          (Cases.servingTasklistsOf (Js.Arr [Js.Obj [("name", Js.Str "Backlog")]]))
          asciiLower "42" (Some "back") true Scenario.fresh)
     = Return (TextContent
                 (Js.Obj [("tasklists",
                           Js.Arr [Js.Obj [("name", Js.Str "Backlog")]])])) /\
   ~ hasIdAndNameOnly (Js.Obj [("name", Js.Str "Backlog")])) /\
  (fst (listTasklists
          (Cases.servingTasklistsOf (Js.Arr [Js.Obj [("id", Js.Num 2)]]))
          asciiLower "42" (Some "") true Scenario.fresh)
     = Return (TextContent
                 (Js.Obj [("tasklists", Js.Arr [Js.Obj [("id", Js.Num 2)]])])) /\
   ~ hasIdAndNameOnly (Js.Obj [("id", Js.Num 2)]) /\
   ~ NameContains asciiLower "" (Js.Obj [("id", Js.Num 2)])) /\
  fst (listTasklists
         (Cases.servingTasklistsOf
            (Js.Arr [Js.Obj [("id", Js.Num 1); ("name", Js.Num 5)]]))
         asciiLower "42" (Some "a") true Scenario.fresh)
    = Throw (TypeError "toLowerCase") /\
  fst (listTasklists (Cases.servingTasklistsOf (Js.Str "none"))
         asciiLower "42" (Some "a") true Scenario.fresh)
    = Throw (TypeError "filter").
Proof.
  split; [split; [vm_compute; reflexivity|]|].
  { intros (fields & H & Hkeys). injection H as <-. discriminate Hkeys. }
  split; [split; [vm_compute; reflexivity|split]|].
  { intros (fields & H & Hkeys). injection H as <-. discriminate Hkeys. }
  { unfold NameContains. intros (fields & name & H & Hname & _).
    injection H as <-. discriminate Hname. }
  split; vm_compute; reflexivity.
Qed.

(** C10. For a response of the tasklists endpoint (an object whose
    [tasklists] is an array of tasklists, each with an id, or is absent),
    [listTasklists] called with a [name_contains] string keeps, in their
    order, exactly the tasklists whose name contains that string with
    letter case ignored.  With [minimal = true] it returns each of them as
    an object with the two fields [id] and [name] and nothing else; with
    [minimal = false] it returns the document of the API with these as its
    [tasklists].  The empty string is contained in every name: for it, the
    tasklists are taken to have a name. *)
Theorem listTasklists_filters_by_name
    env lower projectId q s fields items s1 :
  (forall x, lower x = "" <-> x = "") ->
  makeRequest env (tasklistsEndpoint s projectId) "GET" Js.Undefined false s
    = (Return (Js.Obj fields), s1) ->
  Js.lookup "tasklists" fields = Js.Arr items \/
    (Js.truthy (Js.lookup "tasklists" fields) = false /\ items = []) ->
  forallb tasklistShape items = true ->
  (q = "" -> forallb named items = true) ->
  exists kept returned,
    listTasklists env lower projectId (Some q) true s
      = (Return (TextContent (Js.Obj [("tasklists", Js.Arr returned)])), s1) /\
    returned
      = map (fun t => Js.Obj [("id", Js.toJSON (prop "id" t)); ("name", prop "name" t)])
            kept /\
    kept = filter (nameContainsb lower q) items /\
    (forall t, In t kept <-> In t items /\ NameContains lower q t) /\
    Forall hasIdAndNameOnly returned /\
    listTasklists env lower projectId (Some q) false s
      = (Return (TextContent
                   (Js.toJSON
                      (Js.Obj (Js.setProp "tasklists" (Js.Arr kept) fields)))),
         s1).
Proof.
  intros Hlower Hreq Htasklists Hshape Hnamed.
  assert (Hfound :
    (if Js.truthy (Js.lookup "tasklists" fields)
     then Js.lookup "tasklists" fields else Js.Arr []) = Js.Arr items).
  { destruct Htasklists as [->|[-> ->]]; reflexivity. }
  assert (Hfilter :
    (if Js.truthyStr q then
       match Js.Arr items with
       | Js.Arr items0 =>
           kept <- filterM (nameMatches lower (lower q)) items0 ;;
           ret (Js.Arr kept)
       | _ => throw (TypeError "filter")
       end
     else ret (Js.Arr items)) s1
    = (Return (Js.Arr (filter (nameContainsb lower q) items)), s1)).
  { unfold Js.truthyStr. destruct (String.eqb_spec q "") as [->|Hq]; simpl.
    - rewrite (filter_named lower items); [reflexivity| |auto].
      apply Hlower. reflexivity.
    - unfold bind.
      rewrite (filterM_shapes lower Hlower q Hq items s1 Hshape). reflexivity. }
  exists (filter (nameContainsb lower q) items). eexists.
  split; [|split; [reflexivity|split; [reflexivity|split; [|split]]]].
  - unfold listTasklists. unfold bind at 1 2 3. unfold get.
    rewrite Hreq. unfold getProp, ret at 1. rewrite Hfound.
    unfold bind at 1. rewrite Hfilter. unfold bind, ret.
    rewrite (mapM_minimal _ s1 (forallb_filter _ _ _ Hshape)).
    rewrite toJSON_tasklists, map_map.
    do 7 f_equal. apply map_ext_in. intros t Ht.
    apply filter_In in Ht as [Hin Hmatch].
    change (Js.isUndefined (Js.Obj [("id", prop "id" t); ("name", prop "name" t)]))
      with false. cbv iota.
    rewrite (toJSON_minimal lower q t); [reflexivity| |exact Hmatch].
    rewrite forallb_forall in Hshape. apply Hshape, Hin.
  - intros t. rewrite filter_In, nameContainsb_spec. reflexivity.
  - apply Forall_map, Forall_forall. intros t _.
    eexists. split; reflexivity.
  - unfold listTasklists. unfold bind at 1 2 3. unfold get.
    rewrite Hreq. unfold getProp, ret at 1. rewrite Hfound.
    unfold bind at 1. rewrite Hfilter. reflexivity.
Qed.

Lemma asciiLower_empty x : asciiLower x = "" <-> x = "".
Proof. destruct x; simpl; split; intros H; try reflexivity; discriminate. Qed.

(** Three tasklists, filtered by "backlog". *)
Lemma listTasklists_filters_by_name_witness :
  fst (listTasklists Scenario.servingTasklists asciiLower "42" (Some "backlog") true
         Scenario.fresh)
    = Return
        (TextContent
           (Js.Obj
              [("tasklists",
                Js.Arr [Js.Obj [("id", Js.Num 1); ("name", Js.Str "Sprint Backlog")];
                        Js.Obj [("id", Js.Num 3); ("name", Js.Str "BACKLOG ideas")]])])).
Proof.
  destruct (listTasklists_filters_by_name
              Scenario.servingTasklists asciiLower "42" "backlog" Scenario.fresh
              [("tasklists",
                Js.Arr [Scenario.tasklist 1 "Sprint Backlog"; Scenario.tasklist 2 "Done";
                        Scenario.tasklist 3 "BACKLOG ideas"]);
               ("page_info", Js.Obj [("page", Js.Num 1)])]
              [Scenario.tasklist 1 "Sprint Backlog"; Scenario.tasklist 2 "Done";
               Scenario.tasklist 3 "BACKLOG ideas"]
              (snd (makeRequest Scenario.servingTasklists
                      (tasklistsEndpoint Scenario.fresh "42") "GET" Js.Undefined false
                      Scenario.fresh)))
    as (kept & returned & Hrun & Hreturned & Hkept & _).
  - exact asciiLower_empty.
  - vm_compute. reflexivity.
  - left. reflexivity.
  - reflexivity.
  - discriminate.
  - rewrite Hrun, Hreturned, Hkept. reflexivity.
Defined.


(** ** More on the token refresher and the dispatcher *)

Lemma withAccessToken_same c : c = withAccessToken (accessToken c) c.
Proof. destruct c; reflexivity. Qed.

Lemma Effects_none s : Effects s s [].
Proof.
  repeat split; [rewrite app_nil_r; reflexivity|apply withAccessToken_same].
Qed.

Lemma Effects_logged l s s' d : Effects s s' d -> Effects s (logged l s') d.
Proof. intros H. exact H. Qed.

Lemma Effects_from_logged l s s' d : Effects (logged l s) s' d -> Effects s s' d.
Proof. intros H. exact H. Qed.

Lemma Effects_trans s1 s2 s3 d1 d2 :
  Effects s1 s2 d1 -> Effects s2 s3 d2 -> Effects s1 s3 (d1 ++ d2).
Proof.
  intros (H1 & C1 & B1 & K1) (H2 & C2 & B2 & K2). repeat split.
  - rewrite H2, H1, app_assoc. reflexivity.
  - rewrite C2, C1. reflexivity.
  - congruence.
  - rewrite tokenRequests_app in H. apply app_eq_nil in H as [E1 E2].
    destruct (K1 E1) as [A1 _], (K2 E2) as [A2 _]. congruence.
  - rewrite tokenRequests_app in H. apply app_eq_nil in H as [E1 E2].
    destruct (K1 E1) as [_ A1], (K2 E2) as [_ A2]. congruence.
Qed.

Lemma Effects_clock t s : Effects s (record (EvClock t) s) [EvClock t].
Proof. repeat split. apply (withAccessToken_same (config s)). Qed.

Lemma Effects_resource req out s :
  Effects s (record (EvResource req out) s) [EvResource req out].
Proof. repeat split. apply (withAccessToken_same (config s)). Qed.

Lemma Effects_since s s' d : Effects s s' d -> since s s' = d.
Proof. intros (H & _). apply since_app, H. Qed.

Lemma Effects_sameSetup s s' d : Effects s s' d -> sameSetup s s'.
Proof. intros (_ & C & B & _). split; assumption. Qed.

Lemma resourceAnswers_app h1 h2 :
  resourceAnswers (h1 ++ h2) = resourceAnswers h1 ++ resourceAnswers h2.
Proof.
  induction h1 as [|e h1 IH]; simpl; auto.
  destruct e; simpl; rewrite IH; reflexivity.
Qed.

Lemma tokenAnswers_app h1 h2 :
  tokenAnswers (h1 ++ h2) = tokenAnswers h1 ++ tokenAnswers h2.
Proof.
  induction h1 as [|e h1 IH]; simpl; auto.
  destruct e; simpl; rewrite IH; reflexivity.
Qed.

Lemma resourceAnswers_none d : resourceRequests d = [] -> resourceAnswers d = [].
Proof.
  induction d as [|e d IH]; [reflexivity|].
  destruct e; simpl; try discriminate; auto.
Qed.

Lemma refreshAccessToken_effects env s :
  exists d,
    Effects s (snd (refreshAccessToken env s)) d /\
    resourceRequests d = [] /\
    (length (tokenRequests d) <= 1)%nat.
Proof.
  rewrite refreshAccessToken_eq.
  destruct (canRefresh (config s)); simpl.
  - destruct (refreshResult _); simpl.
    + eexists [_].
      split; [repeat split; try discriminate;
              apply (withAccessToken_same (config s))
             |split; [reflexivity|simpl; lia]].
    + eexists [_; _]. split.
      * unfold Effects, refreshed; simpl.
        split; [rewrite <- app_assoc; reflexivity|].
        split; [reflexivity|]. split; [reflexivity|]. intros H; discriminate.
      * split; [reflexivity|simpl; lia].
  - exists []. split; [apply Effects_logged, Effects_none|]. split; simpl; auto.
Qed.

Lemma ensureFresh_effects env s :
  exists d,
    Effects s (snd (ensureFresh env s)) d /\
    resourceRequests d = [] /\
    (length (tokenRequests d) <= 1)%nat.
Proof.
  rewrite ensureFresh_eq. simpl.
  destruct (clock env (history s) >=? tokenExpiresAt s); simpl.
  - destruct (refreshAccessToken_effects env (record (EvClock (clock env (history s))) s))
      as (d & Hd & Hr & Ht).
    exists (EvClock (clock env (history s)) :: d). split; [|split; assumption].
    apply (Effects_trans _ _ _ [_] d (Effects_clock _ s) Hd).
  - eexists [_]. split; [apply Effects_clock|]. split; simpl; auto.
Qed.

Lemma dispatched_requestFor s s1 endpoint verb b :
  baseUrl s1 = baseUrl s ->
  Js.truthyStr (accessToken (config s1)) = true ->
  dispatched s endpoint verb b (requestFor s1 endpoint verb b).
Proof.
  intros Hb Htok. unfold dispatched. rewrite <- Hb.
  repeat split. apply bearer_requestFor, Htok.
Qed.

Lemma dispatched_same s s' endpoint verb b req :
  baseUrl s' = baseUrl s ->
  dispatched s' endpoint verb b req -> dispatched s endpoint verb b req.
Proof. unfold dispatched. intros ->. auto. Qed.

(** What [attempt] does. *)
Lemma attempt_effects env endpoint verb b s :
  exists d,
    Effects s (snd (attempt env endpoint verb b s)) d /\
    (length (resourceRequests d) <= 1)%nat /\
    (length (tokenRequests d) <= 1)%nat /\
    Forall (dispatched s endpoint verb b) (resourceRequests d) /\
    (forall response,
        fst (attempt env endpoint verb b s) = Return response ->
        exists before, resourceAnswers d = before ++ [Resolved response]).
Proof.
  rewrite attempt_eq.
  destruct (ensureFresh_effects env s) as (d & Hd & Hr & Ht).
  destruct (ensureFresh env s) as [[[]|e] s1]; simpl in *.
  - destruct (Js.truthyStr (accessToken (config s1))) eqn:Htok; simpl.
    + set (req := requestFor s1 endpoint verb b).
      exists (d ++ [EvResource req (resourceEndpoint env (history s1) req)]).
      unfold fetchResource. fold req.
      assert (Hsnd : snd (match resourceEndpoint env (history s1) req with
                          | Rejected reason =>
                              (Throw (FetchFailed reason),
                               record (EvResource req (resourceEndpoint env (history s1) req)) s1)
                          | Resolved r =>
                              (Return r,
                               record (EvResource req (resourceEndpoint env (history s1) req)) s1)
                          end)
                    = record (EvResource req (resourceEndpoint env (history s1) req)) s1)
        by (destruct (resourceEndpoint env (history s1) req); reflexivity).
      simpl. rewrite Hsnd.
      split; [apply (Effects_trans _ _ _ _ _ Hd), Effects_resource|].
      rewrite resourceRequests_app, tokenRequests_app, resourceAnswers_app, Hr,
        (resourceAnswers_none _ Hr).
      simpl. rewrite app_nil_r.
      split; [lia|]. split; [lia|]. split.
      * constructor; [|constructor].
        apply dispatched_requestFor; [|exact Htok].
        destruct Hd as (_ & _ & Hb & _). exact Hb.
      * intros response Hout.
        destruct (resourceEndpoint env (history s1) req) as [reason|r];
          [discriminate|].
        injection Hout as ->. exists []. reflexivity.
    + exists d. rewrite Hr. simpl.
      split; [exact Hd|]. split; [lia|]. split; [exact Ht|].
      split; [constructor|]. intros response H; discriminate.
  - exists d. rewrite Hr. simpl.
    split; [exact Hd|]. split; [lia|]. split; [exact Ht|].
    split; [constructor|]. intros response H; discriminate.
Qed.

Lemma Forall_dispatched_same s s' endpoint verb b reqs :
  baseUrl s' = baseUrl s ->
  Forall (dispatched s' endpoint verb b) reqs ->
  Forall (dispatched s endpoint verb b) reqs.
Proof.
  intros Hb H. eapply Forall_impl; [|exact H].
  intros req Hreq. exact (dispatched_same s s' _ _ _ _ Hb Hreq).
Qed.

(** What one level of [makeRequest] does, given what the level below does. *)
Lemma makeRequestWith_dispatch (env : Env)
    (self : string -> string -> Js.Val -> bool -> M Js.Val)
    (endpoint verb : string) (b : Js.Val) (isRetry : bool) (s : State)
    (nres ntok : nat) :
  (forall s2 : State,
      Dispatch nres ntok s2 endpoint verb b
        (fst (self endpoint verb b true s2)) (snd (self endpoint verb b true s2))) ->
  Dispatch (1 + if isRetry then 0 else nres)
           (1 + if isRetry then 0 else 1 + ntok) s endpoint verb b
    (fst (makeRequestWith env self endpoint verb b isRetry s))
    (snd (makeRequestWith env self endpoint verb b isRetry s)).
Proof.
  intros Hself. rewrite makeRequestWith_eq.
  destruct (attempt_effects env endpoint verb b s)
    as (d1 & Hd1 & Hn1 & Ht1 & Hq1 & Hlast).
  assert (Hthrow : forall e s',
             Effects s s' d1 ->
             Dispatch (1 + if isRetry then 0 else nres)
                      (1 + if isRetry then 0 else 1 + ntok) s endpoint verb b
                      (Throw e) s').
  { intros e s' H. exists d1. split; [exact H|]. split; [lia|]. split; [lia|].
    split; [exact Hq1|]. intros v Hv; discriminate. }
  destruct (attempt env endpoint verb b s) as [[response|e] s1]; simpl in *;
    [|apply Hthrow, Hd1].
  destruct (Hlast response eq_refl) as (before & Hbefore).
  rewrite respond_eq.
  destruct (ok response) eqn:Hok.
  { destruct (parsed response) as [v|] eqn:Hparsed; simpl; [|apply Hthrow, Hd1].
    exists d1. split; [exact Hd1|]. split; [lia|]. split; [lia|].
    split; [exact Hq1|]. intros v' Hv. injection Hv as <-.
    exists before, response. auto. }
  destruct isRetry; simpl negb; rewrite ?andb_false_r, ?andb_true_r; simpl;
    [apply Hthrow, Hd1|].
  destruct ((status response =? 401) && canRefresh (config s1)); simpl;
    [|apply Hthrow, Hd1].
  destruct (refreshAccessToken_effects env (logged LogReceived401 s1))
    as (d2 & Hd2 & Hr2 & Ht2).
  apply Effects_from_logged in Hd2.
  pose proof (Effects_trans _ _ _ _ _ Hd1 Hd2) as Hd12.
  destruct (refreshAccessToken env (logged LogReceived401 s1)) as [[[]|e] s2];
    simpl in *.
  - destruct (Hself s2) as (d3 & Hd3 & Hn3 & Ht3 & Hq3 & Hlast3).
    pose proof (Effects_trans _ _ _ _ _ Hd12 Hd3) as Hd123.
    assert (Hb2 : baseUrl s2 = baseUrl s) by apply Hd12.
    assert (Hcount :
      (length (resourceRequests ((d1 ++ d2) ++ d3)) <= 1 + nres)%nat /\
      (length (tokenRequests ((d1 ++ d2) ++ d3)) <= 1 + (1 + ntok))%nat /\
      Forall (dispatched s endpoint verb b) (resourceRequests ((d1 ++ d2) ++ d3))).
    { rewrite !resourceRequests_app, !tokenRequests_app, Hr2, app_nil_r, !length_app.
      split; [lia|]. split; [lia|].
      apply Forall_app. split; [exact Hq1|].
      apply (Forall_dispatched_same _ _ _ _ _ _ Hb2 Hq3). }
    destruct Hcount as (Hc1 & Hc2 & Hc3).
    destruct (self endpoint verb b true s2) as [[v|e] s3]; simpl in *.
    + exists ((d1 ++ d2) ++ d3). split; [exact Hd123|].
      split; [exact Hc1|]. split; [exact Hc2|]. split; [exact Hc3|].
      intros v' Hv. injection Hv as <-.
      destruct (Hlast3 v eq_refl) as (before3 & response3 & Hb3 & Hok3 & Hp3).
      exists (resourceAnswers (d1 ++ d2) ++ before3), response3.
      rewrite resourceAnswers_app, Hb3, app_assoc. auto.
    + exists ((d1 ++ d2) ++ d3). split; [apply Effects_logged, Hd123|].
      split; [exact Hc1|]. split; [exact Hc2|]. split; [exact Hc3|].
      intros v' Hv; discriminate.
  - exists (d1 ++ d2). split; [apply Effects_logged, Hd12|].
    rewrite resourceRequests_app, tokenRequests_app, Hr2, app_nil_r, length_app.
    split; [lia|]. split; [lia|]. split; [exact Hq1|].
    intros v' Hv; discriminate.
Qed.

(** Every run of [makeRequest], in one statement. *)
Lemma makeRequest_dispatch (env : Env) (endpoint verb : string) (b : Js.Val)
    (isRetry : bool) (s : State) :
  Dispatch (if isRetry then 1 else 2) (if isRetry then 1 else 3) s endpoint verb b
    (fst (makeRequest env endpoint verb b isRetry s))
    (snd (makeRequest env endpoint verb b isRetry s)).
Proof.
  assert (Hretry : forall s2,
             Dispatch 1 1 s2 endpoint verb b
               (fst (makeRequestWith env
                       (fun _ _ _ _ => throw (TypeError "unreachable"))
                       endpoint verb b true s2))
               (snd (makeRequestWith env
                       (fun _ _ _ _ => throw (TypeError "unreachable"))
                       endpoint verb b true s2))).
  { intros s2.
    apply (makeRequestWith_dispatch env _ endpoint verb b true s2 0 0).
    intros s3. exists []. split; [apply Effects_none|].
    simpl. repeat split; auto. intros v Hv; discriminate. }
  unfold makeRequest.
  pose proof (makeRequestWith_dispatch env _ endpoint verb b isRetry s 1 1 Hretry)
    as H.
  destruct isRetry; exact H.
Qed.


(** X1. A refresh that raises has posted once to the token endpoint, raises
    an [McpError] with code [InternalError] around the cause, and leaves the
    stored token and its expiry as they were. *)
Theorem refresh_failure_keeps_store env s e s' :
  refreshAccessToken env s = (Throw e, s') ->
  config s' = config s /\
  tokenExpiresAt s' = tokenExpiresAt s /\
  tokenRequests (since s s') = [tokenRequestFor (config s)] /\
  resourceRequests (since s s') = [] /\
  exists cause,
    e = McpError InternalError (FailedToRefresh cause) /\
    isMcpError cause = false.
Proof.
  rewrite refreshAccessToken_eq.
  destruct (canRefresh (config s)); [|discriminate]. simpl.
  destruct (tokenEndpoint env (history s) (tokenRequestFor (config s)))
    as [reason|r] eqn:Hout; simpl.
  - intros H. injection H as <- <-. unfold since. simpl.
    rewrite skipn_length_app. repeat split. eexists. split; reflexivity.
  - destruct (ok r); [destruct (parsed r)|]; intros H; try discriminate;
      injection H as <- <-; unfold since; simpl;
      rewrite skipn_length_app; repeat split; eexists; split; reflexivity.
Qed.

(** A denied refresh: the token "A" and its expiry stay. *)
Lemma refresh_failure_keeps_store_witness :
  accessToken
    (config (snd (refreshAccessToken Scenario.refreshDenied Scenario.fresh))) = "A" /\
  tokenExpiresAt (snd (refreshAccessToken Scenario.refreshDenied Scenario.fresh))
    = 3600000.
Proof.
  destruct (refresh_failure_keeps_store
              Scenario.refreshDenied Scenario.fresh
              (McpError InternalError
                 (FailedToRefresh (RefreshRejected 400 "invalid_client")))
              (snd (refreshAccessToken Scenario.refreshDenied Scenario.fresh))
              eq_refl)
    as (Hc & Ht & _).
  rewrite Hc, Ht. split; reflexivity.
Defined.

(** X2. A refresh posts to the token endpoint once when refresh token,
    client id and client secret are all configured, and not at all
    otherwise: it then returns without an error, having read no clock and
    changed no token.  It never contacts a resource endpoint. *)
Theorem refresh_posts_once_or_never env s :
  tokenRequests (since s (snd (refreshAccessToken env s)))
    = (if canRefresh (config s) then [tokenRequestFor (config s)] else []) /\
  resourceRequests (since s (snd (refreshAccessToken env s))) = [] /\
  (canRefresh (config s) = false ->
   fst (refreshAccessToken env s) = Return tt /\
   since s (snd (refreshAccessToken env s)) = [] /\
   config (snd (refreshAccessToken env s)) = config s /\
   tokenExpiresAt (snd (refreshAccessToken env s)) = tokenExpiresAt s).
Proof.
  rewrite refreshAccessToken_eq.
  destruct (canRefresh (config s)); simpl.
  - destruct (refreshResult _); unfold since, refreshed; simpl;
      rewrite <- ?app_assoc, skipn_length_app; simpl;
      (split; [reflexivity|split; [reflexivity|discriminate]]).
  - assert (H : since s (logged LogCannotRefresh s) = [])
      by (apply since_app; simpl; rewrite app_nil_r; reflexivity).
    rewrite H. repeat split.
Qed.

(** An access token only: the refresh does nothing but log. *)
Lemma refresh_posts_once_or_never_witness :
  fst (refreshAccessToken Scenario.refreshDenied Scenario.staleStatic) = Return tt /\
  since Scenario.staleStatic
    (snd (refreshAccessToken Scenario.refreshDenied Scenario.staleStatic)) = [].
Proof.
  destruct (proj2 (proj2 (refresh_posts_once_or_never
                            Scenario.refreshDenied Scenario.staleStatic)) eq_refl)
    as (H1 & H2 & _).
  split; assumption.
Defined.

(** ** More on the dispatcher *)

(** X3. [makeRequest] returns a value only as the parsed JSON body of the
    last response it received, and that response had a 2xx status. *)
Theorem makeRequest_returns_a_2xx_body env endpoint verb b isRetry s v s' :
  makeRequest env endpoint verb b isRetry s = (Return v, s') ->
  exists before response,
    resourceAnswers (since s s') = before ++ [Resolved response] /\
    ok response = true /\
    parsed response = Some v.
Proof.
  intros H.
  destruct (makeRequest_dispatch env endpoint verb b isRetry s)
    as (d & Hd & _ & _ & _ & Hlast).
  rewrite H in Hd, Hlast. simpl in Hd, Hlast.
  rewrite (Effects_since _ _ _ Hd). apply Hlast. reflexivity.
Qed.

(** After a 401 and a granted refresh, what is returned is the body of the
    retry's response. *)
Lemma makeRequest_returns_a_2xx_body_witness :
  exists before response,
    resourceAnswers
      (since Scenario.fresh
         (snd (makeRequest Scenario.retryServed "/portals" "GET" Js.Undefined false
                 Scenario.fresh)))
      = before ++ [Resolved response] /\
    ok response = true /\
    parsed response = Some Scenario.portals.
Proof.
  apply (makeRequest_returns_a_2xx_body
           Scenario.retryServed "/portals" "GET" Js.Undefined false Scenario.fresh).
  vm_compute. reflexivity.
Defined.

(** X4. A response that is not a 2xx, and that is not a 401 or comes on a
    retry, ends the dispatch at once with its own status and body: nothing
    is sent after it and the state is the one the request left. *)
Theorem failure_status_is_reported_at_once
    env endpoint verb b isRetry s response s1 :
  attempt env endpoint verb b s = (Return response, s1) ->
  ok response = false ->
  status response <> 401 \/ isRetry = true ->
  makeRequest env endpoint verb b isRetry s
    = (Throw (McpError InternalError
                (ZohoApiError (status response) (body response))), s1).
Proof.
  intros Hatt Hok Hwhy.
  rewrite makeRequest_unfold, makeRequestWith_eq, Hatt, respond_eq, Hok.
  replace ((status response =? 401) && negb isRetry) with false; [reflexivity|].
  destruct Hwhy as [Hne| ->]; [|rewrite andb_false_r; reflexivity].
  apply Z.eqb_neq in Hne. rewrite Hne. reflexivity.
Qed.

(** A 404 with full refresh credentials: no refresh, no retry. *)
Lemma failure_status_is_reported_at_once_witness :
  makeRequest Cases.missing "/portals" "GET" Js.Undefined false Scenario.fresh
    = (Throw (McpError InternalError (ZohoApiError 404 "no such project")),
       snd (attempt Cases.missing "/portals" "GET" Js.Undefined Scenario.fresh)) /\
  tokenRequests
    (history (snd (attempt Cases.missing "/portals" "GET" Js.Undefined
                     Scenario.fresh))) = [].
Proof.
  split; [|reflexivity].
  apply (failure_status_is_reported_at_once
           Cases.missing "/portals" "GET" Js.Undefined false Scenario.fresh
           (mkResponse 404 "no such project" None (Some "application/json"))).
  - vm_compute. reflexivity.
  - reflexivity.
  - left. discriminate.
Defined.

(** X5. Every request of one dispatch, the retry included, goes to the
    base URL followed by the endpoint, with the method given, with the
    JSON content type, with a non-empty bearer token, and with the body
    exactly when the body is truthy and the method is POST, PATCH or PUT. *)
Theorem dispatch_requests_are_alike env endpoint verb b isRetry s :
  Forall (dispatched s endpoint verb b)
    (resourceRequests (since s (snd (makeRequest env endpoint verb b isRetry s)))).
Proof.
  destruct (makeRequest_dispatch env endpoint verb b isRetry s)
    as (d & Hd & _ & _ & Hq & _).
  rewrite (Effects_since _ _ _ Hd). exact Hq.
Qed.

(** X6. A dispatch assigns nothing but the access token and its expiry,
    and leaves these too as they were when it has made no call to the token
    endpoint. *)
Theorem dispatch_keeps_the_store env endpoint verb b isRetry s :
  sameSetup s (snd (makeRequest env endpoint verb b isRetry s)) /\
  (tokenRequests (since s (snd (makeRequest env endpoint verb b isRetry s))) = [] ->
   config (snd (makeRequest env endpoint verb b isRetry s)) = config s /\
   tokenExpiresAt (snd (makeRequest env endpoint verb b isRetry s))
     = tokenExpiresAt s).
Proof.
  destruct (makeRequest_dispatch env endpoint verb b isRetry s)
    as (d & Hd & _).
  rewrite (Effects_since _ _ _ Hd).
  split; [apply (Effects_sameSetup _ _ _ Hd)|apply Hd].
Qed.

(** A served request with a fresh token: the store is as before. *)
Lemma dispatch_keeps_the_store_witness :
  config (snd (makeRequest Cases.served "/portals" "GET" Js.Undefined false
                 Scenario.fresh)) = config Scenario.fresh /\
  tokenExpiresAt (snd (makeRequest Cases.served "/portals" "GET" Js.Undefined false
                         Scenario.fresh)) = tokenExpiresAt Scenario.fresh.
Proof.
  apply (proj2 (dispatch_keeps_the_store
                  Cases.served "/portals" "GET" Js.Undefined false Scenario.fresh)).
  reflexivity.
Defined.

(** X7. One dispatch posts at most three times to the token endpoint (the
    proactive refresh, the refresh after a 401, the proactive refresh of the
    retry), and at most once when it is itself the retry.  Three are
    reached with tokens that live no longer than the margin. *)
Theorem dispatch_refreshes_at_most_thrice :
  (forall env endpoint verb b (isRetry : bool) s,
      (length (tokenRequests
                 (since s (snd (makeRequest env endpoint verb b isRetry s))))
       <= if isRetry then 1 else 3)%nat)
  /\
  length (tokenRequests
            (since Scenario.stale
               (snd (makeRequest Cases.threeRefreshes "/portals" "GET"
                       Js.Undefined false Scenario.stale)))) = 3%nat.
Proof.
  split; [|reflexivity].
  intros env endpoint verb b isRetry s.
  destruct (makeRequest_dispatch env endpoint verb b isRetry s)
    as (d & Hd & _ & Ht & _).
  rewrite (Effects_since _ _ _ Hd). exact Ht.
Qed.

(** X8. With a token that is not stale and not empty, and a resource that
    answers 2xx with a JSON body, a dispatch is one clock reading and one
    request: it returns the parsed body and changes nothing else. *)
Theorem fresh_token_single_request env endpoint verb b isRetry s response v :
  clock env (history s) < tokenExpiresAt s ->
  accessToken (config s) <> "" ->
  resourceEndpoint env (history s ++ [EvClock (clock env (history s))])
    (requestFor s endpoint verb b) = Resolved response ->
  ok response = true ->
  parsed response = Some v ->
  makeRequest env endpoint verb b isRetry s
    = (Return v,
       record (EvResource (requestFor s endpoint verb b) (Resolved response))
         (record (EvClock (clock env (history s))) s)).
Proof.
  intros Hfresh Htok Hout Hok Hparsed.
  rewrite makeRequest_unfold, makeRequestWith_eq, attempt_eq, ensureFresh_eq.
  simpl. rewrite (geb_false _ _ Hfresh). simpl.
  rewrite (nonempty_truthyStr _ Htok).
  unfold fetchResource. simpl.
  replace (requestFor (record (EvClock (clock env (history s))) s) endpoint verb b)
    with (requestFor s endpoint verb b) by reflexivity.
  rewrite Hout, respond_eq, Hok, Hparsed. reflexivity.
Qed.

Lemma fresh_token_single_request_witness :
  makeRequest Cases.served "/portals" "GET" Js.Undefined false Scenario.fresh
    = (Return Scenario.portals,
       record (EvResource (requestFor Scenario.fresh "/portals" "GET" Js.Undefined)
                 (Scenario.found Scenario.portals))
         (record (EvClock 1000) Scenario.fresh)).
Proof.
  apply (fresh_token_single_request
           Cases.served "/portals" "GET" Js.Undefined false Scenario.fresh
           (mkResponse 200 "" (Some Scenario.portals) (Some "application/json"))
           Scenario.portals); try reflexivity.
  discriminate.
Defined.


(** ** More on the credential store at process start *)

Lemma envOr_nonempty processEnv name fallback :
  fallback <> "" -> envOr processEnv name fallback <> "".
Proof.
  intros H. unfold envOr. destruct (processEnv name) as [v|]; [|exact H].
  destruct (Js.truthyStr v) eqn:Hv; [|exact H].
  apply truthyStr_nonempty, Hv.
Qed.

Lemma attempt_extends_ensureFresh env endpoint verb b s :
  exists rest,
    history (snd (attempt env endpoint verb b s))
      = history (snd (ensureFresh env s)) ++ rest.
Proof.
  rewrite attempt_eq.
  destruct (ensureFresh env s) as [[[]|e] s1]; simpl;
    [|exists []; rewrite app_nil_r; reflexivity].
  destruct (Js.truthyStr (accessToken (config s1)));
    [|exists []; rewrite app_nil_r; reflexivity].
  unfold fetchResource.
  destruct (resourceEndpoint env (history s1) (requestFor s1 endpoint verb b));
    eexists [_]; reflexivity.
Qed.

Lemma makeRequest_extends_attempt env endpoint verb b isRetry s :
  exists rest,
    history (snd (makeRequest env endpoint verb b isRetry s))
      = history (snd (attempt env endpoint verb b s)) ++ rest.
Proof.
  rewrite makeRequest_unfold, makeRequestWith_eq.
  destruct (attempt env endpoint verb b s) as [[response|e] s1]; simpl;
    [|exists []; rewrite app_nil_r; reflexivity].
  rewrite respond_eq.
  destruct (ok response);
    [destruct (parsed response); exists []; rewrite app_nil_r; reflexivity|].
  destruct ((status response =? 401) && negb isRetry && canRefresh (config s1));
    [|exists []; rewrite app_nil_r; reflexivity].
  destruct (refreshAccessToken_effects env (logged LogReceived401 s1))
    as (d2 & (Hd2 & _) & _).
  destruct (refreshAccessToken env (logged LogReceived401 s1)) as [[[]|e] s2];
    simpl in *; [|exists d2; exact Hd2].
  destruct (makeRequest_dispatch env endpoint verb b true s2)
    as (d3 & (Hd3 & _) & _).
  exists (d2 ++ d3).
  destruct (makeRequest env endpoint verb b true s2) as [[v|e] s3]; simpl in *;
    rewrite Hd3, Hd2, app_assoc; reflexivity.
Qed.

(** X9. Started without an access token, the server stores the expiry 0
    and reads no clock.  On a clock that is not before 1970, its first
    dispatch fails with the configuration error and without any network
    traffic when the refresh credentials are incomplete, and begins with a
    post to the token endpoint when they are complete. *)
Theorem start_without_token env processEnv endpoint verb b :
  envOr processEnv "ZOHO_ACCESS_TOKEN" "" = "" ->
  0 <= clock env [] ->
  tokenExpiresAt (construct env processEnv) = 0 /\
  history (construct env processEnv) = [] /\
  (canRefresh (config (construct env processEnv)) = false ->
   makeRequest env endpoint verb b false (construct env processEnv)
     = (Throw (McpError InvalidRequest AccessTokenNotConfigured),
        logged LogCannotRefresh
          (record (EvClock (clock env [])) (construct env processEnv)))) /\
  (canRefresh (config (construct env processEnv)) = true ->
   exists rest,
     history (snd (makeRequest env endpoint verb b false
                     (construct env processEnv)))
     = EvClock (clock env [])
       :: EvToken (tokenRequestFor (config (construct env processEnv)))
            (tokenEndpoint env [EvClock (clock env [])]
               (tokenRequestFor (config (construct env processEnv))))
       :: rest).
Proof.
  intros Hempty Hclock.
  set (s0 := construct env processEnv).
  assert (Hs0 : tokenExpiresAt s0 = 0 /\ history s0 = [] /\
                accessToken (config s0) = "").
  { unfold s0, construct. simpl. rewrite Hempty. simpl. auto. }
  destruct Hs0 as (Hexp & Hhist & Htok).
  split; [exact Hexp|]. split; [exact Hhist|].
  assert (Hstale : (clock env (history s0) >=? tokenExpiresAt s0) = true).
  { rewrite Hexp, Hhist. apply geb_true. lia. }
  split; intros Hcan.
  - rewrite makeRequest_unfold, makeRequestWith_eq, attempt_eq, ensureFresh_eq.
    simpl. rewrite Hstale, refreshAccessToken_eq. simpl.
    rewrite Hcan. simpl. rewrite Htok, Hhist. reflexivity.
  - destruct (makeRequest_extends_attempt env endpoint verb b false s0)
      as (rest2 & H2).
    destruct (attempt_extends_ensureFresh env endpoint verb b s0)
      as (rest1 & H1).
    rewrite H2, H1, ensureFresh_eq. simpl.
    rewrite Hstale, refreshAccessToken_eq. simpl. rewrite Hcan, Hhist. simpl.
    destruct (refreshResult _); simpl; rewrite ?Hhist; simpl; eexists;
      reflexivity.
Qed.

(** No variable set: the configuration error, nothing sent.  Refresh
    credentials only: the token endpoint first. *)
Lemma start_without_token_witness :
  fst (makeRequest Cases.served "/portals" "GET" Js.Undefined false
         (construct Cases.served Cases.noVariables))
    = Throw (McpError InvalidRequest AccessTokenNotConfigured) /\
  exists rest,
    history (snd (makeRequest Scenario.refreshThenServed "/portals" "GET"
                    Js.Undefined false
                    (construct Scenario.refreshThenServed Cases.credentialsOnly)))
    = EvClock 1000
      :: EvToken (tokenRequestFor
                    (config (construct Scenario.refreshThenServed
                               Cases.credentialsOnly)))
           (Scenario.granted "B" 3600)
      :: rest.
Proof.
  split.
  - destruct (start_without_token Cases.served Cases.noVariables "/portals" "GET"
                Js.Undefined eq_refl) as (_ & _ & H & _).
    + vm_compute. discriminate.
    + rewrite (H eq_refl). reflexivity.
  - destruct (start_without_token Scenario.refreshThenServed Cases.credentialsOnly
                "/portals" "GET" Js.Undefined eq_refl) as (_ & _ & _ & H).
    + vm_compute. discriminate.
    + exact (H eq_refl).
Defined.

(** X10. Whatever the environment variables, the API domain and the
    accounts domain of the server are not empty, an empty variable counting
    as unset, and the base URL is the API domain followed by [/api/v3]; the
    constructor has contacted nobody. *)
Theorem construct_domains env processEnv :
  apiDomain (config (construct env processEnv)) <> "" /\
  accountsDomain (config (construct env processEnv)) <> "" /\
  baseUrl (construct env processEnv)
    = apiDomain (config (construct env processEnv)) +++ "/api/v3" /\
  (processEnv "ZOHO_API_DOMAIN" = None \/ processEnv "ZOHO_API_DOMAIN" = Some "" ->
   baseUrl (construct env processEnv) = "https://projectsapi.zoho.com/api/v3") /\
  tokenRequests (history (construct env processEnv)) = [] /\
  resourceRequests (history (construct env processEnv)) = [].
Proof.
  assert (Hapi : envOr processEnv "ZOHO_API_DOMAIN" "https://projectsapi.zoho.com" <> "")
    by (apply envOr_nonempty; discriminate).
  assert (Hacc : envOr processEnv "ZOHO_ACCOUNTS_DOMAIN" "https://accounts.zoho.com" <> "")
    by (apply envOr_nonempty; discriminate).
  unfold construct. simpl.
  destruct (Js.truthyStr (envOr processEnv "ZOHO_ACCESS_TOKEN" "")); simpl;
    rewrite (nonempty_truthyStr _ Hapi);
    (split; [exact Hapi|]); (split; [exact Hacc|]); (split; [reflexivity|]);
    (split; [|split; reflexivity]);
    intros [H|H]; unfold envOr; rewrite H; reflexivity.
Qed.

Lemma construct_domains_witness :
  baseUrl (construct Cases.served Cases.noVariables)
    = "https://projectsapi.zoho.com/api/v3".
Proof.
  apply (proj1 (proj2 (proj2 (proj2 (construct_domains Cases.served Cases.noVariables))))).
  left. reflexivity.
Defined.

(** ** More on the binary fetch helper *)

Lemma refreshAccessToken_raises_mcp env s e s' :
  refreshAccessToken env s = (Throw e, s') -> isMcpError e = true.
Proof.
  rewrite refreshAccessToken_eq.
  destruct (canRefresh (config s)); [|discriminate]. simpl.
  destruct (refreshResult _); intros H; [|discriminate].
  injection H as <- _. reflexivity.
Qed.

Lemma ensureFresh_raises_mcp env s e s' :
  ensureFresh env s = (Throw e, s') -> isMcpError e = true.
Proof.
  rewrite ensureFresh_eq. simpl.
  destruct (clock env (history s) >=? tokenExpiresAt s); [|discriminate].
  apply refreshAccessToken_raises_mcp.
Qed.

(** X11. Whatever the response, [processImageResponse] returns an image
    whose data is the base64 of the body and whose media type is one of
    image/png, image/jpeg, image/gif and image/webp: image/png when there
    is no content type, or none that names one of the four. *)
Theorem image_media_type response s :
  exists mime,
    processImageResponse response s
      = (Return (ImageContent (Js.base64 (body response)) mime), s) /\
    In mime ["image/png"; "image/jpeg"; "image/gif"; "image/webp"] /\
    (contentType response = None -> mime = "image/png") /\
    (forall c, contentType response = Some c ->
               Js.includes "jpeg" c = false -> Js.includes "jpg" c = false ->
               Js.includes "gif" c = false -> Js.includes "webp" c = false ->
               mime = "image/png").
Proof.
  unfold processImageResponse, ret.
  eexists. split; [reflexivity|].
  split; [|split].
  - set (c := match contentType response with
              | Some c => if Js.truthyStr c then c else "image/png"
              | None => "image/png"
              end).
    destruct (Js.includes "jpeg" c || Js.includes "jpg" c); simpl; auto.
    destruct (Js.includes "gif" c); simpl; auto.
    destruct (Js.includes "webp" c); simpl; auto.
    destruct (Js.includes "png" c); simpl; auto.
  - intros ->. reflexivity.
  - intros c -> Hjpeg Hjpg Hgif Hwebp.
    unfold Js.truthyStr. destruct (String.eqb_spec c "") as [->|_]; simpl;
      [reflexivity|].
    rewrite Hjpeg, Hjpg, Hgif, Hwebp. simpl.
    destruct (Js.includes "png" c); reflexivity.
Qed.

(** A body "Man" served as text/html: a PNG, "TWFu". *)
Lemma image_media_type_witness :
  processImageResponse (mkResponse 200 "Man" None (Some "text/html")) Scenario.fresh
    = (Return (ImageContent "TWFu" "image/png"), Scenario.fresh).
Proof.
  destruct (image_media_type (mkResponse 200 "Man" None (Some "text/html"))
              Scenario.fresh) as (mime & Hrun & _ & _ & Hpng).
  rewrite Hrun, (Hpng "text/html"); reflexivity.
Defined.

Lemma processImageResponse_returns response s :
  exists r, processImageResponse response s = (Return r, s).
Proof. eexists. reflexivity. Qed.

(** [downloadInlineImage] is the staleness check, the guard, and
    [fetchImage] on the rewritten URL. *)
Lemma downloadInlineImage_eq env imageUrl s :
  downloadInlineImage env imageUrl s =
  match ensureFresh env s with
  | (Return _, s1) =>
      if Js.truthyStr (accessToken (config s1))
      then fetchImage env (apiUrlOf imageUrl) s1
      else (Throw (McpError InvalidRequest ImageTokenNotConfigured), s1)
  | (Throw e, s1) => (Throw e, s1)
  end.
Proof.
  unfold downloadInlineImage, bind, get.
  destruct (ensureFresh env s) as [[[]|e] s1]; simpl; [|reflexivity].
  destruct (Js.truthyStr (accessToken (config s1))); reflexivity.
Qed.

(** What [fetchImage] does. *)
Lemma fetchImage_effects env target s :
  exists d,
    Effects s (snd (fetchImage env target s)) d /\
    (length (resourceRequests d) <= 2)%nat /\
    (length (tokenRequests d) <= 1)%nat /\
    Forall (downloadOf target) (resourceRequests d) /\
    (exists rest,
        resourceRequests d = imageRequest target (accessToken (config s)) :: rest) /\
    (forall e, fst (fetchImage env target s) = Throw e -> isMcpError e = true).
Proof.
  assert (Hshape : forall token, downloadOf target (imageRequest target token)).
  { intros token. repeat split. exists token. reflexivity. }
  unfold fetchImage, tryCatch, bind, get, fetchResource, throw, text, ret. simpl.
  set (req1 := imageRequest target (accessToken (config s))).
  set (out1 := resourceEndpoint env (history s) req1).
  set (s1 := record (EvResource req1 out1) s).
  assert (H1 : Effects s s1 [EvResource req1 out1]) by apply Effects_resource.
  assert (Hone :
    exists d,
      Effects s s1 d /\
      (length (resourceRequests d) <= 2)%nat /\
      (length (tokenRequests d) <= 1)%nat /\
      Forall (downloadOf target) (resourceRequests d) /\
      (exists rest, resourceRequests d = req1 :: rest)).
  { exists [EvResource req1 out1]. simpl.
    split; [exact H1|]. split; [lia|]. split; [lia|].
    split; [constructor; [apply Hshape|constructor]|]. exists []. reflexivity. }
  destruct out1 as [reason|r] eqn:Hout1; simpl.
  { destruct Hone as (d & A & B & C & D & E).
    exists d. do 5 (split; [assumption|]). intros e He. injection He as <-. reflexivity. }
  destruct (ok r); simpl.
  { destruct Hone as (d & A & B & C & D & E).
    exists d. do 5 (split; [assumption|]). intros e He. discriminate. }
  destruct ((status r =? 401) && Js.truthyStr (refreshToken (config s))); simpl.
  2:{ destruct Hone as (d & A & B & C & D & E).
      exists d. do 5 (split; [assumption|]). intros e He. injection He as <-. reflexivity. }
  destruct (refreshAccessToken_effects env s1) as (d2 & Hd2 & Hr2 & Ht2).
  pose proof (refreshAccessToken_raises_mcp env s1) as Hmcp.
  pose proof (Effects_trans _ _ _ _ _ H1 Hd2) as H12.
  destruct (refreshAccessToken env s1) as [[[]|e2] s2]; simpl in *.
  2:{ rewrite (Hmcp e2 s2 eq_refl). simpl.
      exists ([EvResource req1 (Resolved r)] ++ d2). split; [exact H12|].
      simpl. rewrite Hr2. simpl.
      split; [lia|]. split; [lia|].
      split; [constructor; [apply Hshape|constructor]|].
      split; [exists []; reflexivity|].
      intros e He. injection He as <-. apply (Hmcp e2 s2 eq_refl). }
  set (req2 := imageRequest target (accessToken (config s2))).
  set (out2 := resourceEndpoint env (history s2) req2).
  set (s3 := record (EvResource req2 out2) s2).
  pose proof (Effects_trans _ _ _ _ _ H12 (Effects_resource req2 out2 s2)) as H3.
  assert (Htwo :
    exists d,
      Effects s s3 d /\
      (length (resourceRequests d) <= 2)%nat /\
      (length (tokenRequests d) <= 1)%nat /\
      Forall (downloadOf target) (resourceRequests d) /\
      (exists rest, resourceRequests d = req1 :: rest)).
  { eexists. split; [exact H3|].
    simpl. rewrite !resourceRequests_app, !tokenRequests_app, Hr2. simpl.
    rewrite app_nil_r.
    split; [lia|]. split; [lia|].
    split; [repeat constructor; apply Hshape|]. eexists. reflexivity. }
  destruct out2 as [reason|r2] eqn:Hout2; simpl.
  { destruct Htwo as (d & A & B & C & D & E).
    exists d. do 5 (split; [assumption|]). intros e He. injection He as <-. reflexivity. }
  destruct (ok r2); simpl.
  { destruct Htwo as (d & A & B & C & D & E).
    exists d. do 5 (split; [assumption|]). intros e He. discriminate. }
  destruct Htwo as (d & A & B & C & D & E).
  exists d. do 5 (split; [assumption|]). intros e He. injection He as <-. reflexivity.
Qed.

(** What [downloadInlineImage] does. *)
Lemma downloadInlineImage_effects env imageUrl s :
  exists d,
    Effects s (snd (downloadInlineImage env imageUrl s)) d /\
    (length (resourceRequests d) <= 2)%nat /\
    (length (tokenRequests d) <= 2)%nat /\
    Forall (downloadOf (apiUrlOf imageUrl)) (resourceRequests d) /\
    (forall req rest, resourceRequests d = req :: rest -> bearer req) /\
    (forall e, fst (downloadInlineImage env imageUrl s) = Throw e ->
               isMcpError e = true).
Proof.
  rewrite downloadInlineImage_eq.
  destruct (ensureFresh_effects env s) as (d1 & Hd1 & Hr1 & Ht1).
  pose proof (ensureFresh_raises_mcp env s) as Hmcp.
  destruct (ensureFresh env s) as [[[]|e1] s1]; simpl in Hd1.
  2:{ exists d1. simpl. rewrite Hr1.
      split; [exact Hd1|]. split; [simpl; lia|]. split; [lia|].
      split; [constructor|]. split; [discriminate|].
      intros e He. injection He as <-. apply (Hmcp e1 s1 eq_refl). }
  destruct (Js.truthyStr (accessToken (config s1))) eqn:Htoken.
  2:{ exists d1. simpl. rewrite Hr1.
      split; [exact Hd1|]. split; [simpl; lia|]. split; [lia|].
      split; [constructor|]. split; [discriminate|].
      intros e He. injection He as <-. reflexivity. }
  destruct (fetchImage_effects env (apiUrlOf imageUrl) s1)
    as (d2 & Hd2 & Hr2 & Ht2 & Hshape & (rest2 & Hfirst) & Hraise).
  exists (d1 ++ d2).
  rewrite resourceRequests_app, tokenRequests_app, Hr1. simpl.
  rewrite length_app.
  split; [exact (Effects_trans _ _ _ _ _ Hd1 Hd2)|].
  split; [exact Hr2|]. split; [lia|]. split; [exact Hshape|].
  split; [|exact Hraise].
  intros req rest. rewrite Hfirst. intros H. injection H as <- _.
  exists (accessToken (config s1)).
  split; [apply truthyStr_nonempty, Htoken|reflexivity].
Qed.

(** X12. Whatever the world answers, [downloadInlineImage] sends at most
    two requests, each to the rewritten URL with no method, no body and an
    [Authorization] header only; the first of them bears a non-empty token;
    and the base URL and the credentials other than the access token are
    left as they were. *)
Theorem inline_image_requests env imageUrl s :
  let s' := snd (downloadInlineImage env imageUrl s) in
  let sent := resourceRequests (since s s') in
  (length sent <= 2)%nat /\
  Forall (downloadOf (apiUrlOf imageUrl)) sent /\
  match sent with req :: _ => bearer req | [] => True end /\
  sameSetup s s'.
Proof.
  destruct (downloadInlineImage_effects env imageUrl s)
    as (d & Hd & Hn & _ & Hshape & Hfirst & _).
  cbv zeta. rewrite (Effects_since _ _ _ Hd).
  split; [exact Hn|]. split; [exact Hshape|].
  split; [|exact (Effects_sameSetup _ _ _ Hd)].
  destruct (resourceRequests d) as [|req rest]; [exact I|].
  exact (Hfirst req rest eq_refl).
Qed.

(** X13. Every error that leaves [downloadInlineImage] is an [McpError]:
    those of the refresher pass unchanged, anything else is wrapped. *)
Theorem inline_image_raises_mcp_only env imageUrl s e s' :
  downloadInlineImage env imageUrl s = (Throw e, s') ->
  isMcpError e = true.
Proof.
  intros H.
  destruct (downloadInlineImage_effects env imageUrl s)
    as (_ & _ & _ & _ & _ & _ & Hraise).
  apply Hraise. rewrite H. reflexivity.
Qed.

(** The network is down: the rejection of [fetch] is wrapped. *)
Lemma inline_image_raises_mcp_only_witness :
  fst (downloadInlineImage (Scenario.world 1000 [] []) Scenario.inlineImage
                           Scenario.fresh)
    = Throw (McpError InternalError (ImageDownloadError (FetchFailed "offline"))) /\
  isMcpError (McpError InternalError (ImageDownloadError (FetchFailed "offline")))
    = true.
Proof.
  split; [vm_compute; reflexivity|].
  apply (inline_image_raises_mcp_only (Scenario.world 1000 [] [])
           Scenario.inlineImage Scenario.fresh _
           (snd (downloadInlineImage (Scenario.world 1000 [] [])
                   Scenario.inlineImage Scenario.fresh))).
  vm_compute. reflexivity.
Defined.

(** ** More on the rewriting of an inline image URL *)

Lemma prefix_drop p s :
  String.prefix p s = true -> s = p +++ Js.drop (String.length p) s.
Proof.
  revert s. induction p as [|c p IH]; intros s H.
  - reflexivity.
  - destruct s as [|c' s]; simpl in H; [discriminate|].
    destruct (Ascii.ascii_dec c c') as [->|]; [|discriminate].
    simpl. f_equal. apply IH, H.
Qed.

Lemma replace_unfold p r s :
  Js.replace p r s =
  if String.prefix p s then r +++ Js.drop (String.length p) s
  else match s with
       | EmptyString => EmptyString
       | String c rest => String c (Js.replace p r rest)
       end.
Proof. destruct s; reflexivity. Qed.

(** [replace] rewrites the first occurrence: no occurrence of the pattern
    starts inside [before]. *)
Lemma replace_first p r s :
  Js.includes p s = true ->
  exists before after,
    s = before +++ p +++ after /\
    Js.replace p r s = before +++ r +++ after /\
    forall a b, before = a +++ b -> b <> "" ->
                String.prefix p (b +++ p +++ after) = false.
Proof.
  induction s as [|c s IH]; rewrite includes_unfold, replace_unfold;
    destruct (String.prefix p _) eqn:Hp.
  - intros _. exists "", (Js.drop (String.length p) "").
    split; [apply (prefix_drop _ _ Hp)|]. split; [reflexivity|].
    intros [|] b; simpl; [intros <-; congruence|discriminate].
  - discriminate.
  - intros _. exists "", (Js.drop (String.length p) (String c s)).
    split; [apply (prefix_drop _ _ Hp)|]. split; [reflexivity|].
    intros [|] b; simpl; [intros <-; congruence|discriminate].
  - intros H. destruct (IH H) as (before & after & Hs & Hr & Hfirst).
    exists (String c before), after.
    split; [simpl; rewrite <- Hs; reflexivity|].
    split; [simpl; rewrite Hr; reflexivity|].
    intros [|c' a] b; simpl.
    + intros <- _. simpl. rewrite <- Hs. exact Hp.
    + intros Hab Hb. injection Hab as _ Hab. exact (Hfirst a b Hab Hb).
Qed.

(** X14. The URL that [downloadInlineImage] fetches is the given one, when
    it has no segment /viewInlineAttachment/; otherwise it is the given one
    with the first such segment, and only that one, turned into
    /viewInlineAttachmentForApi/. *)
Theorem api_url_rewrites_first_segment imageUrl :
  (Js.includes "/viewInlineAttachment/" imageUrl = false /\
   apiUrlOf imageUrl = imageUrl) \/
  (exists before after,
     imageUrl = before +++ "/viewInlineAttachment/" +++ after /\
     apiUrlOf imageUrl = before +++ "/viewInlineAttachmentForApi/" +++ after /\
     forall a b, before = a +++ b -> b <> "" ->
       String.prefix "/viewInlineAttachment/"
                     (b +++ "/viewInlineAttachment/" +++ after) = false).
Proof.
  unfold apiUrlOf.
  destruct (Js.includes "/viewInlineAttachment/" imageUrl) eqn:H.
  - right. apply replace_first, H.
  - left. split; reflexivity.
Qed.

(** ** Counting what a computation sends *)

Lemma Quiet_ret {A} (a : A) : Quiet (ret a).
Proof. intros s. reflexivity. Qed.

Lemma Quiet_throw {A} e : Quiet (@throw A e).
Proof. intros s. reflexivity. Qed.

Lemma Quiet_get : Quiet get.
Proof. intros s. reflexivity. Qed.

Lemma Quiet_bind {A B} (m : M A) (k : A -> M B) :
  Quiet m -> (forall a, Quiet (k a)) -> Quiet (bind m k).
Proof.
  intros Hm Hk s. unfold bind. specialize (Hm s).
  destruct (m s) as [[a|e] s1]; simpl in *; subst s1; [apply Hk|reflexivity].
Qed.

Lemma Quiet_getProp v key : Quiet (getProp v key).
Proof. intros s. destruct v; reflexivity. Qed.

Lemma Quiet_includesOf needle v : Quiet (includesOf needle v).
Proof. intros s. destruct v; reflexivity. Qed.

Lemma Quiet_filterM f items :
  (forall x, Quiet (f x)) -> Quiet (filterM f items).
Proof.
  intros Hf. induction items as [|x items IH]; simpl.
  - apply Quiet_ret.
  - apply Quiet_bind; [apply Hf|]. intros keep.
    apply Quiet_bind; [apply IH|]. intros kept. apply Quiet_ret.
Qed.

Lemma Quiet_mapM f items :
  (forall x, Quiet (f x)) -> Quiet (mapM f items).
Proof.
  intros Hf. induction items as [|x items IH]; simpl.
  - apply Quiet_ret.
  - apply Quiet_bind; [apply Hf|]. intros y.
    apply Quiet_bind; [apply IH|]. intros ys. apply Quiet_ret.
Qed.

Ltac quiet :=
  repeat (intros;
          first [ apply Quiet_ret | apply Quiet_throw | apply Quiet_get
                | apply Quiet_getProp | apply Quiet_includesOf
                | apply Quiet_bind
                | apply Quiet_filterM | apply Quiet_mapM
                | match goal with
                  | |- Quiet (if ?c then _ else _) => destruct c
                  | |- Quiet (match ?x with _ => _ end) => destruct x
                  end
                | progress cbv zeta
                | progress unfold nameMatches, minimalTasklist, changedSince,
                    minimalAttachment, minimalComment, text ]).

Lemma QuietT_ret {A} (a : A) : QuietT (retT a).
Proof. intros s. reflexivity. Qed.

Lemma QuietT_throw {A} e : QuietT (@throwT A e).
Proof. intros s. reflexivity. Qed.

Lemma QuietT_lift {A} (m : M A) : Quiet m -> QuietT (lift m).
Proof.
  intros Hm s. unfold lift. specialize (Hm s).
  destruct (m s) as [[a|e] s1]; exact Hm.
Qed.

Lemma QuietT_bind {A B} (m : T A) (k : A -> T B) :
  QuietT m -> (forall a, QuietT (k a)) -> QuietT (bindT m k).
Proof.
  intros Hm Hk s. unfold bindT. specialize (Hm s).
  destruct (m s) as [[a|e] s1]; simpl in *; subst s1; [apply Hk|reflexivity].
Qed.

Ltac quietT :=
  repeat (intros;
          first [ apply QuietT_ret | apply QuietT_throw
                | apply QuietT_lift; solve [quiet]
                | apply QuietT_bind
                | match goal with
                  | |- QuietT (if ?c then _ else _) => destruct c
                  | |- QuietT (match ?x with _ => _ end) => destruct x
                  end
                | progress cbv zeta ]).

Section Counting.

Variable env : Env.
Variable P : ResourceRequest -> Prop.

Lemma SendsM_quiet {A} (m : M A) n t : Quiet m -> SendsM P n t m.
Proof.
  intros Hm s. exists []. rewrite (Hm s).
  split; [apply Effects_none|]. simpl. repeat split; try lia. constructor.
Qed.

Lemma SendsM_bind {A B} (m : M A) (k : A -> M B) n1 t1 n t :
  SendsM P n1 t1 m -> (n1 <= n)%nat -> (t1 <= t)%nat ->
  (forall a, SendsM P (n - n1) (t - t1) (k a)) ->
  SendsM P n t (bind m k).
Proof.
  intros Hm Hn Ht Hk s. unfold bind.
  destruct (Hm s) as (d1 & E1 & R1 & T1 & F1).
  destruct (m s) as [[a|e] s1]; simpl in E1.
  - destruct (Hk a s1) as (d2 & E2 & R2 & T2 & F2).
    exists (d1 ++ d2). split; [exact (Effects_trans _ _ _ _ _ E1 E2)|].
    rewrite resourceRequests_app, tokenRequests_app, !length_app.
    split; [lia|]. split; [lia|]. apply Forall_app. split; assumption.
  - exists d1. split; [exact E1|]. split; [lia|]. split; [lia|exact F1].
Qed.

Lemma SendsM_tryCatch {A} (m : M A) (handler : JsError -> M A) n t :
  SendsM P n t m -> (forall e, Quiet (handler e)) ->
  SendsM P n t (tryCatch m handler).
Proof.
  intros Hm Hh s. unfold tryCatch.
  destruct (Hm s) as (d1 & E1 & R1 & T1 & F1).
  destruct (m s) as [[a|e] s1]; simpl in E1.
  - exists d1. exact (conj E1 (conj R1 (conj T1 F1))).
  - exists d1. rewrite (Hh e s1). exact (conj E1 (conj R1 (conj T1 F1))).
Qed.

Lemma SendsM_makeRequest endpoint verb b :
  (forall s req, dispatched s endpoint verb b req -> P req) ->
  SendsM P 2 3 (makeRequest env endpoint verb b false).
Proof.
  intros HP s.
  destruct (makeRequest_dispatch env endpoint verb b false s)
    as (d & E & R & T & F & _).
  exists d. split; [exact E|]. split; [exact R|]. split; [exact T|].
  apply (Forall_impl _ (HP s) F).
Qed.

Lemma SendsM_ensureFresh : SendsM P 0 1 (ensureFresh env).
Proof.
  intros s. destruct (ensureFresh_effects env s) as (d & E & R & T).
  exists d. rewrite R. split; [exact E|]. simpl.
  split; [lia|]. split; [exact T|constructor].
Qed.

Lemma SendsM_refreshAccessToken : SendsM P 0 1 (refreshAccessToken env).
Proof.
  intros s. destruct (refreshAccessToken_effects env s) as (d & E & R & T).
  exists d. rewrite R. split; [exact E|]. simpl.
  split; [lia|]. split; [exact T|constructor].
Qed.

Lemma SendsM_fetchResource req : P req -> SendsM P 1 0 (fetchResource env req).
Proof.
  intros HP s. unfold fetchResource.
  exists [EvResource req (resourceEndpoint env (history s) req)].
  destruct (resourceEndpoint env (history s) req); simpl;
    (split; [apply Effects_resource|]); repeat split; try lia;
    constructor; [exact HP|constructor|exact HP|constructor].
Qed.

Lemma Sends_quiet {A} (m : T A) n t : QuietT m -> Sends P n t m.
Proof.
  intros Hm s. exists []. rewrite (Hm s).
  split; [apply Effects_none|]. simpl. repeat split; try lia. constructor.
Qed.

Lemma Sends_lift {A} (m : M A) n t : SendsM P n t m -> Sends P n t (lift m).
Proof.
  intros Hm s. destruct (Hm s) as (d & H). exists d. unfold lift.
  destruct (m s) as [[a|e] s1]; exact H.
Qed.

Lemma Sends_bind {A B} (m : T A) (k : A -> T B) n1 t1 n t :
  Sends P n1 t1 m -> (n1 <= n)%nat -> (t1 <= t)%nat ->
  (forall a, Sends P (n - n1) (t - t1) (k a)) ->
  Sends P n t (bindT m k).
Proof.
  intros Hm Hn Ht Hk s. unfold bindT.
  destruct (Hm s) as (d1 & E1 & R1 & T1 & F1).
  destruct (m s) as [[a|e] s1]; simpl in E1.
  - destruct (Hk a s1) as (d2 & E2 & R2 & T2 & F2).
    exists (d1 ++ d2). split; [exact (Effects_trans _ _ _ _ _ E1 E2)|].
    rewrite resourceRequests_app, tokenRequests_app, !length_app.
    split; [lia|]. split; [lia|]. apply Forall_app. split; assumption.
  - exists d1. split; [exact E1|]. split; [lia|]. split; [lia|exact F1].
Qed.

Lemma Sends_tryCatch {A} (m : T A) (handler : ToolError -> T A) n t :
  Sends P n t m -> (forall e, QuietT (handler e)) ->
  Sends P n t (tryCatchT m handler).
Proof.
  intros Hm Hh s. unfold tryCatchT.
  destruct (Hm s) as (d1 & E1 & R1 & T1 & F1).
  destruct (m s) as [[a|e] s1]; simpl in E1.
  - exists d1. exact (conj E1 (conj R1 (conj T1 F1))).
  - exists d1. rewrite (Hh e s1). exact (conj E1 (conj R1 (conj T1 F1))).
Qed.

Lemma SendsM_weaken {A} (m : M A) n t n' t' :
  SendsM P n t m -> (n <= n')%nat -> (t <= t')%nat -> SendsM P n' t' m.
Proof.
  intros Hm Hn Ht s. destruct (Hm s) as (d & E & R & T & F).
  exists d. split; [exact E|]. split; [lia|]. split; [lia|exact F].
Qed.

Lemma Sends_weaken {A} (m : T A) n t n' t' :
  Sends P n t m -> (n <= n')%nat -> (t <= t')%nat -> Sends P n' t' m.
Proof.
  intros Hm Hn Ht s. destruct (Hm s) as (d & E & R & T & F).
  exists d. split; [exact E|]. split; [lia|]. split; [lia|exact F].
Qed.

End Counting.

Lemma Sends_plain P (m : M ToolResult) n t :
  SendsM P n t m -> Sends P n t (plain m).
Proof.
  intros Hm s. destruct (Hm s) as (d & H). exists d. unfold plain, bindT, lift.
  destruct (m s) as [[a|e] s1]; exact H.
Qed.

Lemma Quiet_processImageResponse response : Quiet (processImageResponse response).
Proof. intros s. reflexivity. Qed.

Lemma Quiet_processAttachmentResponse response attachment :
  Quiet (processAttachmentResponse response attachment).
Proof.
  unfold processAttachmentResponse.
  apply Quiet_bind; [quiet|]. intros contentType.
  apply Quiet_bind; [quiet|]. intros [|]; [|quiet].
  apply Quiet_bind; [quiet|]. intros jpeg.
  apply Quiet_bind; [quiet|]. intros jpg.
  apply Quiet_bind; [|quiet].
  destruct jpg; [quiet|].
  apply Quiet_bind; [quiet|]. intros [|]; [quiet|].
  apply Quiet_bind; [quiet|]. intros [|]; [quiet|].
  apply Quiet_bind; [quiet|]. intros [|]; quiet.
Qed.

Lemma QuietT_downloadUrlOf beyond attachment :
  QuietT (downloadUrlOf beyond attachment).
Proof. unfold downloadUrlOf. quietT. Qed.

(** A request of [makeRequest] or of a download helper is any request, and
    a GET without a body when the verb is GET and no body is given. *)
Ltac request_ok :=
  first [ intros; exact I
        | intros ? ? (_ & Hm & Hp & _); split; [right; exact Hm|exact Hp]
        | split; [left; reflexivity|reflexivity] ].

Ltac leafM :=
  first [ apply SendsM_makeRequest; request_ok
        | apply SendsM_ensureFresh
        | apply SendsM_refreshAccessToken
        | apply SendsM_fetchResource; request_ok ].

Ltac quietM :=
  first [ apply Quiet_processImageResponse
        | apply Quiet_processAttachmentResponse
        | solve [quiet] ].

Ltac sendsM :=
  intros; cbv zeta;
  lazymatch goal with
  | |- SendsM _ _ _ (bind _ _) =>
      first [ eapply SendsM_bind;
                [leafM | simpl; lia | simpl; lia | cbn [Nat.sub]; sendsM]
            | eapply (SendsM_bind _ _ _ 0 0);
                [apply SendsM_quiet; solve [quietM] | lia | lia
                |cbn [Nat.sub]; sendsM] ]
  | |- SendsM _ _ _ (tryCatch _ _) =>
      apply SendsM_tryCatch; [sendsM | solve [quiet]]
  | |- SendsM _ _ _ (if ?c then _ else _) => destruct c; sendsM
  | |- SendsM _ _ _ (match ?x with _ => _ end) => destruct x; sendsM
  | |- _ =>
      first [ apply SendsM_quiet; solve [quietM]
            | eapply SendsM_weaken; [leafM | simpl; lia | simpl; lia] ]
  end.

Ltac sendsT :=
  intros; cbv zeta;
  lazymatch goal with
  | |- Sends _ _ _ (bindT _ _) =>
      first [ eapply Sends_bind;
                [apply Sends_lift; leafM | simpl; lia | simpl; lia
                |cbn [Nat.sub]; sendsT]
            | eapply (Sends_bind _ _ _ 0 0);
                [apply Sends_quiet;
                 first [apply QuietT_downloadUrlOf | solve [quietT]]
                |lia | lia | cbn [Nat.sub]; sendsT] ]
  | |- Sends _ _ _ (tryCatchT _ _) =>
      apply Sends_tryCatch; [sendsT | solve [quietT]]
  | |- Sends _ _ _ (plain _) => apply Sends_plain; sendsM
  | |- Sends _ _ _ (lift _) => apply Sends_lift; sendsM
  | |- Sends _ _ _ (if ?c then _ else _) => destruct c; sendsT
  | |- Sends _ _ _ (match ?x with _ => _ end) => destruct x; sendsT
  | |- _ => apply Sends_quiet; solve [quietT]
  end.

Ltac unfold_tools :=
  unfold listPortals, getPortal, listProjects, getProject, createProject,
    updateProject, deleteProject, listTasks, getTask, createTask, updateTask,
    deleteTask, listIssues, getIssue, createIssue, updateIssue, listPhases,
    createPhase, search, listUsers, listTasklistsOf, createTasklist,
    updateTasklist, deleteTasklist, listTaskComments, createTaskComment,
    updateTaskComment, deleteTaskComment, listTaskAttachments,
    deleteTaskAttachment, downloadInlineImageOf, downloadCommentAttachment,
    listFeeds, listTasksInTasklist, listTasklists, downloadInlineImage,
    fetchImage.

(** The budget of each case of the [switch]. *)
Lemma cases_send env lower dateOf beyond params :
  Forall (fun c =>
            Sends anyRequest
              (if String.eqb (fst c) "download_comment_attachment" then 4 else 2)
              (if String.eqb (fst c) "download_comment_attachment" then 5 else 3)
              (snd c))
         (cases env lower dateOf beyond params).
Proof.
  unfold cases. repeat constructor; simpl; unfold_tools; sendsT.
Qed.

(** The cases named [list_...], [get_...], [download_...] and [search] send
    GETs without a body only. *)
Lemma cases_read env lower dateOf beyond params :
  Forall (fun c => readingName (fst c) = true -> Sends plainGet 4 5 (snd c))
         (cases env lower dateOf beyond params).
Proof.
  unfold cases.
  repeat constructor; simpl; try discriminate; intros _; unfold_tools; sendsT.
Qed.

(** ** The CallTool handler *)

Lemma Raises_ret {A} Q (a : A) : Raises Q (retT a).
Proof. intros s e s' H. discriminate. Qed.

Lemma Raises_throw {A} (Q : ToolError -> Prop) e : Q e -> Raises Q (@throwT A e).
Proof. intros He s e' s' H. injection H as <- _. exact He. Qed.

Lemma Raises_lift {A} (Q : ToolError -> Prop) (m : M A) :
  (forall s e s', m s = (Throw e, s') -> Q (Earlier e)) -> Raises Q (lift m).
Proof.
  intros HQ s e s' H. unfold lift in H. specialize (HQ s).
  destruct (m s) as [[a|e1] s1]; [discriminate|].
  injection H as <- _. apply (HQ e1 s1 eq_refl).
Qed.

Lemma Raises_bind {A B} Q (m : T A) (k : A -> T B) :
  Raises Q m -> (forall a, Raises Q (k a)) -> Raises Q (bindT m k).
Proof.
  intros Hm Hk s e s' H. unfold bindT in H. specialize (Hm s).
  destruct (m s) as [[a|e1] s1].
  - apply (Hk a s1 e s' H).
  - injection H as <- _. apply (Hm e1 s1 eq_refl).
Qed.

Lemma Raises_tryCatch {A} Q (m : T A) (handler : ToolError -> T A) :
  (forall e, Raises Q (handler e)) -> Raises Q (tryCatchT m handler).
Proof.
  intros Hh s e s' H. unfold tryCatchT in H.
  destruct (m s) as [[a|e1] s1]; [discriminate|].
  apply (Hh e1 s1 e s' H).
Qed.

Lemma Raises_plain Q (m : M ToolResult) :
  (forall s e s', m s = (Throw e, s') -> Q (Earlier e)) -> Raises Q (plain m).
Proof.
  intros HQ. unfold plain. apply Raises_bind; [apply Raises_lift, HQ|].
  intros r. apply Raises_ret.
Qed.

Lemma Raises_tryCatch_from {A} (Q0 Q : ToolError -> Prop) (m : T A)
    (handler : ToolError -> T A) :
  Raises Q0 m -> (forall e, Q0 e -> Raises Q (handler e)) ->
  Raises Q (tryCatchT m handler).
Proof.
  intros Hm Hh s e s' H. unfold tryCatchT in H. specialize (Hm s).
  destruct (m s) as [[a|e1] s1]; [discriminate|].
  apply (Hh e1 (Hm e1 s1 eq_refl) s1 e s' H).
Qed.

Ltac raises :=
  repeat (intros;
          first [ apply Raises_ret
                | apply Raises_throw; simpl; solve [auto]
                | apply Raises_lift; intros; exact I
                | apply Raises_bind
                | match goal with
                  | |- Raises _ (if ?c then _ else _) => destruct c
                  | |- Raises _ (match ?x with _ => _ end) => destruct x
                  end
                | progress cbv zeta
                | progress unfold downloadUrlOf ]).

(** [downloadCommentAttachment] raises [McpError]s only: those of the
    layers below, and its own, which are [InternalError]s. *)
Lemma downloadCommentAttachment_raises env beyond projectId attachmentId :
  Raises (fun e => isMcp e = true /\ fromBelow e)
         (downloadCommentAttachment env beyond projectId attachmentId).
Proof.
  unfold downloadCommentAttachment.
  apply Raises_bind.
  { apply Raises_lift. intros s e s' H.
    split; [apply (ensureFresh_raises_mcp env s e s' H)|exact I]. }
  intros _. apply Raises_bind; [apply Raises_lift; discriminate|]. intros s.
  destruct (negb _).
  { apply Raises_throw. split; [reflexivity|exact I]. }
  apply (Raises_tryCatch_from fromBelow); [raises|].
  intros [e|code message] He.
  - destruct (isMcpError e) eqn:Hmcp; apply Raises_throw; simpl; auto.
  - apply Raises_throw. split; [reflexivity|exact He].
Qed.

Lemma cases_raise env lower dateOf beyond params :
  Forall (fun c => Raises fromBelow (snd c)) (cases env lower dateOf beyond params).
Proof.
  unfold cases. repeat constructor; simpl;
    first [ apply Raises_lift; intros; exact I
          | apply Raises_plain; intros; exact I
          | intros s e s' H;
            apply (downloadCommentAttachment_raises _ _ _ _ s e s' H) ].
Qed.

Lemma find_by_name {A} (name : string) (l : list (string * A)) :
  match find (fun c => String.eqb name (fst c)) l with
  | Some c => fst c = name /\ In c l
  | None => ~ In name (map fst l)
  end.
Proof.
  induction l as [|[n x] l IH]; simpl.
  - intros [].
  - destruct (String.eqb_spec name n) as [->|Hne].
    + split; [reflexivity|left; reflexivity].
    + destruct (find _ l) as [c|].
      * split; [apply IH|right; apply IH].
      * intros [H|H]; [congruence|exact (IH H)].
Qed.

(** The catalogue that [ListTools] answers with names the cases of the
    [switch], in their order. *)
Lemma toolNames_cases env lower dateOf beyond params :
  map fst (cases env lower dateOf beyond params) = toolNames.
Proof. reflexivity. Qed.

(** X15. Whatever the tool and its arguments, one call of the handler
    sends at most two requests for a resource and at most three to the
    token endpoint (four and five for download_comment_attachment), and
    leaves the base URL and the credentials other than the access token
    as they were. *)
Theorem tool_call_is_bounded env lower dateOf beyond name args s :
  let s' := snd (callTool env lower dateOf beyond name args s) in
  let more := String.eqb name "download_comment_attachment" in
  sameSetup s s' /\
  (length (resourceRequests (since s s')) <= if more then 4 else 2)%nat /\
  (length (tokenRequests (since s s')) <= if more then 5 else 3)%nat.
Proof.
  cbv zeta.
  assert (H : Sends anyRequest
                (if String.eqb name "download_comment_attachment" then 4 else 2)
                (if String.eqb name "download_comment_attachment" then 5 else 3)
                (callTool env lower dateOf beyond name args)).
  { unfold callTool. apply Sends_tryCatch; [|solve [quietT]].
    set (params := match args with Some fields => fields | None => [] end).
    pose proof (find_by_name name (cases env lower dateOf beyond params)) as Hfind.
    destruct (find _ (cases env lower dateOf beyond params)) as [[n run]|].
    - destruct Hfind as [Hn Hin]. simpl in Hn. subst n.
      apply (proj1 (Forall_forall _ _) (cases_send env lower dateOf beyond params) _ Hin).
    - apply Sends_quiet. quietT. }
  destruct (H s) as (d & E & R & T & _).
  rewrite (Effects_since _ _ _ E).
  split; [exact (Effects_sameSetup _ _ _ E)|]. split; assumption.
Qed.

(** X16. A tool named list_..., get_..., download_... or search sends GETs
    without a body only. *)
Theorem reading_tools_only_get env lower dateOf beyond name args s :
  readingName name = true ->
  Forall plainGet
    (resourceRequests (since s (snd (callTool env lower dateOf beyond name args s)))).
Proof.
  intros Hname.
  assert (H : Sends plainGet 4 5 (callTool env lower dateOf beyond name args)).
  { unfold callTool. apply Sends_tryCatch; [|solve [quietT]].
    set (params := match args with Some fields => fields | None => [] end).
    pose proof (find_by_name name (cases env lower dateOf beyond params)) as Hfind.
    destruct (find _ (cases env lower dateOf beyond params)) as [[n run]|].
    - destruct Hfind as [Hn Hin]. simpl in Hn. subst n.
      apply (proj1 (Forall_forall _ _) (cases_read env lower dateOf beyond params) _ Hin).
      exact Hname.
    - apply Sends_quiet. quietT. }
  destruct (H s) as (d & E & _ & _ & F).
  rewrite (Effects_since _ _ _ E). exact F.
Qed.

(** list_projects, on a token that has expired: one GET. *)
Lemma reading_tools_only_get_witness :
  resourceRequests
    (since Scenario.stale
       (snd (callTool Scenario.refreshThenServed asciiLower (fun _ => None)
               Cases.unrendered
               "list_projects" None Scenario.stale)))
  = [ mkResourceRequest
        "https://projectsapi.zoho.com/api/v3/portal/837/projects?page=1&per_page=10"
        (Some "GET")
        [("Authorization", "Zoho-oauthtoken B");
         ("Content-Type", "application/json")]
        None ] /\
  Forall plainGet
    (resourceRequests
       (since Scenario.stale
          (snd (callTool Scenario.refreshThenServed asciiLower (fun _ => None)
               Cases.unrendered
                  "list_projects" None Scenario.stale)))).
Proof.
  split; [vm_compute; reflexivity|].
  apply (reading_tools_only_get Scenario.refreshThenServed asciiLower
           (fun _ => None) Cases.unrendered "list_projects" None Scenario.stale).
  reflexivity.
Defined.

(** X17. The handler answers [MethodNotFound], "Unknown tool", for the
    names that [ListTools] does not advertise, without sending anything or
    touching the state, and for no other name. *)
Theorem unknown_tool_iff_not_advertised env lower dateOf beyond name args s :
  (In name toolNames /\
   fst (callTool env lower dateOf beyond name args s)
     <> Failed (ToolMcpError MethodNotFound (UnknownTool name)))
  \/
  (~ In name toolNames /\
   callTool env lower dateOf beyond name args s
     = (Failed (ToolMcpError MethodNotFound (UnknownTool name)), s)).
Proof.
  unfold callTool.
  set (params := match args with Some fields => fields | None => [] end).
  pose proof (find_by_name name (cases env lower dateOf beyond params)) as Hfind.
  rewrite toolNames_cases in Hfind.
  destruct (find _ (cases env lower dateOf beyond params)) as [[n run]|].
  - left. destruct Hfind as [Hn Hin]. simpl in Hn. subst n.
    split.
    { rewrite <- (toolNames_cases env lower dateOf beyond params).
      apply (in_map fst _ _ Hin). }
    pose proof (proj1 (Forall_forall _ _) (cases_raise env lower dateOf beyond params)
                  _ Hin s) as Hrun.
    simpl in Hrun. unfold tryCatchT.
    destruct (run s) as [[a|e] s1]; [discriminate|].
    specialize (Hrun e s1 eq_refl).
    destruct e as [e|code message]; simpl in *.
    + destruct (isMcpError e); discriminate.
    + subst code. discriminate.
  - right. split; [exact Hfind|reflexivity].
Qed.

(** X18. Every error that leaves the handler is an [McpError]. *)
Theorem callTool_raises_mcp_only env lower dateOf beyond name args s e s' :
  callTool env lower dateOf beyond name args s = (Failed e, s') ->
  isMcp e = true.
Proof.
  unfold callTool, tryCatchT.
  match goal with
  | |- context [match ?run s with _ => _ end] =>
      destruct (run s) as [[a|e1] s1]; [discriminate|]
  end.
  destruct e1 as [e1|code message].
  - destruct (isMcpError e1) eqn:He; intros H; injection H as <- _;
      [exact He|reflexivity].
  - intros H. injection H as <- _. reflexivity.
Qed.

(** get_project while the network is down: the rejection of [fetch], no
    [McpError], is wrapped in one. *)
Lemma callTool_raises_mcp_only_witness :
  fst (callTool (Scenario.world 1000 [] []) asciiLower (fun _ => None)
         Cases.unrendered
         "get_project" (Some [("project_id", Js.Num 7)]) Scenario.fresh)
    = Failed (ToolMcpError InternalError
                (ErrorExecuting "get_project" (FetchFailed "offline"))) /\
  isMcp (ToolMcpError InternalError
           (ErrorExecuting "get_project" (FetchFailed "offline"))) = true.
Proof.
  split; [vm_compute; reflexivity|].
  apply (callTool_raises_mcp_only (Scenario.world 1000 [] []) asciiLower
           (fun _ => None) Cases.unrendered "get_project" (Some [("project_id", Js.Num 7)])
           Scenario.fresh _
           (snd (callTool (Scenario.world 1000 [] []) asciiLower (fun _ => None)
         Cases.unrendered
                   "get_project" (Some [("project_id", Js.Num 7)])
                   Scenario.fresh))).
  vm_compute. reflexivity.
Defined.

(** ** What the writing tools send *)

Lemma lookup_omit_in k keys fields :
  In k keys -> Js.lookup k (Js.omit keys fields) = Js.Undefined.
Proof.
  intros Hk. induction fields as [|[k' x] fields IH]; simpl; [reflexivity|].
  destruct (existsb (String.eqb k') keys) eqn:Hex; [exact IH|].
  simpl. destruct (String.eqb_spec k k') as [->|_]; [|exact IH].
  assert (existsb (String.eqb k') keys = true); [|congruence].
  apply existsb_exists. exists k'. split; [exact Hk|apply String.eqb_refl].
Qed.

Lemma lookup_omit_out k keys fields :
  ~ In k keys -> Js.lookup k (Js.omit keys fields) = Js.lookup k fields.
Proof.
  intros Hk. induction fields as [|[k' x] fields IH]; simpl; [reflexivity|].
  destruct (existsb (String.eqb k') keys) eqn:Hex.
  - destruct (String.eqb_spec k k') as [->|_]; [|exact IH].
    apply existsb_exists in Hex as (k'' & Hin & Heq).
    apply String.eqb_eq in Heq. subst k''. contradiction.
  - simpl. destruct (String.eqb k k'); [reflexivity|exact IH].
Qed.

Lemma lookup_setProp_same k v fields :
  Js.lookup k (Js.setProp k v fields) = v.
Proof.
  induction fields as [|[k' x] fields IH]; simpl.
  - rewrite String.eqb_refl. reflexivity.
  - destruct (String.eqb_spec k k') as [->|Hne]; simpl.
    + rewrite String.eqb_refl. reflexivity.
    + destruct (String.eqb_spec k k'); [contradiction|exact IH].
Qed.

Lemma lookup_setProp_other k k' v fields :
  k' <> k -> Js.lookup k' (Js.setProp k v fields) = Js.lookup k' fields.
Proof.
  intros Hne. induction fields as [|[k'' x] fields IH]; simpl.
  - destruct (String.eqb_spec k' k); [contradiction|reflexivity].
  - destruct (String.eqb_spec k k'') as [->|Hne']; simpl.
    + destruct (String.eqb_spec k' k''); [contradiction|reflexivity].
    + destruct (String.eqb k' k''); [reflexivity|exact IH].
Qed.

(** The requests of a tool that is one call of [makeRequest] and a
    computation on its result. *)
Lemma one_dispatch_requests {A} env endpoint verb b (k : Js.Val -> M A) s :
  (forall v, Quiet (k v)) ->
  Forall (dispatched s endpoint verb b)
    (resourceRequests
       (since s (snd (bind (makeRequest env endpoint verb b false) k s)))).
Proof.
  intros Hk.
  destruct (makeRequest_dispatch env endpoint verb b false s)
    as (d & E & _ & _ & F & _).
  unfold bind. destruct (makeRequest env endpoint verb b false s) as [[v|e] s1];
    simpl in E |- *; [rewrite (Hk v s1)|]; rewrite (Effects_since _ _ _ E);
    exact F.
Qed.

(** X19. Every request of [createTask] is a POST to the tasks of the
    project, whose id stands in the URL as the template literal prints it,
    whatever the rendering of the numbers beyond the safe integers.  Its
    body is the arguments without [project_id] and [tasklist_id], with
    [tasklist: {id: tasklist_id}] when [tasklist_id] is truthy. *)
Theorem create_task_body env beyond params s :
  exists body,
    Forall (fun req =>
              method req = Some "POST" /\
              url req = baseUrl s +++ portalPath s +++ "/projects/"
                          +++ Js.toStr beyond (Js.lookup "project_id" params) +++ "/tasks" /\
              payload req = Some (Js.Obj body))
           (resourceRequests (since s (snd (createTask env beyond params s)))) /\
    Js.lookup "project_id" body = Js.Undefined /\
    Js.lookup "tasklist_id" body = Js.Undefined /\
    Js.lookup "tasklist" body =
      (if Js.truthy (Js.lookup "tasklist_id" params)
       then Js.Obj [("id", Js.lookup "tasklist_id" params)]
       else Js.lookup "tasklist" params) /\
    (forall k, ~ In k ["project_id"; "tasklist_id"; "tasklist"] ->
               Js.lookup k body = Js.lookup k params).
Proof.
  set (rest := Js.omit ["project_id"; "tasklist_id"] params).
  set (body := if Js.truthy (Js.lookup "tasklist_id" params)
               then Js.setProp "tasklist"
                      (Js.Obj [("id", Js.lookup "tasklist_id" params)]) rest
               else rest).
  exists body. split; [|split; [|split; [|split]]].
  - refine (Forall_impl _ _
              (one_dispatch_requests env
                 (portalPath s +++ "/projects/"
                    +++ Js.toStr beyond (Js.lookup "project_id" params) +++ "/tasks")
                 "POST" (Js.Obj body)
                 (fun data => ret (captioned "Task created successfully:" data))
                 s (fun v => Quiet_ret _))).
    intros req (Hu & Hm & Hp & _). repeat split; assumption.
  - unfold body. destruct (Js.truthy _);
      [rewrite lookup_setProp_other by discriminate|];
      apply lookup_omit_in; simpl; auto.
  - unfold body. destruct (Js.truthy _);
      [rewrite lookup_setProp_other by discriminate|];
      apply lookup_omit_in; simpl; auto.
  - unfold body. destruct (Js.truthy _).
    + apply lookup_setProp_same.
    + apply lookup_omit_out. simpl. intros [H|[H|[]]]; discriminate.
  - intros k Hk. simpl in Hk.
    assert (Js.lookup k rest = Js.lookup k params) as Hrest.
    { apply lookup_omit_out. simpl. tauto. }
    unfold body. destruct (Js.truthy _); [|exact Hrest].
    rewrite lookup_setProp_other; [exact Hrest|]. intros ->. tauto.
Qed.

(** X20. Every request of [updateTask] is a PATCH to the task, whose ids
    stand in the URL as the template literal prints them, whatever the
    rendering of the numbers beyond the safe integers.  Its body is the
    arguments without [project_id] and [task_id]. *)
Theorem update_task_body env beyond params s :
  exists body,
    Forall (fun req =>
              method req = Some "PATCH" /\
              url req = baseUrl s +++ portalPath s +++ "/projects/"
                          +++ Js.toStr beyond (Js.lookup "project_id" params) +++ "/tasks/"
                          +++ Js.toStr beyond (Js.lookup "task_id" params) /\
              payload req = Some (Js.Obj body))
           (resourceRequests (since s (snd (updateTask env beyond params s)))) /\
    Js.lookup "project_id" body = Js.Undefined /\
    Js.lookup "task_id" body = Js.Undefined /\
    (forall k, ~ In k ["project_id"; "task_id"] ->
               Js.lookup k body = Js.lookup k params).
Proof.
  exists (Js.omit ["project_id"; "task_id"] params).
  split; [|split; [|split]].
  - refine (Forall_impl _ _
              (one_dispatch_requests env
                 (portalPath s +++ "/projects/"
                    +++ Js.toStr beyond (Js.lookup "project_id" params) +++ "/tasks/"
                    +++ Js.toStr beyond (Js.lookup "task_id" params))
                 "PATCH" (Js.Obj (Js.omit ["project_id"; "task_id"] params))
                 (fun data => ret (captioned "Task updated successfully:" data))
                 s (fun v => Quiet_ret _))).
    intros req (Hu & Hm & Hp & _). repeat split; assumption.
  - apply lookup_omit_in; simpl; auto.
  - apply lookup_omit_in; simpl; auto.
  - intros k Hk. apply lookup_omit_out, Hk.
Qed.

(** A task "Ship" for the tasklist 3 of the project 7. *)
Lemma create_task_body_witness :
  exists body,
    Forall (fun req => payload req = Some (Js.Obj body))
           (resourceRequests
              (since Scenario.fresh
                 (snd (createTask Cases.served Cases.unrendered
                         [("project_id", Js.Num 7); ("name", Js.Str "Ship");
                          ("tasklist_id", Js.Num 3)] Scenario.fresh)))) /\
    Js.lookup "name" body = Js.Str "Ship" /\
    Js.lookup "tasklist" body = Js.Obj [("id", Js.Num 3)].
Proof.
  destruct (create_task_body Cases.served Cases.unrendered
              [("project_id", Js.Num 7); ("name", Js.Str "Ship");
               ("tasklist_id", Js.Num 3)] Scenario.fresh)
    as (body & Hsent & _ & _ & Htasklist & Hother).
  exists body. split; [|split].
  - apply (Forall_impl _ (fun req H => proj2 (proj2 H)) Hsent).
  - rewrite (Hother "name"); [reflexivity|].
    simpl. intros [H|[H|[H|[]]]]; discriminate.
  - rewrite Htasklist. reflexivity.
Defined.

(** A new name for the task 9 of the project 7. *)
Lemma update_task_body_witness :
  exists body,
    Forall (fun req => payload req = Some (Js.Obj body))
           (resourceRequests
              (since Scenario.fresh
                 (snd (updateTask Cases.served Cases.unrendered
                         [("project_id", Js.Num 7); ("task_id", Js.Num 9);
                          ("name", Js.Str "Ship")] Scenario.fresh)))) /\
    Js.lookup "name" body = Js.Str "Ship" /\
    Js.lookup "task_id" body = Js.Undefined.
Proof.
  destruct (update_task_body Cases.served Cases.unrendered
              [("project_id", Js.Num 7); ("task_id", Js.Num 9);
               ("name", Js.Str "Ship")] Scenario.fresh)
    as (body & Hsent & _ & Htask & Hother).
  exists body. split; [|split].
  - apply (Forall_impl _ (fun req H => proj2 (proj2 H)) Hsent).
  - rewrite (Hother "name"); [reflexivity|].
    simpl. intros [H|[H|[]]]; discriminate.
  - exact Htask.
Defined.

(** ** Task lists and task comments *)

Lemma bind_return_inv {A B} (m : M A) (k : A -> M B) s b s' :
  bind m k s = (Return b, s') ->
  exists a s1, m s = (Return a, s1) /\ k a s1 = (Return b, s').
Proof.
  unfold bind. destruct (m s) as [[a|e] s1]; [|discriminate].
  intros H. exists a, s1. split; [reflexivity|exact H].
Qed.

Lemma getProp_return_inv v key s x s' :
  getProp v key s = (Return x, s') -> s' = s /\ x = prop key v.
Proof.
  destruct v; simpl; unfold throw, ret; intros H;
    try discriminate; injection H as <- <-; split; reflexivity.
Qed.


Lemma toJSON_isJson : forall v, isJson v = true -> Js.toJSON v = v.
Proof.
  fix IH 1. intros [ | | b | n | str | items | fields]; simpl; intros H;
    try reflexivity.
  - f_equal. induction items as [|x items IHitems]; simpl in H |- *;
      [reflexivity|].
    apply andb_prop in H as [Hx Hrest].
    rewrite (IHitems Hrest), (IH x Hx).
    destruct x; try reflexivity. discriminate Hx.
  - f_equal. induction fields as [|[k x] fields IHfields]; simpl in H |- *;
      [reflexivity|].
    apply andb_prop in H as [Hx Hrest].
    rewrite (IHfields Hrest), (IH x Hx).
    destruct x; try reflexivity. discriminate Hx.
Qed.

Lemma setProp_lookup key fields :
  Js.lookup key fields <> Js.Undefined ->
  Js.setProp key (Js.lookup key fields) fields = fields.
Proof.
  induction fields as [|[k x] fields IH]; simpl; [congruence|].
  destruct (String.eqb_spec key k) as [->|_]; [reflexivity|].
  intros H. rewrite (IH H). reflexivity.
Qed.

(** X21. Without a name filter and with [minimal] false, [listTasklists]
    hands back the document of the API as it is, when that document has a
    truthy [tasklists]. *)
Theorem unfiltered_tasklists_pass_through env lower projectId nameContains
    fields s s' :
  nameContains = None \/ nameContains = Some "" ->
  makeRequest env (tasklistsEndpoint s projectId) "GET" Js.Undefined false s
    = (Return (Js.Obj fields), s') ->
  isJson (Js.Obj fields) = true ->
  Js.truthy (Js.lookup "tasklists" fields) = true ->
  listTasklists env lower projectId nameContains false s
    = (Return (TextContent (Js.Obj fields)), s').
Proof.
  intros Hfilter Hrun Hjson Hfound.
  assert (Hdef : Js.lookup "tasklists" fields <> Js.Undefined).
  { intros H. rewrite H in Hfound. discriminate. }
  pose proof (toJSON_isJson (Js.Obj fields) Hjson) as Hid. simpl in Hid.
  unfold listTasklists, bind, get. rewrite Hrun. simpl. rewrite Hfound.
  destruct Hfilter as [-> | ->]; simpl; unfold ret;
    rewrite (setProp_lookup _ _ Hdef), Hid; reflexivity.
Qed.

(** The three tasklists and the page information come back as served. *)
Lemma unfiltered_tasklists_pass_through_witness :
  fst (listTasklists Scenario.servingTasklists asciiLower "7" None false
         Scenario.fresh)
  = Return (TextContent Scenario.tasklists).
Proof.
  rewrite (unfiltered_tasklists_pass_through Scenario.servingTasklists asciiLower
             "7" None
             [("tasklists",
               Js.Arr [Scenario.tasklist 1 "Sprint Backlog";
                       Scenario.tasklist 2 "Done";
                       Scenario.tasklist 3 "BACKLOG ideas"]);
              ("page_info", Js.Obj [("page", Js.Num 1)])]
             Scenario.fresh
             (snd (makeRequest Scenario.servingTasklists
                     (tasklistsEndpoint Scenario.fresh "7") "GET" Js.Undefined
                     false Scenario.fresh)));
    [reflexivity | left; reflexivity | vm_compute; reflexivity
    | reflexivity | reflexivity].
Defined.









(** X23. With [minimal] false, [listTaskComments] hands back the document
    of the API: the [since] filter has no effect on what is returned. *)
Theorem full_comments_ignore_since env dateOf beyond projectId taskId since_ s out s' :
  listTaskComments env dateOf beyond projectId taskId false since_ s = (Return out, s') ->
  exists data,
    makeRequest env (commentsEndpoint beyond s projectId taskId) "GET" Js.Undefined
                false s = (Return data, s') /\
    out = textOf data.
Proof.
  unfold listTaskComments. intros H.
  apply bind_return_inv in H as (s0 & s1 & Hget & H).
  injection Hget as <- <-.
  apply bind_return_inv in H as (data & s2 & Hrun & H).
  apply bind_return_inv in H as (found & s3 & Hfound & H).
  apply bind_return_inv in H as (comments & s4 & Hcomments & H).
  injection H as <- <-.
  apply getProp_return_inv in Hfound as [-> _].
  assert (s4 = s2) as ->.
  { destruct (Js.truthy since_).
    - destruct (if Js.truthy found then found else Js.Arr []);
        try discriminate Hcomments.
      apply bind_return_inv in Hcomments as (kept & s5 & Hkept & Hcomments).
      injection Hcomments as _ <-.
      pose proof (Quiet_filterM (changedSince dateOf (dateOf since_)) items
                    ltac:(quiet) s2) as Hq.
      rewrite Hkept in Hq. exact Hq.
    - injection Hcomments as _ <-. reflexivity. }
  exists data. split; [exact Hrun|reflexivity].
Qed.

Lemma changedSince_invalid dateOf c s keep s' :
  changedSince dateOf None c s = (Return keep, s') -> s' = s /\ keep = false.
Proof.
  unfold changedSince. intros H.
  apply bind_return_inv in H as (created & s1 & Hcreated & H).
  apply bind_return_inv in H as (updated & s2 & Hupdated & H).
  apply getProp_return_inv in Hcreated as [-> _].
  apply getProp_return_inv in Hupdated as [-> _].
  injection H as <- <-. split; [reflexivity|].
  unfold laterThan.
  destruct (dateOf created); destruct (Js.truthy updated);
    try destruct (dateOf updated); reflexivity.
Qed.

Lemma filterM_invalid dateOf items :
  forall s kept s',
    filterM (changedSince dateOf None) items s = (Return kept, s') ->
    s' = s /\ kept = [].
Proof.
  induction items as [|c items IH]; simpl; intros s kept s' H.
  - injection H as <- <-. split; reflexivity.
  - apply bind_return_inv in H as (keep & s1 & Hkeep & H).
    apply bind_return_inv in H as (rest & s2 & Hrest & H).
    apply changedSince_invalid in Hkeep as [-> ->].
    apply IH in Hrest as [-> ->].
    injection H as <- <-. split; reflexivity.
Qed.

(** X24. A [since] that is truthy and no valid date filters every comment
    out: [listTaskComments] then hands back an empty list in its minimal
    format, and no error. *)
Theorem invalid_since_drops_every_comment env dateOf beyond projectId taskId since_
    s out s' :
  Js.truthy since_ = true ->
  dateOf since_ = None ->
  listTaskComments env dateOf beyond projectId taskId true since_ s = (Return out, s') ->
  out = textOf (Js.Obj [("comments", Js.Arr [])]).
Proof.
  intros Htruthy Hdate. unfold listTaskComments. rewrite Htruthy, Hdate. intros H.
  apply bind_return_inv in H as (s0 & s1 & _ & H).
  apply bind_return_inv in H as (data & s2 & _ & H).
  apply bind_return_inv in H as (found & s3 & _ & H).
  apply bind_return_inv in H as (comments & s4 & Hcomments & H).
  destruct (if Js.truthy found then found else Js.Arr []);
    try discriminate Hcomments.
  apply bind_return_inv in Hcomments as (kept & s5 & Hkept & Hcomments).
  apply filterM_invalid in Hkept as [-> ->].
  injection Hcomments as <- <-.
  simpl in H. injection H as <- _. reflexivity.
Qed.


(** The two comments, of the times 100 and 300, asked for since 200. *)
Lemma full_comments_ignore_since_witness :
  fst (listTaskComments Cases.servingComments Cases.dateOfNumber
              Cases.unrendered (Js.Num 7)
         (Js.Num 9) false (Js.Num 200) Scenario.fresh)
    = Return (textOf Cases.comments).
Proof.
  destruct (listTaskComments Cases.servingComments Cases.dateOfNumber
              Cases.unrendered (Js.Num 7)
              (Js.Num 9) false (Js.Num 200) Scenario.fresh)
    as [[out|e] s'] eqn:Hrun.
  - destruct (full_comments_ignore_since _ _ _ _ _ _ _ _ _ Hrun)
      as (data & Hdata & ->).
    vm_compute in Hdata. injection Hdata as <- _. reflexivity.
  - exfalso. vm_compute in Hrun. discriminate Hrun.
Defined.

(** The two comments, asked for since "yesterday". *)
Lemma invalid_since_drops_every_comment_witness :
  fst (listTaskComments Cases.servingComments Cases.dateOfNumber
              Cases.unrendered (Js.Num 7)
         (Js.Num 9) true (Js.Str "yesterday") Scenario.fresh)
    = Return (textOf (Js.Obj [("comments", Js.Arr [])])).
Proof.
  destruct (listTaskComments Cases.servingComments Cases.dateOfNumber
              Cases.unrendered (Js.Num 7)
              (Js.Num 9) true (Js.Str "yesterday") Scenario.fresh)
    as [[out|e] s'] eqn:Hrun.
  - rewrite (invalid_since_drops_every_comment Cases.servingComments
               Cases.dateOfNumber Cases.unrendered (Js.Num 7) (Js.Num 9) (Js.Str "yesterday")
               Scenario.fresh out s' eq_refl eq_refl Hrun).
    reflexivity.
  - exfalso. vm_compute in Hrun. discriminate Hrun.
Defined.

(** ** Downloading the attachment of a comment *)

Lemma RaisesM_ret {A} Q (a : A) : RaisesM Q (ret a).
Proof. intros s e s' H. discriminate. Qed.

Lemma RaisesM_get Q : RaisesM Q get.
Proof. intros s e s' H. discriminate. Qed.

Lemma RaisesM_throw {A} (Q : JsError -> Prop) e : Q e -> RaisesM Q (@throw A e).
Proof. intros He s e' s' H. injection H as <- _. exact He. Qed.

Lemma RaisesM_bind {A B} Q (m : M A) (k : A -> M B) :
  RaisesM Q m -> (forall a, RaisesM Q (k a)) -> RaisesM Q (bind m k).
Proof.
  intros Hm Hk s e s' H. unfold bind in H. specialize (Hm s).
  destruct (m s) as [[a|e1] s1].
  - apply (Hk a s1 e s' H).
  - injection H as <- _. apply (Hm e1 s1 eq_refl).
Qed.

Lemma RaisesM_getProp (Q : JsError -> Prop) v key :
  (forall what, Q (TypeError what)) -> RaisesM Q (getProp v key).
Proof.
  intros HQ s e s' H. destruct v; try discriminate H;
    injection H as <- _; apply HQ.
Qed.

Lemma RaisesM_includesOf (Q : JsError -> Prop) needle v :
  (forall what, Q (TypeError what)) -> RaisesM Q (includesOf needle v).
Proof.
  intros HQ s e s' H. destruct v; try discriminate H;
    injection H as <- _; apply HQ.
Qed.

Lemma RaisesM_fetchResource (Q : JsError -> Prop) env req :
  (forall reason, Q (FetchFailed reason)) -> RaisesM Q (fetchResource env req).
Proof.
  intros HQ s e s' H. unfold fetchResource in H.
  destruct (resourceEndpoint env (history s) req); [|discriminate H].
  injection H as <- _. apply HQ.
Qed.

Lemma RaisesM_refreshAccessToken env :
  RaisesM internalOrUnconfigured (refreshAccessToken env).
Proof.
  intros s e s'. rewrite refreshAccessToken_eq.
  destruct (canRefresh (config s)); [|discriminate]. simpl.
  destruct (refreshResult _); intros H; [|discriminate].
  injection H as <- _. exact I.
Qed.

Lemma RaisesM_ensureFresh env : RaisesM internalOrUnconfigured (ensureFresh env).
Proof.
  intros s e s'. rewrite ensureFresh_eq. simpl.
  destruct (clock env (history s) >=? tokenExpiresAt s); [|discriminate].
  apply RaisesM_refreshAccessToken.
Qed.

(** The errors of [makeRequest]: rejections of [fetch] and of [json()],
    the guard's [InvalidRequest], and [InternalError]s. *)
Lemma RaisesM_makeRequest env endpoint verb b isRetry :
  RaisesM internalOrUnconfigured (makeRequest env endpoint verb b isRetry).
Proof.
  intros s e s'. rewrite makeRequest_unfold, makeRequestWith_eq, attempt_eq.
  pose proof (RaisesM_ensureFresh env s) as Hfresh.
  destruct (ensureFresh env s) as [[[]|e1] s1].
  2:{ intros H. injection H as <- _. apply (Hfresh e1 s1 eq_refl). }
  destruct (Js.truthyStr (accessToken (config s1))).
  2:{ intros H. injection H as <- _. exact I. }
  unfold fetchResource.
  destruct (resourceEndpoint env (history s1) _) as [reason|response].
  { intros H. injection H as <- _. exact I. }
  rewrite respond_eq.
  destruct (ok response).
  { destruct (parsed response); intros H; [discriminate|].
    injection H as <- _. exact I. }
  cbv zeta.
  destruct ((status response =? 401) && negb isRetry && canRefresh _).
  2:{ intros H. injection H as <- _. exact I. }
  destruct (refreshAccessToken env _) as [[[]|e2] s2].
  2:{ intros H. injection H as <- _. exact I. }
  destruct (makeRequest env endpoint verb b true s2) as [[v|e3] s3];
    intros H; [discriminate|]. injection H as <- _. exact I.
Qed.

Ltac raisesM :=
  repeat (intros;
          first [ apply RaisesM_ret | apply RaisesM_get
                | apply RaisesM_throw; exact I
                | apply RaisesM_getProp; intros; exact I
                | apply RaisesM_includesOf; intros; exact I
                | apply RaisesM_fetchResource; intros; exact I
                | apply RaisesM_refreshAccessToken
                | apply RaisesM_ensureFresh
                | apply RaisesM_makeRequest
                | apply RaisesM_bind
                | match goal with
                  | |- RaisesM _ (if ?c then _ else _) => destruct c
                  | |- RaisesM _ (match ?x with _ => _ end) => destruct x
                  end
                | progress cbv zeta
                | progress unfold processAttachmentResponse, text ]).

Lemma Raises_lifted {A} (Q : ToolError -> Prop) (m : M A) :
  RaisesM (fun e => Q (Earlier e)) m -> Raises Q (lift m).
Proof. intros Hm. apply Raises_lift. exact Hm. Qed.

Ltac raisesT :=
  repeat (intros;
          first [ apply Raises_ret
                | apply Raises_throw; reflexivity
                | apply Raises_lifted; cbv beta iota; solve [raisesM]
                | apply Raises_bind
                | match goal with
                  | |- Raises _ (if ?c then _ else _) => destruct c
                  | |- Raises _ (match ?x with _ => _ end) => destruct x
                  end
                | progress cbv zeta
                | progress unfold downloadUrlOf ]).

Lemma mcp_internal_or_unconfigured e :
  isMcpError e = true -> internalOrUnconfigured e ->
  isMcp (Earlier e) = true /\
  (codeOf (Earlier e) = Some InternalError \/ tokenNotConfigured (Earlier e)).
Proof.
  destruct e as [| | | |code message]; try discriminate. intros _ H.
  split; [reflexivity|].
  destruct code; simpl in H; try contradiction.
  - right. destruct message; try contradiction;
      [right; reflexivity|left; reflexivity].
  - left. reflexivity.
Qed.

(** X25. Every error that leaves [downloadCommentAttachment] is an
    [McpError].  Its code is [InternalError], but for the
    "Zoho access token not configured" of the guard at lines 1470-1475 and
    of [makeRequest], which has the code [InvalidRequest]. *)
Theorem attachment_download_raises_mcp_only env beyond projectId attachmentId
    s e s' :
  downloadCommentAttachment env beyond projectId attachmentId s = (Failed e, s') ->
  isMcp e = true /\
  (codeOf e = Some InternalError \/ tokenNotConfigured e).
Proof.
  revert s e s'.
  change (Raises (fun e => isMcp e = true /\
                           (codeOf e = Some InternalError \/ tokenNotConfigured e))
                 (downloadCommentAttachment env beyond projectId attachmentId)).
  unfold downloadCommentAttachment.
  apply Raises_bind.
  { apply Raises_lift. intros s e s' H.
    apply mcp_internal_or_unconfigured;
      [apply (ensureFresh_raises_mcp env s e s' H)
      |apply (RaisesM_ensureFresh env s e s' H)]. }
  intros _. apply Raises_bind; [apply Raises_lift; discriminate|]. intros s.
  destruct (negb _).
  { apply Raises_throw. split; [reflexivity|right; left; reflexivity]. }
  apply (Raises_tryCatch_from
           (fun e => match e with
                     | Earlier e' => internalOrUnconfigured e'
                     | ToolMcpError code _ => code = InternalError
                     end)); [raisesT|].
  intros [e|code message] He.
  - destruct (isMcpError e) eqn:Hmcp; apply Raises_throw.
    + apply mcp_internal_or_unconfigured; assumption.
    + split; [reflexivity|left; reflexivity].
  - subst code. apply Raises_throw. split; [reflexivity|left; reflexivity].
Qed.

(** The details that are served name no URL to download from; and a
    server without a token, whose refresh credentials are incomplete. *)
Lemma attachment_download_raises_mcp_only_witness :
  (fst (downloadCommentAttachment Cases.served Cases.unrendered (Js.Num 7)
          (Js.Num 5) Scenario.fresh)
     = Failed (ToolMcpError InternalError (NoDownloadUrl Scenario.portals)) /\
   codeOf (ToolMcpError InternalError (NoDownloadUrl Scenario.portals))
     = Some InternalError) /\
  (fst (downloadCommentAttachment Cases.served Cases.unrendered (Js.Num 7)
          (Js.Num 5) (Scenario.startWith (Scenario.staticToken "") 0))
     = Failed (Earlier (McpError InvalidRequest ImageTokenNotConfigured)) /\
   isMcp (Earlier (McpError InvalidRequest ImageTokenNotConfigured)) = true).
Proof.
  split; (split; [vm_compute; reflexivity|]).
  - destruct (attachment_download_raises_mcp_only Cases.served Cases.unrendered
                (Js.Num 7) (Js.Num 5) Scenario.fresh
                (ToolMcpError InternalError (NoDownloadUrl Scenario.portals))
                (snd (downloadCommentAttachment Cases.served Cases.unrendered
                        (Js.Num 7) (Js.Num 5) Scenario.fresh)))
      as [_ [Hcode|[H|H]]];
      [vm_compute; reflexivity | exact Hcode | discriminate H | discriminate H].
  - apply (attachment_download_raises_mcp_only Cases.served Cases.unrendered
             (Js.Num 7) (Js.Num 5) (Scenario.startWith (Scenario.staticToken "") 0)
             (Earlier (McpError InvalidRequest ImageTokenNotConfigured))
             (snd (downloadCommentAttachment Cases.served Cases.unrendered
                     (Js.Num 7) (Js.Num 5)
                     (Scenario.startWith (Scenario.staticToken "") 0)))).
    vm_compute. reflexivity.
Defined.

(** X26. [processAttachmentResponse] goes by the content type of the
    response, else by the type that the attachment declares, else by
    application/octet-stream.  When that is a string, the result is an
    image of one of the four media types if the string contains image/,
    and otherwise a text with the name and the size of the attachment, the
    type, and the body in base64. *)
Theorem attachment_result_by_type response fields c s :
  effectiveType response fields = Js.Str c ->
  exists mime,
    In mime ["image/png"; "image/jpeg"; "image/gif"; "image/webp"] /\
    processAttachmentResponse response (Js.Obj fields) s
    = (Return
         (if Js.includes "image/" c
          then Plain (ImageContent (Js.base64 (body response)) mime)
          else textOf (Js.Obj [("filename", Js.lookup "name" fields);
                               ("type", Js.Str c);
                               ("size", Js.lookup "size" fields);
                               ("data_base64",
                                Js.Str (Js.base64 (body response)))])),
       s).
Proof.
  intros Htype.
  assert (Hfirst :
    (match contentType response with
     | Some c0 =>
         if Js.truthyStr c0 then ret (Js.Str c0)
         else
           declared <- getProp (Js.Obj fields) "type" ;;
           ret (if Js.truthy declared then declared
                else Js.Str "application/octet-stream")
     | None =>
         declared <- getProp (Js.Obj fields) "type" ;;
         ret (if Js.truthy declared then declared
              else Js.Str "application/octet-stream")
     end) s = (Return (Js.Str c), s)).
  { rewrite <- Htype. unfold effectiveType.
    destruct (contentType response) as [c0|];
      [destruct (Js.truthyStr c0)|]; reflexivity. }
  unfold processAttachmentResponse.
  unfold bind at 1. rewrite Hfirst. simpl.
  unfold bind, ret. simpl.
  destruct (Js.includes "image/" c).
  - destruct (Js.includes "jpeg" c); simpl;
      [eexists; split; [|reflexivity]; simpl; auto|].
    destruct (Js.includes "jpg" c); simpl;
      [eexists; split; [|reflexivity]; simpl; auto|].
    destruct (Js.includes "gif" c); simpl;
      [eexists; split; [|reflexivity]; simpl; auto|].
    destruct (Js.includes "webp" c); simpl;
      [eexists; split; [|reflexivity]; simpl; auto|].
    destruct (Js.includes "png" c); simpl;
      eexists; (split; [|reflexivity]); simpl; auto.
  - exists "image/png". split; [simpl; auto|reflexivity].
Qed.

(** A PDF served without a content type, that the attachment declares. *)
Lemma attachment_result_by_type_witness :
  processAttachmentResponse (mkResponse 200 "Man" None None)
    (Js.Obj [("name", Js.Str "a.pdf"); ("type", Js.Str "application/pdf");
             ("size", Js.Num 3)])
    Scenario.fresh
  = (Return (textOf (Js.Obj [("filename", Js.Str "a.pdf");
                             ("type", Js.Str "application/pdf");
                             ("size", Js.Num 3);
                             ("data_base64", Js.Str "TWFu")])),
     Scenario.fresh).
Proof.
  destruct (attachment_result_by_type (mkResponse 200 "Man" None None)
              [("name", Js.Str "a.pdf"); ("type", Js.Str "application/pdf");
               ("size", Js.Num 3)]
              "application/pdf" Scenario.fresh eq_refl) as (mime & _ & ->).
  reflexivity.
Defined.
